(* ===== verification/_CoqProject ===== *)
-Q . S2P
Prelude.v
PyRuntime.v
PyValue.v
PyRe.v
Onboarding.v
Metrics.v
Sqlite.v
Http.v
Report.v
Legacy.v
