(* ===== verification/Prelude.v ===== *)
(** * A verification library for pep_mvp's Cloud Functions

    The repository is two Google Cloud Functions written in Python:

    - [src/backend/cloud_functions/onboard_patient/main.py]
      - [onboard_patient]: a legacy HTTP handler. It inserts a patient
        into SQLite.
      - [process_structured_onboarding]: validates a structured intake
        dict and writes the canonical patient document to Firestore.
    - [src/backend/cloud_functions/generate_report/main.py]
      - [generate_report]: an HTTP handler. It reads the latest exercise
        session from SQLite and renders a one-sentence summary.
      - [extract_exercise_metrics]: mines a conversation transcript for
        set, rep and minute counts with three regular expressions.
      - [format_conversation_history]: renders a transcript as text.

    The components share no in-process state. They meet only in the
    external stores (Firestore, SQLite) and in the Python runtime they
    all call: [int()], [str()], [str.lower()] and the [re] module. The
    development therefore models the runtime itself and builds each
    handler on top of that model.

    ** Files (in dependency order, see _CoqProject)

    - [Prelude] (this file): code-point strings [ustr], Python's
      [str.join] and [in] on strings, decimal digits, the exception
      monad [result] and its notation, the hint database [pep] and the
      shared tactics.
    - [PyRuntime]: the interface [PyRuntime] (a typeclass) to the parts
      of CPython that are tables rather than code. These are the
      Unicode database ([str.isdecimal], [str.isspace], [str.lower],
      [str.isprintable]) and the shortest-repr algorithm for floats.
      Each field has the laws the development relies on, stated for
      ASCII. [ucd_sample] is a concrete instance used by the witnesses.
    - [PyValue]: Python values as JSON decoding produces them
      ([pyval]); Python exceptions ([exn]); [str()]/[repr()];
      truthiness; [dict.get]; the [in] operator; and [int()] on every
      kind of value. This includes CPython's base-10 string parser and
      its 4300-digit limit. Round trip: [int(str(n)) = n].
    - [PyRe]: a backtracking matcher with the semantics of CPython's
      [re] on the constructs the code uses: classes, [\d], [\s],
      concatenation, alternation, greedy [*], [+] and [?], groups, and
      the [^]/[$] anchors, where [$] also matches before a final
      newline. On top of it are [re.match] and [re.findall]. Also
      proved here: soundness of the matcher with respect to an
      inductive matching relation, and that its fuel is enough.
    - [Onboarding]: [process_structured_onboarding] with its Firestore
      and id-generator effects, as a state-passing function on a world
      record. Proved here:
      - each validation branch, in the code's order;
      - the record invariant ("no stored record has an invalid value")
        over any sequence of requests;
      - freshness of patient ids;
      - the error paths, 400 versus 500.
    - [Metrics]: [extract_exercise_metrics] and
      [format_conversation_history]. The loop state includes whether
      the function-local [re] (bound by [import re] inside the sets
      branch) has a value. Proved here:
      - refinement: on transcripts that never read [re] unbound, the
        result is the spec's running maximum of the last match per
        message;
      - the exact condition under which it raises
        [UnboundLocalError];
      - counters are non-negative and monotone along the transcript;
      - [int()] of a match raises past 4300 digits;
      - the count pattern has no word boundary: a message whose only
        number is followed by white space and "set" counts it as sets,
        whatever letters continue the word ([re_findall_run] computes
        what [re.findall] finds on such a subject);
      - one formatted line per message, with the speaker decided by
        [role == 'user'].
    - [Sqlite]: SQL storage classes, the [sqlite3] adaptation of
      parameters (64-bit ints, NaN as NULL, UTF-8 without surrogates,
      no lists or dicts), [=] with NULL, and SQLite's comparison order,
      proved a total order. The interface [SqlSort] states what
      [ORDER BY ... DESC LIMIT 1] promises; [first_max_sort]
      implements it.
    - [Http]: requests and responses of the Flask handlers, the
      framework's 500 page for escaped exceptions ([run_handler]), and
      the [not j or k not in j] check.
    - [Report]: [generate_report] with the database and the count of
      connections left open as state. Proved here: a 200 reports the
      latest matching session (refinement of spec section 4.3) and
      closes the connection; the 404 path leaves it open; malformed
      bodies and out-of-range ids; the summary sentence.
    - [Legacy]: the [onboard_patient] handler. Line 71 always raises,
      so it never answers 200 and never writes a row.

    ** Modelling choices

    - Strings are lists of Unicode code points ([list N]), because the
      code's regular expressions use [\d] and [\s]. For [str] patterns,
      CPython matches those on Unicode decimal digits and Unicode white
      space.
    - Python [int] is [Z] (unbounded). The only bound CPython puts on it
      here is the 4300-digit limit of [int <-> str] conversion
      (CPython >= 3.11). Both directions model it.
    - Floats are dyadic values [m * 2^e] plus infinities and NaN.
      [int(x)] truncates towards zero and is exact on them. Their
      decimal repr is the runtime's [float_repr].
    - Each Python [raise] that escapes a handler is a value [Err e] of
      the exception monad. The handlers catch exactly what the code
      catches: [except (ValueError, TypeError)] and
      [except Exception].
    - External services (Firestore, uuid4, the clock, SQLite) are
      explicit world state. Anything the code cannot control is an
      argument: the outcome of a Firestore write, and the uuid source,
      whose interface promises only freshness.

    ** Fuel and bounds

    - [star_loop] gets [length s - i + 1] rounds for a star that starts
      at [i]: every round consumes a character. [mt_complete] proves
      that this never cuts off a match that exists.
    - [findall_loop] gets [length s + 1] rounds. Each round starts
      further on than the last, and [re_findall_fuel] proves that more
      fuel gives the same list.
    - [digits] gets [size n + 1] rounds; [digits_fuel_enough] proves
      it is enough.

    ** Not modelled

    - HTTP transport, [json.dumps] and [jsonify] text, logging,
      module-level client initialisation, and [DateTimeEncoder]:
      [process_structured_onboarding] only ever serialises
      string-valued dicts, so the encoder is never invoked.
    - The finalisation of connection objects by CPython's garbage
      collector: the state counts the connections the code does not
      close itself.
    - SQLite BLOB values, and column affinities: the schema is not in
      the repository. Parameters are compared with [=] on storage
      classes, as for columns without affinity.
    - Malformed HTTP bodies: [request.get_json()] is taken to have
      produced a JSON value.
*)

From Stdlib Require Import Ascii String ZArith NArith Lia.
From stdpp Require Import base list strings gmap.

Declare Scope pep_scope.
Delimit Scope pep_scope with pep.
Open Scope N_scope.

(** ** Code-point strings *)

(** A Python [str] is a sequence of code points. *)
Abbreviation ustr := (list N).

(** A Python string literal of the source, written in ASCII. *)
Definition u (s : string) : ustr := map N_of_ascii (list_ascii_of_string s).
Arguments u s%_string_scope.

Definition is_ascii (c : N) : bool := c <? 128.

Definition is_ascii_digit (c : N) : bool := (48 <=? c) && (c <=? 57).

Definition is_ascii_upper (c : N) : bool := (65 <=? c) && (c <=? 90).

(** ASCII case folding, as [str.lower] does on ASCII. *)
Definition ascii_lower (c : N) : N := if is_ascii_upper c then c + 32 else c.

(** [needle in hay] for two [str]. The empty string is in every string. *)
Fixpoint is_prefix (p s : ustr) : bool :=
  match p, s with
  | [], _ => true
  | c :: p', d :: s' => (c =? d) && is_prefix p' s'
  | _ :: _, [] => false
  end.

Fixpoint contains (needle hay : ustr) : bool :=
  is_prefix needle hay ||
  match hay with
  | [] => false
  | _ :: hay' => contains needle hay'
  end.

(** [sep.join(l)]. *)
Fixpoint join (sep : ustr) (l : list ustr) : ustr :=
  match l with
  | [] => []
  | [x] => x
  | x :: l' => x ++ sep ++ join sep l'
  end.

(** [s.split(chr(sep))]: the pieces between the separators. *)
Fixpoint split_on (sep : N) (s : ustr) : list ustr :=
  match s with
  | [] => [[]]
  | c :: s' =>
      if c =? sep then [] :: split_on sep s'
      else match split_on sep s' with
           | w :: ws => (c :: w) :: ws
           | [] => [[c]]
           end
  end.

(** [l[-1]], for the cases where the code has checked [l] is non-empty. *)
Fixpoint last_opt {A} (l : list A) : option A :=
  match l with
  | [] => None
  | [x] => Some x
  | _ :: l' => last_opt l'
  end.

(** ** Decimal digits of naturals *)

Definition digit_char (d : N) : N := 48 + d.

(** The decimal digits of [n], most significant first, without leading
    zeros; [0] is ["0"]. [fuel] bounds the number of digits: a number of
    [k] bits has at most [k] decimal digits, and [0] has one. *)
Fixpoint digits_fuel (fuel : nat) (n : N) (acc : ustr) : ustr :=
  match fuel with
  | O => acc
  | S f =>
      let acc' := digit_char (n mod 10) :: acc in
      if n <? 10 then acc' else digits_fuel f (n / 10) acc'
  end.

Definition digits (n : N) : ustr := digits_fuel (S (N.to_nat (N.size n))) n [].

(** The value of a string of ASCII digits. *)
Definition value_of_digits (s : ustr) : N :=
  fold_left (fun acc c => acc * 10 + (c - 48)) s 0.

(** ** The exception monad *)

(** A computation that returns an [A] or raises an [E]. *)
Inductive result (E A : Type) : Type :=
  | Ok (a : A)
  | Err (e : E).
Arguments Ok {E A} a.
Arguments Err {E A} e.

#[export] Instance result_ret E : MRet (result E) := λ A a, Ok a.
#[export] Instance result_bind E : MBind (result E) :=
  λ A B f m, match m with Ok a => f a | Err e => Err e end.
#[export] Instance result_fmap E : FMap (result E) :=
  λ A B f m, match m with Ok a => Ok (f a) | Err e => Err e end.

(** A monadic left fold, the shape of a Python [for] loop that updates an
    accumulator and may raise. *)
Fixpoint foldM {E A B} (f : A -> B -> result E A) (acc : A) (l : list B)
  : result E A :=
  match l with
  | [] => Ok acc
  | x :: l' => a ← f acc x; foldM f a l'
  end.

(** ** Automation *)

Create HintDb pep discriminated.
Create Rewrite HintDb pep_rw.

(** Split a [bind] whose outcome is known. *)
Ltac inv_bind H :=
  lazymatch type of H with
  | (match ?m with Ok _ => _ | Err _ => _ end) = _ =>
      let E := fresh "E" in destruct m eqn:E; try discriminate H
  | mbind _ ?m = _ =>
      let E := fresh "E" in destruct m eqn:E; cbn in H; try discriminate H
  end.

(** Case analysis on the boolean tests of the code. *)
Ltac case_tests :=
  repeat match goal with
  | |- context [if ?b then _ else _] =>
      lazymatch b with
      | context [if _ then _ else _] => fail
      | _ => destruct b eqn:?
      end
  end.

(** Turn the boolean comparisons on [N] of the code into arithmetic
    facts, one case per outcome, and close what [lia] can. *)
Ltac nbool :=
  repeat match goal with
  | _ : context [(?a <=? ?b)%N] |- _ =>
      let E := fresh "E" in
      destruct (a <=? b)%N eqn:E; [apply N.leb_le in E | apply N.leb_gt in E]
  | |- context [(?a <=? ?b)%N] =>
      let E := fresh "E" in
      destruct (a <=? b)%N eqn:E; [apply N.leb_le in E | apply N.leb_gt in E]
  | _ : context [(?a <? ?b)%N] |- _ =>
      let E := fresh "E" in
      destruct (a <? b)%N eqn:E; [apply N.ltb_lt in E | apply N.ltb_ge in E]
  | |- context [(?a <? ?b)%N] =>
      let E := fresh "E" in
      destruct (a <? b)%N eqn:E; [apply N.ltb_lt in E | apply N.ltb_ge in E]
  | _ : context [(?a =? ?b)%N] |- _ =>
      let E := fresh "E" in
      destruct (a =? b)%N eqn:E; [apply N.eqb_eq in E | apply N.eqb_neq in E]
  | |- context [(?a =? ?b)%N] =>
      let E := fresh "E" in
      destruct (a =? b)%N eqn:E; [apply N.eqb_eq in E | apply N.eqb_neq in E]
  end;
  cbn in *; try done; try lia.

(** ** Generic lemmas *)

Lemma bind_Ok {E A B} (a : A) (f : A -> result E B) : (Ok a ≫= f) = f a.
Proof. reflexivity. Qed.

Lemma bind_Err {E A B} (e : E) (f : A -> result E B) :
  (Err e ≫= f) = Err e.
Proof. reflexivity. Qed.

Lemma bind_eq_Ok {E A B} (m : result E A) (f : A -> result E B) b :
  (m ≫= f) = Ok b -> exists a, m = Ok a /\ f a = Ok b.
Proof. destruct m; cbn; [eauto | discriminate]. Qed.

#[export] Hint Rewrite @bind_Ok @bind_Err : pep_rw.

Lemma foldM_app {E A B} (f : A -> B -> result E A) acc l1 l2 :
  foldM f acc (l1 ++ l2) = (a ← foldM f acc l1; foldM f a l2).
Proof.
  revert acc. induction l1 as [|x l1 IH]; intros acc; cbn; [done|].
  destruct (f acc x); cbn; [apply IH | done].
Qed.

Lemma mapM_Ok_nil {E A B} (f : A -> result E B) ys : mapM f [] = Ok ys -> ys = [].
Proof. by intros [= <-]. Qed.

Lemma mapM_Ok_cons {E A B} (f : A -> result E B) x l ys :
  mapM f (x :: l) = Ok ys -> exists y ys', ys = y :: ys' /\ f x = Ok y /\ mapM f l = Ok ys'.
Proof.
  cbn. destruct (f x) as [y|]; cbn; [|discriminate].
  destruct (mapM f l) as [ys'|]; cbn; [|discriminate]. intros [= <-]. eauto.
Qed.

Lemma is_prefix_app (p s t : ustr) :
  is_prefix p s = true -> is_prefix p (s ++ t) = true.
Proof.
  revert s. induction p as [|c p IH]; intros [|d s]; cbn; try done.
  rewrite !andb_true_iff. intros [-> H]. auto.
Qed.

Lemma is_prefix_spec (p s : ustr) :
  is_prefix p s = true <-> exists t, s = p ++ t.
Proof.
  revert s. induction p as [|c p IH]; intros [|d s]; cbn.
  - split; eauto.
  - split; eauto.
  - split; [done|]. intros [t Ht]. discriminate.
  - rewrite andb_true_iff, N.eqb_eq, IH. split.
    + intros [-> [t ->]]. eauto.
    + intros [t Ht]. injection Ht as -> ->. eauto.
Qed.

Lemma contains_spec (p s : ustr) :
  contains p s = true <-> exists a b, s = a ++ p ++ b.
Proof.
  induction s as [|d s IH].
  - cbn. rewrite orb_false_r, is_prefix_spec. split.
    + intros [t Ht]. by exists [], t.
    + intros [[|c a] [b Hab]]; [by exists b | discriminate].
  - cbn [contains]. rewrite orb_true_iff, is_prefix_spec, IH. split.
    + intros [[t Ht] | [a [b ->]]].
      * by exists [], t.
      * by exists (d :: a), b.
    + intros [[|c a] [b Hab]]; cbn in Hab.
      * left. eauto.
      * injection Hab as -> ->. right. eauto.
Qed.

Lemma contains_app_l (p s t : ustr) :
  contains p s = true -> contains p (s ++ t) = true.
Proof.
  rewrite !contains_spec. intros [a [b ->]]. exists a, (b ++ t).
  by rewrite <- !app_assoc.
Qed.

Lemma contains_app_r (p s t : ustr) :
  contains p t = true -> contains p (s ++ t) = true.
Proof.
  rewrite !contains_spec. intros [a [b ->]]. exists (s ++ a), b.
  by rewrite <- !app_assoc.
Qed.

Lemma contains_infix (p a b : ustr) : contains p (a ++ p ++ b) = true.
Proof. apply contains_spec. eauto. Qed.

#[export] Hint Resolve contains_app_l contains_app_r contains_infix : pep.

Lemma split_on_app sep l r :
  sep ∉ l -> split_on sep (l ++ [sep] ++ r) = l :: split_on sep r.
Proof.
  change ([sep] ++ r) with (sep :: r).
  induction l as [|c l IH]; cbn; intros Hl.
  - by rewrite N.eqb_refl.
  - apply not_elem_of_cons in Hl as [Hc Hl]. rewrite IH by done.
    by destruct (N.eqb_spec c sep).
Qed.

Lemma split_on_free sep l : sep ∉ l -> split_on sep l = [l].
Proof.
  induction l as [|c l IH]; cbn; intros Hl; [done|].
  apply not_elem_of_cons in Hl as [Hc Hl]. rewrite IH by done.
  by destruct (N.eqb_spec c sep).
Qed.

(** Splitting a join on a separator no piece contains gives the pieces
    back. *)
Lemma split_on_join sep ls :
  ls <> [] -> Forall (fun l => sep ∉ l) ls -> split_on sep (join [sep] ls) = ls.
Proof.
  induction ls as [|l ls IH]; intros Hne Hf; [done|].
  apply Forall_cons in Hf as [Hl Hf]. destruct ls as [|l' ls'].
  - by apply split_on_free.
  - change (join [sep] (l :: l' :: ls')) with (l ++ [sep] ++ join [sep] (l' :: ls')).
    rewrite split_on_app by done. by rewrite IH.
Qed.

(** A test every element passes holds of each lookup. *)
Lemma forallb_lookup {A} (f : A -> bool) l k x :
  forallb f l = true -> l !! k = Some x -> f x = true.
Proof.
  intros Hl Hk%list_elem_of_lookup_2%list_elem_of_In.
  exact (proj1 (List.forallb_forall f l) Hl x Hk).
Qed.

Lemma last_opt_app_single {A} (l : list A) x : last_opt (l ++ [x]) = Some x.
Proof.
  induction l as [|y l IH]; [done|]. cbn. rewrite IH.
  destruct (l ++ [x]) eqn:E; [destruct l; discriminate | done].
Qed.

Lemma last_opt_Some {A} (l : list A) x :
  last_opt l = Some x -> exists l', l = l' ++ [x].
Proof.
  induction l as [|y l IH]; cbn; [done|].
  destruct l as [|z l].
  - intros [= ->]. by exists [].
  - intros H. destruct (IH H) as [l' ->]. by exists (y :: l').
Qed.

Lemma last_opt_In {A} (l : list A) x : last_opt l = Some x -> In x l.
Proof.
  intros [l' ->]%last_opt_Some. apply in_or_app. right. by left.
Qed.

Lemma last_opt_None {A} (l : list A) : last_opt l = None <-> l = [].
Proof.
  split; [|by intros ->].
  destruct l as [|x l]; [done|]. intros H. exfalso.
  destruct (last_opt (x :: l)) eqn:E; [discriminate|].
  revert x E. induction l as [|y l IH]; intros x; cbn; [discriminate|].
  apply IH.
Qed.

(** ** Decimal digits *)

Lemma value_of_digits_acc (l : ustr) (a : N) :
  fold_left (fun acc c => acc * 10 + (c - 48)) l a =
  a * 10 ^ N.of_nat (length l) + value_of_digits l.
Proof.
  unfold value_of_digits. revert a. induction l as [|c l IH]; intros a; cbn.
  - lia.
  - rewrite (IH (a * 10 + (c - 48))), (IH (0 * 10 + (c - 48))).
    rewrite Nat2N.inj_succ, N.pow_succ_r'. lia.
Qed.

Lemma value_of_digits_app (l1 l2 : ustr) :
  value_of_digits (l1 ++ l2) =
  value_of_digits l1 * 10 ^ N.of_nat (length l2) + value_of_digits l2.
Proof. unfold value_of_digits at 1. by rewrite fold_left_app, value_of_digits_acc. Qed.

Lemma digits_fuel_value f n acc :
  n < 10 ^ N.of_nat f ->
  value_of_digits (digits_fuel f n acc) =
  n * 10 ^ N.of_nat (length acc) + value_of_digits acc.
Proof.
  revert n acc. induction f as [|f IH]; intros n acc Hn; cbn [digits_fuel].
  - cbn in Hn. assert (n = 0) as -> by lia. lia.
  - rewrite Nat2N.inj_succ, N.pow_succ_r' in Hn.
    pose proof (N.div_mod n 10 ltac:(lia)) as Hdm.
    pose proof (N.mod_lt n 10 ltac:(lia)) as Hr.
    assert (Hv : value_of_digits [digit_char (n mod 10)] = n mod 10)
      by (unfold value_of_digits, digit_char; cbn [fold_left];
          rewrite (N.add_comm 48), N.add_sub; lia).
    destruct (n <? 10) eqn:E.
    + apply N.ltb_lt in E. change (?x :: acc) with ([x] ++ acc).
      rewrite value_of_digits_app, Hv, N.mod_small by lia. lia.
    + apply N.ltb_ge in E. rewrite IH.
      * change (?x :: acc) with ([x] ++ acc).
        rewrite value_of_digits_app, Hv, length_app, Nat2N.inj_add, N.pow_add_r.
        cbn. nia.
      * apply N.Div0.div_lt_upper_bound; lia.
Qed.

Lemma digits_fuel_chars f n acc :
  forallb is_ascii_digit acc = true ->
  forallb is_ascii_digit (digits_fuel f n acc) = true.
Proof.
  revert n acc. induction f as [|f IH]; intros n acc Hacc; cbn [digits_fuel]; [done|].
  assert (Hc : is_ascii_digit (digit_char (n mod 10)) = true).
  { unfold is_ascii_digit, digit_char.
    pose proof (N.mod_lt n 10 ltac:(lia)). remember (n mod 10) as r. nbool. }
  destruct (n <? 10); [|apply IH]; cbn; rewrite Hc, Hacc; done.
Qed.

Lemma digits_fuel_nonempty f n acc : digits_fuel (S f) n acc <> [].
Proof.
  revert n acc. induction f as [|f IH]; intros n acc; cbn [digits_fuel].
  - by destruct (n <? 10).
  - destruct (n <? 10); [done | apply IH].
Qed.

Lemma digits_fuel_enough n : n < 10 ^ N.of_nat (S (N.to_nat (N.size n))).
Proof.
  pose proof (N.size_gt n) as H.
  assert (2 ^ N.size n <= 10 ^ N.size n) by (apply N.pow_le_mono_l; lia).
  rewrite Nat2N.inj_succ, N2Nat.id, N.pow_succ_r'. lia.
Qed.

(** [digits] is a decimal numeral of [n]: its value is [n], and it is a
    non-empty string of ASCII digits. *)
Lemma value_of_digits_digits n : value_of_digits (digits n) = n.
Proof.
  unfold digits. rewrite digits_fuel_value by apply digits_fuel_enough.
  cbn. lia.
Qed.

Lemma digits_chars n : forallb is_ascii_digit (digits n) = true.
Proof. by apply digits_fuel_chars. Qed.

Lemma digits_nonempty n : digits n <> [].
Proof. apply digits_fuel_nonempty. Qed.

Lemma digits_fuel_length f n acc : (length (digits_fuel f n acc) <= f + length acc)%nat.
Proof.
  revert n acc. induction f as [|f IH]; intros n acc; cbn; [lia|].
  destruct (n <? 10); cbn; [lia|]. specialize (IH (n / 10) (digit_char (n mod 10) :: acc)).
  cbn in IH. lia.
Qed.

(** A number below [2^k] has at most [k + 1] decimal digits. *)
Lemma digits_length_bound n k : n < 2 ^ k -> (length (digits n) <= S (N.to_nat k))%nat.
Proof.
  intros Hn. unfold digits.
  pose proof (digits_fuel_length (S (N.to_nat (N.size n))) n []) as Hl. cbn [length] in Hl.
  enough (N.size n <= k) by lia.
  destruct (N.le_gt_cases (N.size n) k) as [|Hk]; [done|].
  pose proof (N.size_le n) as Hs. rewrite N.succ_double_spec in Hs.
  assert (2 ^ (k + 1) <= 2 ^ N.size n) by (apply N.pow_le_mono_r; lia).
  rewrite N.pow_add_r in H. cbn in H. lia.
Qed.

#[export] Hint Resolve digits_chars digits_nonempty : pep.
#[export] Hint Rewrite value_of_digits_digits : pep_rw.

(** ** ASCII case folding *)

Lemma ascii_lower_idem c : ascii_lower (ascii_lower c) = ascii_lower c.
Proof. unfold ascii_lower, is_ascii_upper. nbool. Qed.

Lemma ascii_lower_ascii c : is_ascii c = true -> is_ascii (ascii_lower c) = true.
Proof. unfold ascii_lower, is_ascii_upper, is_ascii. nbool. Qed.

Lemma forallb_ascii_lower s :
  forallb is_ascii s = true -> forallb is_ascii (map ascii_lower s) = true.
Proof.
  induction s as [|c s IH]; cbn; [done|].
  rewrite !andb_true_iff. intros [Hc Hs]. auto using ascii_lower_ascii.
Qed.

Lemma map_ascii_lower_idem s : map ascii_lower (map ascii_lower s) = map ascii_lower s.
Proof. rewrite map_map. apply map_ext. apply ascii_lower_idem. Qed.
