(* ===== verification/PyRuntime.v ===== *)
(** * The tables of the Python runtime

    CPython's [str] methods and its [re] module consult the Unicode
    character database, and [repr(float)] runs David Gay's shortest
    round-trip algorithm. Neither is code of this repository. The class
    [PyRuntime] names the queries the modelled code depends on, with the
    laws the development uses. The laws are stated on ASCII, where the
    database is fixed. The instance [ucd_sample] carries an excerpt of
    the database, enough to evaluate the witnesses. *)

From Stdlib Require Import String ZArith NArith Lia.
From stdpp Require Import base list.
From S2P Require Import Prelude.

Open Scope N_scope.

(** [str.isspace] on one ASCII character: HT, LF, VT, FF, CR, the
    separators FS, GS, RS, US (0x1c-0x1f), and the space. *)
Definition ascii_isspace (c : N) : bool :=
  ((9 <=? c) && (c <=? 13)) || ((28 <=? c) && (c <=? 32)).

Class PyRuntime := {
  (** [unicodedata.decimal(ch)]: the value of a character of category Nd.
      This is the test behind [\d] and the digits [int()] accepts. *)
  uc_decimal : N -> option N;
  (** [ch.isspace()]: the test behind [\s] and [str.strip]. *)
  uc_isspace : N -> bool;
  (** [ch.isprintable()]: decides which characters [repr] escapes. *)
  uc_isprintable : N -> bool;
  (** [s.lower()]: full case mapping. It is context sensitive (final
      sigma), hence a function on whole strings. *)
  uc_lower : ustr -> ustr;
  (** [repr(x)] of the finite float [(-1)^neg * m * 2^e]. *)
  float_repr : bool -> N -> Z -> ustr;

  uc_decimal_ascii c :
    is_ascii c = true ->
    uc_decimal c = if is_ascii_digit c then Some (c - 48) else None;
  uc_decimal_lt c d : uc_decimal c = Some d -> d < 10;
  uc_isspace_ascii c : is_ascii c = true -> uc_isspace c = ascii_isspace c;
  uc_decimal_not_space c d : uc_decimal c = Some d -> uc_isspace c = false;
  uc_isprintable_ascii c :
    is_ascii c = true -> uc_isprintable c = (32 <=? c) && (c <=? 126);
  uc_lower_ascii s : forallb is_ascii s = true -> uc_lower s = map ascii_lower s;
  uc_lower_no_upper s c : c ∈ uc_lower s -> is_ascii_upper c = false;
}.

(** ** An excerpt of the Unicode database *)

(** First code points of some blocks of ten Nd digits: ASCII,
    Arabic-Indic, Extended Arabic-Indic, Devanagari, Fullwidth. *)
Definition sample_digit_zeros : list N := [48; 1632; 1776; 2406; 65296].

Definition sample_decimal (c : N) : option N :=
  match list_find (fun z => z <= c < z + 10) sample_digit_zeros with
  | Some (_, z) => Some (c - z)
  | None => None
  end.

(** White space beyond ASCII: NEL, NBSP, OGHAM SPACE MARK, the
    U+2000-U+200A spaces, LINE and PARAGRAPH SEPARATOR, NNBSP, MMSP,
    IDEOGRAPHIC SPACE. *)
Definition sample_isspace (c : N) : bool :=
  if is_ascii c then ascii_isspace c
  else bool_decide (c ∈ [133; 160; 5760; 8232; 8233; 8239; 8287; 12288])
       || ((8192 <=? c) && (c <=? 8202)).

Definition sample_isprintable (c : N) : bool :=
  if is_ascii c then (32 <=? c) && (c <=? 126)
  else negb (sample_isspace c) && (161 <=? c) && negb (c =? 173).

(** Lowercase mapping of one character: ASCII and Latin-1 capitals, the
    KELVIN SIGN (to [k]) and LATIN CAPITAL LETTER I WITH DOT ABOVE (to
    [i] and a combining dot). *)
Definition sample_lower_char (c : N) : list N :=
  if is_ascii c then [ascii_lower c]
  else if (192 <=? c) && (c <=? 222) && negb (c =? 215) then [c + 32]
  else if c =? 8490 then [107]
  else if c =? 304 then [105; 775]
  else [c].

Definition sample_lower (s : ustr) : ustr := s ≫= sample_lower_char.

(** A stand-in for the float repr: the digits of the mantissa, then [e]
    and the exponent. Only witnesses evaluate it. *)
Definition sample_float_repr (neg : bool) (m : N) (e : Z) : ustr :=
  (if neg then u "-" else []) ++ digits m ++ u "p" ++
  (if (e <? 0)%Z then u "-" else []) ++ digits (Z.to_N (Z.abs e)).

Lemma ascii_lower_not_upper c : is_ascii_upper (ascii_lower c) = false.
Proof. unfold ascii_lower, is_ascii_upper. nbool. Qed.

Lemma sample_lower_char_no_upper c d :
  d ∈ sample_lower_char c -> is_ascii_upper d = false.
Proof.
  unfold sample_lower_char.
  destruct (is_ascii c) eqn:Ha.
  { intros ->%list_elem_of_singleton. apply ascii_lower_not_upper. }
  unfold is_ascii, is_ascii_upper in *.
  repeat case_match; intros Hd%list_elem_of_In; cbn in Hd;
    repeat destruct Hd as [<- | Hd]; subst; nbool.
Qed.

#[export] Program Instance ucd_sample : PyRuntime := {
  uc_decimal := sample_decimal;
  uc_isspace := sample_isspace;
  uc_isprintable := sample_isprintable;
  uc_lower := sample_lower;
  float_repr := sample_float_repr;
}.
Next Obligation.
  intros c Ha. unfold sample_decimal, is_ascii, is_ascii_digit in *.
  cbn. repeat case_decide; nbool.
Qed.
Next Obligation.
  intros c d. unfold sample_decimal. destruct (list_find _ _) as [[i z]|] eqn:E; [|done].
  intros [= <-]. apply list_find_Some in E as (_ & Hz & _). lia.
Qed.
Next Obligation. intros c Ha. unfold sample_isspace. by rewrite Ha. Qed.
Next Obligation.
  intros c d. unfold sample_decimal, sample_isspace.
  destruct (list_find _ _) as [[i z]|] eqn:E; [|done]. intros _.
  apply list_find_Some in E as (Hi & Hz & _).
  repeat (destruct i as [|i]; cbn in Hi; [injection Hi as <-|]); try done;
    unfold is_ascii, ascii_isspace; nbool;
    rewrite ?orb_false_r; apply bool_decide_eq_false;
    rewrite list_elem_of_In; cbn; lia.
Qed.
Next Obligation. intros c Ha. unfold sample_isprintable. by rewrite Ha. Qed.
Next Obligation.
  intros s Hs. unfold sample_lower. induction s as [|c s IH]; [done|].
  cbn in Hs. apply andb_true_iff in Hs as [Hc Hs].
  cbn. unfold sample_lower_char at 1. rewrite Hc. cbn. f_equal. auto.
Qed.
Next Obligation.
  intros s c. unfold sample_lower. rewrite list_elem_of_bind.
  intros (d & Hc & _). by eapply sample_lower_char_no_upper.
Qed.
