(* ===== verification/PyValue.v ===== *)
(** * Python values, exceptions and the builtins the handlers call

    The values are those [json.loads] (and Flask's [get_json]) produce:
    [None], [bool], [int], [float], [str], [list] and [dict]. A dict is
    an association list with distinct keys, in insertion order.
    The builtins are the ones the code applies to request data:
    [str()] and [repr()] through f-strings; [int()]; [dict.get];
    subscripting; [str.lower]; the [in] operator; and truthiness. Each
    raises what CPython raises. *)

From Stdlib Require Import String ZArith NArith Lia.
From stdpp Require Import base list.
From S2P Require Import Prelude PyRuntime.

Open Scope N_scope.

(** ** Values *)

(** A float is a finite dyadic [(-1)^neg * m * 2^e], an infinity or NaN.
    Every IEEE double is one of these. *)
Inductive pyfloat : Type :=
  | FFinite (neg : bool) (m : N) (e : Z)
  | FInf (neg : bool)
  | FNaN.

Local Set Warnings "-register-all".
Inductive pyval : Type :=
  | PNone
  | PBool (b : bool)
  | PInt (z : Z)
  | PFloat (f : pyfloat)
  | PStr (s : ustr)
  | PList (l : list pyval)
  | PDict (d : list (ustr * pyval)).

(** [type(v).__name__]. *)
Definition type_name (v : pyval) : ustr :=
  match v with
  | PNone => u "NoneType"
  | PBool _ => u "bool"
  | PInt _ => u "int"
  | PFloat _ => u "float"
  | PStr _ => u "str"
  | PList _ => u "list"
  | PDict _ => u "dict"
  end.

(** ** Exceptions *)

Inductive exn : Type :=
  | ValueError (msg : ustr)
  | TypeError (msg : ustr)
  | AttributeError (msg : ustr)
  | OverflowError (msg : ustr)
  | KeyError (key : ustr)
  (** What [DocumentReference.set] raises when the Firestore write fails:
      a [google.api_core.exceptions.GoogleAPICallError]. *)
  | StoreError (msg : ustr)
  (** What [sqlite3] raises, e.g. when a parameter cannot be bound. *)
  | SqliteError (msg : ustr)
  (** A read of a local variable that has no value yet. *)
  | UnboundLocalError (msg : ustr)
  (** Encoding a str with a lone surrogate as UTF-8; a subclass of
      [ValueError]. *)
  | UnicodeEncodeError (msg : ustr).

(** The test of [except (ValueError, TypeError)]. *)
Definition is_value_or_type_error (e : exn) : bool :=
  match e with ValueError _ | UnicodeEncodeError _ | TypeError _ => true | _ => false end.

Definition no_attribute (v : pyval) (attr : string) : exn :=
  AttributeError ([39] ++ type_name v ++ u "' object has no attribute '" ++ u attr ++ [39]).

(** ** repr of a str (CPython's [unicode_repr]) *)

Definition hex_digit (d : N) : N := if d <? 10 then 48 + d else 87 + d.

(** [n] in [w] lowercase hexadecimal digits. *)
Fixpoint hex_fixed (w : nat) (n : N) : ustr :=
  match w with
  | O => []
  | S w' => hex_fixed w' (n / 16) ++ [hex_digit (n mod 16)]
  end.

(** The quote: ['"'] when the string has a ['] and no ['"'], else ['].*)
Definition repr_quote (s : ustr) : N :=
  if bool_decide (39 ∈ s) && negb (bool_decide (34 ∈ s)) then 34 else 39.

Definition repr_char `{PyRuntime} (q c : N) : ustr :=
  if (c =? q) || (c =? 92) then [92; c]
  else if c =? 9 then [92; 116]
  else if c =? 10 then [92; 110]
  else if c =? 13 then [92; 114]
  else if (c <? 32) || (c =? 127) then 92 :: 120 :: hex_fixed 2 c
  else if c <? 127 then [c]
  else if uc_isprintable c then [c]
  else if c <=? 255 then 92 :: 120 :: hex_fixed 2 c
  else if c <=? 65535 then 92 :: 117 :: hex_fixed 4 c
  else 92 :: 85 :: hex_fixed 8 c.

Definition str_repr `{PyRuntime} (s : ustr) : ustr :=
  let q := repr_quote s in q :: (s ≫= repr_char q) ++ [q].

(** ** str of int, with the digit limit of CPython >= 3.11 *)

Definition int_max_str_digits : nat := 4300.

Definition limit_to_str_msg : ustr :=
  u "Exceeds the limit (4300 digits) for integer string conversion; use sys.set_int_max_str_digits() to increase the limit".

Definition limit_to_int_msg (n : nat) : ustr :=
  u "Exceeds the limit (4300 digits) for integer string conversion: value has " ++
  digits (N.of_nat n) ++ u " digits; use sys.set_int_max_str_digits() to increase the limit".

Definition int_to_str (z : Z) : result exn ustr :=
  let ds := digits (Z.to_N (Z.abs z)) in
  if Nat.ltb int_max_str_digits (length ds) then Err (ValueError limit_to_str_msg)
  else Ok ((if (z <? 0)%Z then u "-" else []) ++ ds).

(** ** str() and repr() *)

Definition float_str `{PyRuntime} (f : pyfloat) : ustr :=
  match f with
  | FFinite neg m e => float_repr neg m e
  | FInf false => u "inf"
  | FInf true => u "-inf"
  | FNaN => u "nan"
  end.

Fixpoint py_repr `{PyRuntime} (v : pyval) : result exn ustr :=
  match v with
  | PNone => Ok (u "None")
  | PBool b => Ok (if b then u "True" else u "False")
  | PInt z => int_to_str z
  | PFloat f => Ok (float_str f)
  | PStr s => Ok (str_repr s)
  | PList l =>
      rs ← (fix go (l : list pyval) : result exn (list ustr) :=
              match l with
              | [] => Ok []
              | x :: l' => r ← py_repr x; rs ← go l'; Ok (r :: rs)
              end) l;
      Ok ([91] ++ join (u ", ") rs ++ [93])
  | PDict d =>
      rs ← (fix go (d : list (ustr * pyval)) : result exn (list ustr) :=
              match d with
              | [] => Ok []
              | (k, x) :: d' =>
                  r ← py_repr x; rs ← go d'; Ok ((str_repr k ++ u ": " ++ r) :: rs)
              end) d;
      Ok ([123] ++ join (u ", ") rs ++ [125])
  end.

(** [str(v)], which is also what [f"{v}"] inserts. *)
Definition py_str `{PyRuntime} (v : pyval) : result exn ustr :=
  match v with
  | PStr s => Ok s
  | _ => py_repr v
  end.

(** [str(e)] of an exception: its message (for [KeyError], the repr of
    the key). *)
Definition exn_str `{PyRuntime} (e : exn) : ustr :=
  match e with
  | ValueError m | TypeError m | AttributeError m | OverflowError m
  | StoreError m | SqliteError m | UnboundLocalError m | UnicodeEncodeError m => m
  | KeyError k => str_repr k
  end.

(** ** Truthiness, dict access, [in], [str.lower] *)

Definition py_truthy (v : pyval) : bool :=
  match v with
  | PNone => false
  | PBool b => b
  | PInt z => negb (z =? 0)%Z
  | PFloat (FFinite _ m _) => negb (m =? 0)
  | PFloat _ => true
  | PStr s => negb (bool_decide (s = []))
  | PList l => negb (bool_decide (l = []))
  | PDict d => negb (bool_decide (d = []))
  end.

Fixpoint dict_lookup (d : list (ustr * pyval)) (k : ustr) : option pyval :=
  match d with
  | [] => None
  | (k', v) :: d' => if bool_decide (k = k') then Some v else dict_lookup d' k
  end.

(** [v.get(k, default)]. *)
Definition py_get (v : pyval) (k : ustr) (default : pyval) : result exn pyval :=
  match v with
  | PDict d => Ok (match dict_lookup d k with Some x => x | None => default end)
  | _ => Err (no_attribute v "get")
  end.

(** [v[k]] for a str key [k]. *)
Definition py_getitem (v : pyval) (k : ustr) : result exn pyval :=
  match v with
  | PDict d => match dict_lookup d k with Some x => Ok x | None => Err (KeyError k) end
  | PList _ => Err (TypeError (u "list indices must be integers or slices, not str"))
  | PStr _ => Err (TypeError (u "string indices must be integers, not 'str'"))
  | _ => Err (TypeError ([39] ++ type_name v ++ u "' object is not subscriptable"))
  end.

(** [s == v] for a str [s]: a str equals only an equal str. *)
Definition py_eq_str (s : ustr) (v : pyval) : bool :=
  match v with PStr t => bool_decide (s = t) | _ => false end.

(** [k in v] for a str [k]. *)
Definition py_in (k : ustr) (v : pyval) : result exn bool :=
  match v with
  | PDict d => Ok (bool_decide (k ∈ map fst d))
  | PList l => Ok (existsb (py_eq_str k) l)
  | PStr s => Ok (contains k s)
  | _ => Err (TypeError (u "argument of type '" ++ type_name v ++ u "' is not iterable"))
  end.

(** [for x in v]: the items a loop visits. A dict yields its keys and a
    str its characters. *)
Definition py_iter (v : pyval) : result exn (list pyval) :=
  match v with
  | PList l => Ok l
  | PDict d => Ok (map (fun kv => PStr kv.1) d)
  | PStr s => Ok (map (fun c => PStr [c]) s)
  | _ => Err (TypeError ([39] ++ type_name v ++ u "' object is not iterable"))
  end.

(** [v.lower()]. *)
Definition py_lower `{PyRuntime} (v : pyval) : result exn ustr :=
  match v with
  | PStr s => Ok (uc_lower s)
  | _ => Err (no_attribute v "lower")
  end.

(** ** int() *)

(** [_PyUnicode_TransformDecimalAndSpaceToASCII]: ASCII is kept, other
    white space becomes a space, other decimal digits become their ASCII
    digit, and the first other character becomes ['?'] and ends the
    string. *)
Fixpoint int_ascii_view `{PyRuntime} (s : ustr) : ustr :=
  match s with
  | [] => []
  | c :: s' =>
      if is_ascii c then c :: int_ascii_view s'
      else if uc_isspace c then 32 :: int_ascii_view s'
      else match uc_decimal c with
           | Some d => digit_char d :: int_ascii_view s'
           | None => [63]
           end
  end.

(** [Py_ISSPACE]: the C-locale white space the parser skips. *)
Definition c_isspace (c : N) : bool := (c =? 32) || ((9 <=? c) && (c <=? 13)).

Fixpoint skip_spaces (t : ustr) : ustr :=
  match t with
  | c :: t' => if c_isspace c then skip_spaces t' else t
  | [] => []
  end.

(** The digit scan of [long_from_string_base], after a first digit: digits
    and single underscores, each underscore followed by a digit. [None]
    is a misplaced underscore. The result is the digits and the rest. *)
Fixpoint scan_digits (t : ustr) : option (ustr * ustr) :=
  match t with
  | [] => Some ([], [])
  | c :: t' =>
      if is_ascii_digit c then
        match scan_digits t' with
        | Some (ds, r) => Some (c :: ds, r)
        | None => None
        end
      else if c =? 95 then
        match t' with
        | d :: _ => if is_ascii_digit d then scan_digits t' else None
        | [] => None
        end
      else Some ([], t)
  end.

Inductive int_parse : Type :=
  | IPValue (z : Z)
  | IPLimit (n : nat)
  | IPInvalid.

(** [PyLong_FromString(str, &end, 10)] followed by the check that [end]
    is the end of the string. *)
Definition parse_int_ascii (t : ustr) : int_parse :=
  let t1 := skip_spaces t in
  let '(neg, t2) :=
    match t1 with
    | c :: r => if c =? 45 then (true, r) else if c =? 43 then (false, r) else (false, t1)
    | [] => (false, t1)
    end in
  match t2 with
  | c :: _ =>
      if is_ascii_digit c then
        match scan_digits t2 with
        | Some (ds, rest) =>
            if Nat.ltb int_max_str_digits (length ds) then IPLimit (length ds)
            else match skip_spaces rest with
                 | [] =>
                     let n := Z.of_N (value_of_digits ds) in
                     IPValue (if neg then (- n)%Z else n)
                 | _ :: _ => IPInvalid
                 end
        | None => IPInvalid
        end
      else IPInvalid
  | [] => IPInvalid
  end.

(** [int(s)] for a str [s]. The message cites the repr of [s], cut at 200
    characters ([%.200R]). *)
Definition py_int_of_str `{PyRuntime} (s : ustr) : result exn Z :=
  match parse_int_ascii (int_ascii_view s) with
  | IPValue z => Ok z
  | IPLimit n => Err (ValueError (limit_to_int_msg n))
  | IPInvalid =>
      Err (ValueError (u "invalid literal for int() with base 10: " ++ take 200 (str_repr s)))
  end.

(** [int(x)] of a finite float truncates towards zero. *)
Definition float_trunc (neg : bool) (m : N) (e : Z) : Z :=
  let a := (if (0 <=? e)%Z then Z.of_N m * 2 ^ e else Z.of_N m / 2 ^ (- e))%Z in
  if neg then (- a)%Z else a.

(** [int(v)]. *)
Definition py_int `{PyRuntime} (v : pyval) : result exn Z :=
  match v with
  | PBool b => Ok (if b then 1%Z else 0%Z)
  | PInt z => Ok z
  | PFloat (FFinite neg m e) => Ok (float_trunc neg m e)
  | PFloat (FInf _) => Err (OverflowError (u "cannot convert float infinity to integer"))
  | PFloat FNaN => Err (ValueError (u "cannot convert float NaN to integer"))
  | PStr s => py_int_of_str s
  | PNone | PList _ | PDict _ =>
      Err (TypeError (u "int() argument must be a string, a bytes-like object or a real number, not '" ++
                      type_name v ++ [39]))
  end.

(** ** Lemmas *)

Section Lemmas.
Context `{PyRuntime}.

Lemma int_ascii_view_ascii s : forallb is_ascii s = true -> int_ascii_view s = s.
Proof.
  induction s as [|c s IH]; cbn; [done|].
  rewrite andb_true_iff. intros [-> Hs]. by rewrite IH.
Qed.

Lemma ascii_digit_is_ascii c : is_ascii_digit c = true -> is_ascii c = true.
Proof. unfold is_ascii_digit, is_ascii. nbool. Qed.

Lemma forallb_digits_ascii s :
  forallb is_ascii_digit s = true -> forallb is_ascii s = true.
Proof.
  induction s as [|c s IH]; cbn; [done|].
  rewrite !andb_true_iff. intros [Hc Hs]. split; auto using ascii_digit_is_ascii.
Qed.

Lemma scan_digits_all s : forallb is_ascii_digit s = true -> scan_digits s = Some (s, []).
Proof.
  induction s as [|c s IH]; cbn; [done|].
  rewrite andb_true_iff. intros [-> Hs]. by rewrite IH.
Qed.

Lemma digit_not_c_space c : is_ascii_digit c = true -> c_isspace c = false.
Proof. unfold is_ascii_digit, c_isspace. nbool. Qed.

(** The numeral of [|z|], which [str(z)] prints. *)
Lemma int_to_str_Ok z s :
  int_to_str z = Ok s ->
  (length (digits (Z.to_N (Z.abs z))) <= int_max_str_digits)%nat /\
  s = (if (z <? 0)%Z then u "-" else []) ++ digits (Z.to_N (Z.abs z)).
Proof.
  unfold int_to_str. destruct (Nat.ltb_spec int_max_str_digits (length (digits (Z.to_N (Z.abs z)))));
    [discriminate|]. intros [= <-]. done.
Qed.

Lemma parse_int_ascii_numeral (neg : bool) ds :
  ds <> [] -> forallb is_ascii_digit ds = true ->
  (length ds <= int_max_str_digits)%nat ->
  parse_int_ascii ((if neg then [45] else []) ++ ds) =
  IPValue (let n := Z.of_N (value_of_digits ds) in if neg then (- n)%Z else n).
Proof.
  destruct ds as [|c ds]; [done|]. intros _ Hd Hlen.
  pose proof Hd as Hall. cbn in Hd. apply andb_true_iff in Hd as [Hc _].
  assert (Hc' : (c =? 45) = false /\ (c =? 43) = false)
    by (unfold is_ascii_digit in Hc; split; nbool).
  unfold parse_int_ascii.
  destruct neg; cbn [app skip_spaces c_isspace];
    rewrite ?digit_not_c_space by done; cbn -[scan_digits value_of_digits is_ascii_digit int_max_str_digits Nat.ltb length];
    rewrite ?(proj1 Hc'), ?(proj2 Hc'), Hc, scan_digits_all by done;
    destruct (Nat.ltb_spec int_max_str_digits (length (c :: ds))); try lia; done.
Qed.

(** A string of ASCII digits parses as its value, or hits the limit on
    the number of digits. *)
Lemma parse_int_ascii_digits ds :
  ds <> [] -> forallb is_ascii_digit ds = true ->
  parse_int_ascii ds =
  if Nat.ltb int_max_str_digits (length ds) then IPLimit (length ds)
  else IPValue (Z.of_N (value_of_digits ds)).
Proof.
  destruct ds as [|c ds]; [done|]. intros _ Hd.
  pose proof Hd as Hall. cbn in Hd. apply andb_true_iff in Hd as [Hc _].
  assert (Hc' : (c =? 45) = false /\ (c =? 43) = false)
    by (unfold is_ascii_digit in Hc; split; nbool).
  unfold parse_int_ascii. cbn [skip_spaces]. rewrite digit_not_c_space by done.
  cbn -[scan_digits value_of_digits is_ascii_digit int_max_str_digits Nat.ltb length].
  rewrite (proj1 Hc'), (proj2 Hc'), Hc, scan_digits_all by done.
  by destruct (Nat.ltb int_max_str_digits (length (c :: ds))).
Qed.

(** Round trip: [int(str(z)) = z]. The numeral [str] prints for an int
    parses back to that int whenever [str] does not raise (at most 4300
    digits). *)
Theorem py_int_of_str_int_to_str z s :
  int_to_str z = Ok s -> py_int_of_str s = Ok z.
Proof.
  intros [Hlen ->]%int_to_str_Ok.
  pose proof (digits_chars (Z.to_N (Z.abs z))) as Hd.
  unfold py_int_of_str. rewrite int_ascii_view_ascii.
  2: { rewrite forallb_app. apply andb_true_iff.
        split; [by destruct (z <? 0)%Z | by apply forallb_digits_ascii]. }
  replace (if (z <? 0)%Z then u "-" else []) with (if (z <? 0)%Z then [45] else [])
    by (by destruct (z <? 0)%Z).
  rewrite parse_int_ascii_numeral by auto with pep.
  rewrite value_of_digits_digits. f_equal.
  cbv zeta. rewrite Z2N.id by lia. destruct (Z.ltb_spec z 0); lia.
Qed.

End Lemmas.
