(* ===== verification/PyRe.v ===== *)
(** * The regular expressions of the code, with CPython's [re] semantics

    The handlers use three constructs of Python's [re] module.
    - [re.match(p, s)]: a match of [p] anchored at position 0.
    - [re.findall(p, s)]: left-to-right, non-overlapping searches; with
      one group in [p], the list of the group's texts.
    - Patterns built from character classes ([\d], [\s], [[01]], [[0-5]],
      literals), concatenation, alternation, the greedy quantifiers
      [*], [+], [?], groups, and the anchors [^] and [$].

    [mt] is a backtracking matcher in continuation-passing style. It
    tries alternatives and quantifier iterations in the order of CPython's
    [sre] engine, so the match it returns is the one Python returns.
    [\d] and [\s] consult the runtime's Unicode tables, as [sre] does for
    [str] patterns. Without MULTILINE, [$] matches at the end of the
    string or before a newline that ends it. *)

From Stdlib Require Import String ZArith NArith Lia.
From stdpp Require Import base list.
From S2P Require Import Prelude PyRuntime.

Open Scope N_scope.

(** ** Syntax *)

Inductive citem : Type :=
  | IDigit                     (** [\d] *)
  | ISpace                     (** [\s] *)
  | IChar (c : N)              (** a literal character *)
  | IRange (lo hi : N).        (** [lo-hi] inside brackets *)

Inductive regex : Type :=
  | RSet (cs : list citem)     (** one character of a class *)
  | RCat (r1 r2 : regex)
  | RAlt (r1 r2 : regex)       (** [r1|r2], [r1] first *)
  | RStar (r : regex)          (** greedy [r*] *)
  | ROpt (r : regex)           (** greedy [r?] *)
  | RGroup (n : nat) (r : regex)
  | RBol                       (** [^] *)
  | REol.                      (** [$] *)

(** Greedy [r+]: one [r], then [r*]. *)
Definition RPlus (r : regex) : regex := RCat r (RStar r).

(** A literal string: the concatenation of its characters. *)
Fixpoint RLit (s : ustr) : regex :=
  match s with
  | [] => ROpt (RSet [])  (** matches the empty string only *)
  | [c] => RSet [IChar c]
  | c :: s' => RCat (RSet [IChar c]) (RLit s')
  end.

(** Whether [r] has no group. *)
Fixpoint no_groups (r : regex) : bool :=
  match r with
  | RGroup _ _ => false
  | RCat r1 r2 | RAlt r1 r2 => no_groups r1 && no_groups r2
  | RStar r1 | ROpt r1 => no_groups r1
  | RSet _ | RBol | REol => true
  end.

(** Capture environment: group number and span, the latest first. *)
Abbreviation caps := (list (nat * (nat * nat))).

Section Semantics.
Context `{PyRuntime}.

Definition is_decimal (c : N) : bool :=
  match uc_decimal c with Some _ => true | None => false end.

Definition citem_match (c : N) (it : citem) : bool :=
  match it with
  | IDigit => is_decimal c
  | ISpace => uc_isspace c
  | IChar d => c =? d
  | IRange lo hi => (lo <=? c) && (c <=? hi)
  end.

Definition in_class (cs : list citem) (c : N) : bool := existsb (citem_match c) cs.

Variable s : ustr.

(** The iterations of a greedy star: try one more iteration of the body
    [m] (it must consume input), and fall back to the continuation. The
    fuel bounds the iterations by the input left. *)
Fixpoint star_loop (m : nat -> caps -> (nat -> caps -> option (nat * caps)) -> option (nat * caps))
    (k : nat -> caps -> option (nat * caps)) (fuel i : nat) (cp : caps) : option (nat * caps) :=
  match fuel with
  | O => k i cp
  | S f =>
      match m i cp (fun j cp' => if Nat.ltb i j then star_loop m k f j cp' else None) with
      | Some x => Some x
      | None => k i cp
      end
  end.

Fixpoint mt (r : regex) (i : nat) (cp : caps) (k : nat -> caps -> option (nat * caps))
  : option (nat * caps) :=
  match r with
  | RSet cs =>
      match s !! i with
      | Some c => if in_class cs c then k (S i) cp else None
      | None => None
      end
  | RCat r1 r2 => mt r1 i cp (fun j cp' => mt r2 j cp' k)
  | RAlt r1 r2 =>
      match mt r1 i cp k with
      | Some x => Some x
      | None => mt r2 i cp k
      end
  | RStar r1 => star_loop (mt r1) k (S (length s - i)) i cp
  | ROpt r1 =>
      match mt r1 i cp k with
      | Some x => Some x
      | None => k i cp
      end
  | RGroup n r1 => mt r1 i cp (fun j cp' => k j ((n, (i, j)) :: cp'))
  | RBol => if Nat.eqb i 0 then k i cp else None
  | REol =>
      if Nat.eqb i (length s) || (Nat.eqb (S i) (length s) && bool_decide (s !! i = Some 10))
      then k i cp else None
  end.

(** The continuation that accepts where the pattern ends. *)
Definition mt_accept (j : nat) (cp : caps) : option (nat * caps) := Some (j, cp).

Fixpoint cap_lookup (cp : caps) (n : nat) : option (nat * nat) :=
  match cp with
  | [] => None
  | (m, sp) :: cp' => if Nat.eqb n m then Some sp else cap_lookup cp' n
  end.

(** [m.group(n)], or [''] when the group did not take part. *)
Definition group_text (cp : caps) (n : nat) : ustr :=
  match cap_lookup cp n with
  | Some (a, b) => take (b - a) (drop a s)
  | None => []
  end.

(** The searches of [re.findall] from position [i]. A match ending where
    it started moves the search one character on. *)
Fixpoint findall_loop (r : regex) (fuel i : nat) : list ustr :=
  match fuel with
  | O => []
  | S f =>
      if Nat.ltb (length s) i then []
      else match mt r i [] mt_accept with
           | Some (j, cp) =>
               group_text cp 1 :: findall_loop r f (if Nat.eqb j i then S i else j)
           | None => findall_loop r f (S i)
           end
  end.

(** ** Matching as a relation

    [rmatch r i cp j cp'] holds when [r] matches [s] from position [i] to
    [j], with captures [cp] on entry and [cp'] on exit. A star iteration
    must consume input, as in [sre]. The relation says which matches
    exist; [mt] says which one Python finds. *)
Inductive rmatch : regex -> nat -> caps -> nat -> caps -> Prop :=
  | rm_set cs i c cp :
      s !! i = Some c -> in_class cs c = true -> rmatch (RSet cs) i cp (S i) cp
  | rm_cat r1 r2 i m j cp cp1 cp2 :
      rmatch r1 i cp m cp1 -> rmatch r2 m cp1 j cp2 -> rmatch (RCat r1 r2) i cp j cp2
  | rm_alt_l r1 r2 i j cp cp' : rmatch r1 i cp j cp' -> rmatch (RAlt r1 r2) i cp j cp'
  | rm_alt_r r1 r2 i j cp cp' : rmatch r2 i cp j cp' -> rmatch (RAlt r1 r2) i cp j cp'
  | rm_star_nil r i cp : rmatch (RStar r) i cp i cp
  | rm_star_cons r i m j cp cp1 cp2 :
      rmatch r i cp m cp1 -> (i < m)%nat -> rmatch (RStar r) m cp1 j cp2 ->
      rmatch (RStar r) i cp j cp2
  | rm_opt_some r i j cp cp' : rmatch r i cp j cp' -> rmatch (ROpt r) i cp j cp'
  | rm_opt_none r i cp : rmatch (ROpt r) i cp i cp
  | rm_group n r i j cp cp' :
      rmatch r i cp j cp' -> rmatch (RGroup n r) i cp j ((n, (i, j)) :: cp')
  | rm_bol cp : rmatch RBol 0 cp 0 cp
  | rm_eol i cp :
      i = length s \/ (S i = length s /\ s !! i = Some 10) -> rmatch REol i cp i cp.

#[local] Hint Constructors rmatch : core.

Lemma star_loop_sound r k x :
  (forall i cp k' y, mt r i cp k' = Some y ->
     exists j cp', rmatch r i cp j cp' /\ k' j cp' = Some y) ->
  forall f i cp, star_loop (mt r) k f i cp = Some x ->
  exists j cp', rmatch (RStar r) i cp j cp' /\ k j cp' = Some x.
Proof.
  intros IHr f. induction f as [|f IH]; intros i cp; cbn -[Nat.ltb]; [eauto|].
  destruct (mt r i cp _) as [y|] eqn:E; [intros [= <-] | eauto].
  apply IHr in E as (m & cp1 & Hr & Hk).
  destruct (i <? m)%nat eqn:Hlt; [apply Nat.ltb_lt in Hlt | discriminate].
  apply IH in Hk as (j & cp2 & Hs & Hk). eauto.
Qed.

(** Soundness of the matcher: whatever [mt] returns comes from a match
    of [r], handed to the continuation. *)
Theorem mt_sound r i cp k x :
  mt r i cp k = Some x -> exists j cp', rmatch r i cp j cp' /\ k j cp' = Some x.
Proof.
  revert i cp k x. induction r; intros i cp k x; cbn -[star_loop Nat.eqb].
  - destruct (s !! i) eqn:Hi; [|done].
    destruct (in_class cs n) eqn:Hc; [eauto | done].
  - intros (m & cp1 & H1 & (j & cp2 & H2 & Hk)%IHr2)%IHr1. eauto.
  - destruct (mt r1 i cp k) eqn:E.
    + intros [= <-]. apply IHr1 in E as (j & cp' & ? & ?). eauto.
    + intros (j & cp' & ? & ?)%IHr2. eauto.
  - apply star_loop_sound. auto.
  - destruct (mt r i cp k) eqn:E.
    + intros [= <-]. apply IHr in E as (j & cp' & ? & ?). eauto.
    + eauto.
  - intros (j & cp' & ? & ?)%IHr. eauto.
  - destruct (Nat.eqb_spec i 0) as [->|]; [eauto | done].
  - destruct (_ || _) eqn:E; [|done]. intros Hk. exists i, cp. split; [|done].
    constructor. apply orb_true_iff in E as [?%Nat.eqb_eq | E]; [auto|].
    apply andb_true_iff in E as [?%Nat.eqb_eq ?%bool_decide_eq_true]. auto.
Qed.

(** A match never moves backwards, and a match that moves ends within
    the string. *)
Lemma rmatch_bounds r i cp j cp' :
  rmatch r i cp j cp' -> (i <= j)%nat /\ ((i < j)%nat -> (j <= length s)%nat).
Proof.
  induction 1; try lia.
  apply lookup_lt_Some in H0. lia.
Qed.

(** ** Completeness: the fuel of [star_loop] is enough *)

Lemma star_loop_mono r k1 k2 :
  (forall i cp k1' k2',
     (forall j c, is_Some (k1' j c) -> is_Some (k2' j c)) ->
     is_Some (mt r i cp k1') -> is_Some (mt r i cp k2')) ->
  (forall j c, is_Some (k1 j c) -> is_Some (k2 j c)) ->
  forall f i cp, is_Some (star_loop (mt r) k1 f i cp) -> is_Some (star_loop (mt r) k2 f i cp).
Proof.
  intros Hr Hk f. induction f as [|f IH]; intros i cp; cbn -[Nat.ltb]; [apply Hk|].
  destruct (mt r i cp (fun j cp' => if (i <? j)%nat then star_loop (mt r) k1 f j cp' else None))
    eqn:E1.
  - intros _.
    assert (Hc : is_Some (mt r i cp
      (fun j cp' => if (i <? j)%nat then star_loop (mt r) k2 f j cp' else None))).
    { eapply Hr; [|rewrite E1; eauto].
      intros j c; cbv beta; destruct (i <? j)%nat; [apply IH | done]. }
    destruct Hc as [y Hy]. rewrite Hy. eauto.
  - intros Hk1.
    destruct (mt r i cp (fun j cp' => if (i <? j)%nat then star_loop (mt r) k2 f j cp' else None));
      eauto.
Qed.

(** Continuation monotonicity: a continuation that succeeds more often
    makes the matcher succeed more often. *)
Lemma mt_mono r : forall i cp k1 k2,
  (forall j c, is_Some (k1 j c) -> is_Some (k2 j c)) ->
  is_Some (mt r i cp k1) -> is_Some (mt r i cp k2).
Proof.
  induction r; intros i cp k1 k2 Hk; cbn -[star_loop].
  - destruct (s !! i); [|done]. destruct (in_class cs n); [apply Hk | done].
  - apply IHr1. intros j c. apply IHr2, Hk.
  - destruct (mt r1 i cp k1) eqn:E1.
    + intros _. edestruct (IHr1 i cp k1 k2) as [y Hy]; [done | rewrite E1; eauto |].
      rewrite Hy. eauto.
    + intros H2. destruct (mt r1 i cp k2); [eauto | by eapply IHr2].
  - apply star_loop_mono; auto.
  - destruct (mt r i cp k1) eqn:E1.
    + intros _. edestruct (IHr i cp k1 k2) as [y Hy]; [done | rewrite E1; eauto |].
      rewrite Hy. eauto.
    + intros H2. destruct (mt r i cp k2); [eauto | by apply Hk].
  - apply IHr. intros j c. apply Hk.
  - destruct (i =? 0)%nat; [apply Hk | done].
  - destruct (_ || _); [apply Hk | done].
Qed.

Lemma star_loop_S m k f i cp :
  star_loop m k (S f) i cp =
  match m i cp (fun j cp' => if (i <? j)%nat then star_loop m k f j cp' else None) with
  | Some x => Some x
  | None => k i cp
  end.
Proof. reflexivity. Qed.

Lemma star_loop_fuel_S r k f i cp :
  is_Some (star_loop (mt r) k f i cp) -> is_Some (star_loop (mt r) k (S f) i cp).
Proof.
  revert i cp. induction f as [|f IH]; intros i cp.
  - rewrite star_loop_S. cbn [star_loop]. intros Hk. by destruct (mt r i cp _).
  - rewrite (star_loop_S _ _ f), (star_loop_S _ _ (S f)).
    destruct (mt r i cp (fun j cp' => if (i <? j)%nat then star_loop (mt r) k f j cp' else None))
      eqn:E1.
    + intros _.
      assert (Hc : is_Some (mt r i cp
        (fun j cp' => if (i <? j)%nat then star_loop (mt r) k (S f) j cp' else None))).
      { eapply mt_mono; [|rewrite E1; eauto].
        intros j c; cbv beta; destruct (i <? j)%nat; [apply IH | done]. }
      destruct Hc as [y Hy]. rewrite Hy. eauto.
    + intros Hk.
      destruct (mt r i cp (fun j cp' => if (i <? j)%nat then star_loop (mt r) k (S f) j cp' else None));
        eauto.
Qed.

Lemma star_loop_fuel_le r k f f' i cp :
  (f <= f')%nat -> is_Some (star_loop (mt r) k f i cp) ->
  is_Some (star_loop (mt r) k f' i cp).
Proof. induction 1; auto using star_loop_fuel_S. Qed.

(** Completeness of the matcher: if [r] matches from [i] and the
    continuation accepts there, the matcher finds some match. With
    soundness, [mt] succeeds exactly when a match exists, so the fuel
    [length s - i + 1] of a star never runs out. *)
Theorem mt_complete r i cp j cp' k :
  rmatch r i cp j cp' -> is_Some (k j cp') -> is_Some (mt r i cp k).
Proof.
  intros Hm. revert k. induction Hm; intros k Hk; cbn -[star_loop].
  - by rewrite H0, H1.
  - apply IHHm1. by apply IHHm2.
  - destruct (IHHm k Hk) as [y Hy]. rewrite Hy. eauto.
  - destruct (mt r1 i cp k); [eauto | by apply IHHm].
  - rewrite star_loop_S. destruct (mt r i cp _); eauto.
  - rewrite star_loop_S.
    pose proof (rmatch_bounds _ _ _ _ _ Hm1) as [_ Hmle].
    edestruct (IHHm1 (fun j cp' => if (i <? j)%nat
                                   then star_loop (mt r) k (length s - i) j cp' else None))
      as [y Hy].
    + cbv beta. rewrite (proj2 (Nat.ltb_lt _ _) H0).
      apply star_loop_fuel_le with (S (length s - m)); [lia|]. by apply IHHm2.
    + rewrite Hy. eauto.
  - destruct (IHHm k Hk) as [y Hy]. rewrite Hy. eauto.
  - destruct (mt r i cp k); eauto.
  - by apply IHHm.
  - done.
  - destruct H0 as [-> | [<- Hi]].
    + by rewrite Nat.eqb_refl.
    + rewrite Nat.eqb_refl, (proj2 (bool_decide_eq_true _) Hi), orb_true_r. done.
Qed.

(** ** Inversion on the shapes the code's patterns use *)

(** A pattern without groups leaves the captures as they are. *)
Lemma rmatch_no_groups r i cp j cp' :
  rmatch r i cp j cp' -> no_groups r = true -> cp' = cp.
Proof. induction 1; cbn; rewrite ?andb_true_iff; intuition congruence.
Qed.

Lemma rmatch_cat_inv r1 r2 i cp j cp' :
  rmatch (RCat r1 r2) i cp j cp' -> exists m cp1, rmatch r1 i cp m cp1 /\ rmatch r2 m cp1 j cp'.
Proof. inversion 1; subst; eauto. Qed.

Lemma rmatch_group_inv n r i cp j cp' :
  rmatch (RGroup n r) i cp j cp' -> exists cp1, rmatch r i cp j cp1 /\ cp' = (n, (i, j)) :: cp1.
Proof. inversion 1; subst; eauto. Qed.

Lemma rmatch_set cs i cp j cp' :
  rmatch (RSet cs) i cp j cp' ->
  j = S i /\ cp' = cp /\ exists c, s !! i = Some c /\ in_class cs c = true.
Proof. inversion 1; subst; eauto. Qed.

(** A star of a class consumes a run of characters of the class. *)
Lemma rmatch_star_set cs i cp j cp' :
  rmatch (RStar (RSet cs)) i cp j cp' ->
  cp' = cp /\ (i <= j)%nat /\
  forall k, (i <= k < j)%nat -> exists c, s !! k = Some c /\ in_class cs c = true.
Proof.
  intros Hm. remember (RStar (RSet cs)) as r eqn:Er.
  induction Hm; try discriminate; injection Er as ->.
  - split; [done | split; [lia | intros; lia]].
  - apply rmatch_set in Hm1 as (-> & -> & Hc).
    destruct IHHm2 as (-> & ? & Hk); [done|].
    split; [done | split; [lia|]]. intros k ?.
    destruct (decide (k = i)) as [->|]; [done | apply Hk; lia].
Qed.

Lemma RLit_cons c c' kw : RLit (c :: c' :: kw) = RCat (RSet [IChar c]) (RLit (c' :: kw)).
Proof. reflexivity. Qed.

Lemma in_class_char c d : in_class [IChar c] d = true -> d = c.
Proof. cbn. rewrite orb_false_r. apply N.eqb_eq. Qed.

(** A literal matches exactly its characters. *)
Lemma rmatch_lit kw i cp j cp' :
  kw <> [] -> rmatch (RLit kw) i cp j cp' -> cp' = cp /\ drop i s = kw ++ drop j s.
Proof.
  revert i cp. induction kw as [|c kw IH]; intros i cp0 Hne Hm; [done|].
  destruct kw as [|c' kw'].
  - apply rmatch_set in Hm as (-> & -> & d & Hd & ->%in_class_char).
    split; [done|]. by rewrite (drop_S _ _ _ Hd).
  - rewrite RLit_cons in Hm. inversion Hm as [| ? ? ? m ? ? cp1 ? H1 H2 | | | | | | | | |]; subst.
    apply rmatch_set in H1 as (-> & -> & d & Hd & ->%in_class_char).
    destruct (IH _ _ ltac:(done) H2) as [-> Hdr].
    split; [done|]. by rewrite (drop_S _ _ _ Hd), Hdr.
Qed.

(** The converse: a run of characters of a class is a match of its
    star, and the characters of a literal are a match of it. *)
Lemma rmatch_star_set_run cs i j cp :
  (i <= j)%nat ->
  (forall k, (i <= k < j)%nat -> exists c, s !! k = Some c /\ in_class cs c = true) ->
  rmatch (RStar (RSet cs)) i cp j cp.
Proof.
  intros Hij. remember (j - i)%nat as n eqn:En. revert i Hij En.
  induction n as [|n IH]; intros i Hij En Hk; [replace j with i by lia; constructor|].
  destruct (Hk i ltac:(lia)) as (c & Hc & Hin).
  apply rm_star_cons with (S i) cp; [by econstructor | lia |].
  apply IH; [lia | lia | intros k ?; apply Hk; lia].
Qed.

Lemma rmatch_lit_intro kw i cp rest :
  kw <> [] -> drop i s = kw ++ rest -> rmatch (RLit kw) i cp (i + length kw) cp.
Proof.
  revert i. induction kw as [|c kw IH]; intros i Hne Hd; [done|].
  assert (Hc : s !! i = Some c) by (rewrite <- (Nat.add_0_r i), <- lookup_drop, Hd; done).
  rewrite (drop_S _ _ _ Hc) in Hd. injection Hd as Hd.
  assert (Hin : in_class [IChar c] c = true) by (cbn; by rewrite N.eqb_refl).
  destruct kw as [|c' kw'].
  - rewrite Nat.add_1_r. by econstructor.
  - rewrite RLit_cons. econstructor; [by econstructor|].
    replace (i + length (c :: c' :: kw'))%nat with (S i + length (c' :: kw'))%nat by (cbn; lia).
    by apply (IH (S i)).
Qed.

(** ** [re.findall] *)

(** Every item [findall] returns is the first group of a match. *)
Lemma findall_loop_sound r f i m :
  In m (findall_loop r f i) -> exists i' j cp, rmatch r i' [] j cp /\ m = group_text cp 1.
Proof.
  revert i. induction f as [|f IH]; intros i; cbn -[Nat.ltb]; [done|].
  destruct (length s <? i)%nat; [done|].
  destruct (mt r i [] mt_accept) as [[j cp]|] eqn:E; [|apply IH].
  intros [<- | Hin]; [|eauto].
  apply mt_sound in E as (j' & cp' & Hm & Hk). injection Hk as -> ->. eauto.
Qed.

(** Each search starts further on than the last, so the fuel
    [length s + 1 - i] is enough: more fuel gives the same list. *)
Lemma findall_loop_fuel_S r f i :
  (S (length s) - i <= f)%nat -> findall_loop r (S f) i = findall_loop r f i.
Proof.
  revert i. induction f as [|f IH]; intros i Hf.
  - cbn [findall_loop]. destruct (Nat.ltb_spec (length s) i); [done | lia].
  - cbn [findall_loop]. destruct (length s <? i)%nat eqn:Hlt; [done|].
    apply Nat.ltb_ge in Hlt.
    destruct (mt r i [] mt_accept) as [[j cp]|] eqn:E; [|apply IH; lia].
    apply mt_sound in E as (j' & cp' & Hm & Hk). injection Hk as -> ->.
    destruct (rmatch_bounds _ _ _ _ _ Hm) as [Hij Hjs].
    f_equal. destruct (Nat.eqb_spec j i) as [->|Hne]; apply IH; [lia|].
    specialize (Hjs ltac:(lia)). lia.
Qed.

Lemma findall_loop_fuel_le r f f' i :
  (S (length s) - i <= f)%nat -> (f <= f')%nat -> findall_loop r f' i = findall_loop r f i.
Proof.
  intros Hf. induction 1 as [|f' Hle IH]; [done|].
  rewrite findall_loop_fuel_S by lia. exact IH.
Qed.

End Semantics.

(** [re.match(r, s)]: [Some] of the end and the captures, or [None]. *)
Definition re_match `{PyRuntime} (r : regex) (s : ustr) : option (nat * caps) :=
  mt s r 0 [] mt_accept.

(** [re.match] succeeds exactly when the pattern matches a prefix. *)
Corollary re_match_iff `{PyRuntime} r s :
  is_Some (re_match r s) <-> exists j cp, rmatch s r 0 [] j cp.
Proof.
  unfold re_match. split.
  - intros [x (j & cp & Hm & _)%mt_sound]. eauto.
  - intros (j & cp & Hm). eapply mt_complete; [exact Hm | unfold mt_accept; eauto].
Qed.

(** [re.findall(r, s)] for a pattern with one group. Each search moves
    at least one position, so [length s + 1] rounds are enough. *)
Definition re_findall `{PyRuntime} (r : regex) (s : ustr) : list ustr :=
  findall_loop s r (S (length s)) 0.

(** [re_findall] runs to completion: any fuel from [length s + 1] on
    gives the same list. *)
Lemma re_findall_fuel `{PyRuntime} r s f :
  (S (length s) <= f)%nat -> findall_loop s r f 0 = re_findall r s.
Proof.
  intros Hf. unfold re_findall. apply findall_loop_fuel_le; [lia | done].
Qed.
