(* ===== verification/Onboarding.v ===== *)
(** * Structured onboarding: [process_structured_onboarding]

    Source: [src/backend/cloud_functions/onboard_patient/main.py],
    lines 29-42 ([VALID_FREQUENCIES]) and 94-206 (the function).

    The function reads nine fields of the request dict. It validates
    them in a fixed order, and the first failure answers 400:
    - presence of the eight required keys;
    - [age] in 5..100 after [int()];
    - [pain_level] in 1..10 after [int()];
    - [frequency.lower()] in [VALID_FREQUENCIES];
    - [notification_time] against the pattern [^([01]\d|2[0-3]):([0-5]\d)$].
    On success it draws a uuid, reads the clock once, and writes the
    patient document to Firestore. Any exception that escapes answers
    500, with the exception's message.

    The model is a state-passing function on a [world]: the Firestore
    collection [patients] and the uuids issued so far. The clock reading
    and the outcome of the Firestore write are an argument ([call_env]),
    since the code does not control them. The uuid source is the
    interface [UuidSource], whose only promise is freshness. *)

From Stdlib Require Import String ZArith NArith Lia.
From stdpp Require Import base list gmap.
From S2P Require Import Prelude PyRuntime PyValue PyRe.

Open Scope N_scope.

(** ** Constants of the module *)

(** [VALID_FREQUENCIES], lines 30-42, in the source's order. *)
Definition VALID_FREQUENCIES : list ustr :=
  map u ["Daily"; "daily"; "2 times a week"; "3 times a week"; "4 times a week";
         "5 times a week"; "6 times a week"; "everyday"; "every other day";
         "Everyday"; "Every other day"]%string.

(** [r'^([01]\d|2[0-3]):([0-5]\d)$'], line 168. *)
Definition NOTIFICATION_TIME_RE : regex :=
  RCat RBol
    (RCat (RGroup 1 (RAlt (RCat (RSet [IChar 48; IChar 49]) (RSet [IDigit]))
                          (RCat (RSet [IChar 50]) (RSet [IRange 48 51]))))
      (RCat (RSet [IChar 58])
        (RCat (RGroup 2 (RCat (RSet [IRange 48 53]) (RSet [IDigit]))) REol))).

(** [required_fields], line 121. *)
Definition REQUIRED_FIELDS : list ustr :=
  map u ["name"; "age"; "injury"; "pain_level"; "frequency"; "time_of_day";
         "notification_time"; "goal"]%string.

(** ** Data *)

(** [patient_doc], lines 178-191. Timestamps are the clock's readings. *)
Record patient_doc : Type := {
  doc_id : ustr;
  doc_name : pyval;
  doc_age : Z;
  doc_pain_description : pyval;
  doc_pain_severity : Z;
  doc_exercise_frequency : ustr;
  doc_preferred_time : pyval;
  doc_notification_time : ustr;
  doc_goal : pyval;
  doc_fcm_token : pyval;
  doc_created_at : Z;
  doc_updated_at : Z;
}.

(** The validated fields, as the local variables hold them at line 173. *)
Record intake : Type := {
  in_name : pyval;
  in_age : Z;
  in_injury : pyval;
  in_pain_level : Z;
  in_frequency_lower : ustr;
  in_time_of_day : pyval;
  in_notification_time : ustr;
  in_goal : pyval;
  in_fcm_token : pyval;
}.

(** The state the function changes: Firestore's [patients] collection, and
    every id [uuid.uuid4()] has returned. *)
Record world : Type := {
  w_patients : gmap ustr patient_doc;
  w_issued : list ustr;
}.

(** What the code reads from outside for one call: [datetime.now()], and
    whether [document(...).set(...)] raises (with the error's message). *)
Record call_env : Type := {
  ce_now : Z;
  ce_store_fault : option ustr;
}.

(** The value of [process_structured_onboarding]: the JSON object (all its
    values are strings), the status code and the headers passed in. *)
Record response (H : Type) : Type := {
  rs_body : list (ustr * ustr);
  rs_status : Z;
  rs_headers : H;
}.
Arguments rs_body {H}. Arguments rs_status {H}. Arguments rs_headers {H}.

(** [uuid.uuid4()]: an id different from all ids issued before. *)
Class UuidSource := {
  next_uuid : list ustr -> ustr;
  next_uuid_fresh issued : next_uuid issued ∉ issued;
}.

(** A uuid source for the witnesses: a string longer than every id issued
    so far. *)
Definition sample_next_uuid (issued : list ustr) : ustr :=
  replicate (S (list_max (map length issued))) 97.

Lemma sample_next_uuid_fresh issued : sample_next_uuid issued ∉ issued.
Proof.
  intros Hin%list_elem_of_In.
  pose proof (proj1 (list_max_le (map length issued) _) (le_n _)) as Hall.
  rewrite List.Forall_forall in Hall.
  specialize (Hall _ (in_map length _ _ Hin)).
  unfold sample_next_uuid in Hall. rewrite length_replicate in Hall. lia.
Qed.

#[export] Instance sample_uuids : UuidSource :=
  {| next_uuid := sample_next_uuid; next_uuid_fresh := sample_next_uuid_fresh |}.

(** ** Validation steps *)

(** The outcome of a validation step: go on with a value, or answer 400
    with a message. Exceptions travel in the outer [result]. *)
Inductive step (A : Type) : Type :=
  | Continue (a : A)
  | Reject (msg : ustr).
Arguments Continue {A} a. Arguments Reject {A} msg.

Definition sbind {A B} (c : result exn (step A)) (k : A -> result exn (step B))
  : result exn (step B) :=
  match c with
  | Ok (Continue a) => k a
  | Ok (Reject m) => Ok (Reject m)
  | Err e => Err e
  end.

Notation "'check' x := c 'in' k" := (sbind c (fun x => k))
  (at level 10, x name, c at level 100, k at level 200) : pep_scope.
Local Open Scope pep_scope.

Section Validation.
Context `{PyRuntime}.

(** [missing_fields], line 122, once the [.get] calls have shown
    [request_data] to be a dict. *)
Fixpoint missing_fields (rd : pyval) (fs : list ustr) : result exn (list ustr) :=
  match fs with
  | [] => Ok []
  | f :: fs' =>
      present ← py_in f rd;
      rest ← missing_fields rd fs';
      Ok (if (present : bool) then rest else f :: rest)
  end.

(** The same list for a dict: the required keys it lacks, in order. *)
Definition missing_keys (d : list (ustr * pyval)) : list ustr :=
  filter (fun f => f ∉ map fst d) REQUIRED_FIELDS.

(** The [try]/[except (ValueError, TypeError)] blocks of lines 130-139 and
    142-151. The body runs [x = int(x)] and, out of range, formats the
    range message. A [ValueError] or [TypeError] from either is caught.
    The handler formats [x] again: the original value if [int()]
    raised, the int if formatting raised. *)
Definition check_int_range (lo hi : Z) (range_msg type_msg : ustr) (v : pyval)
  : result exn (step Z) :=
  let '(cur, body) :=
    match py_int v with
    | Ok n =>
        (PInt n,
         if ((lo <=? n) && (n <=? hi))%Z then Ok (Continue n)
         else m ← int_to_str n; Ok (Reject (range_msg ++ m)))
    | Err e => (v, Err e)
    end in
  match body with
  | Ok st => Ok st
  | Err e =>
      if is_value_or_type_error e then m ← py_str cur; Ok (Reject (type_msg ++ m))
      else Err e
  end.

Definition AGE_RANGE_MSG : ustr := u "Age must be between 5 and 100, got ".
Definition AGE_TYPE_MSG : ustr := u "Age must be an integer between 5 and 100, got ".
Definition PAIN_RANGE_MSG : ustr := u "Pain level must be between 1 and 10, got ".
Definition PAIN_TYPE_MSG : ustr := u "Pain level must be an integer between 1 and 10, got ".

(** Lines 154-165: [None] becomes [""], then [.lower()] (which raises on a
    non-str) and the membership test. The message lists
    [VALID_FREQUENCIES] as declared. *)
Definition check_frequency (v : pyval) : result exn (step ustr) :=
  let v' := match v with PNone => PStr [] | _ => v end in
  fl ← py_lower v';
  if bool_decide (fl ∈ VALID_FREQUENCIES) then Ok (Continue fl)
  else Ok (Reject (u "Invalid frequency value. Must be one of: " ++
                   join (u ", ") VALID_FREQUENCIES)).

(** Lines 168-171: [re.match] raises [TypeError] on a non-str. *)
Definition check_notification_time (v : pyval) : result exn (step ustr) :=
  match v with
  | PStr s =>
      match re_match NOTIFICATION_TIME_RE s with
      | Some _ => Ok (Continue s)
      | None =>
          Ok (Reject (u "Invalid notification time format. Must be HH:MM in 24-hour format, got " ++ s))
      end
  | _ =>
      Err (TypeError (u "expected string or bytes-like object, got '" ++ type_name v ++ [39]))
  end.

(** Lines 110-171: the reads, then the checks in the code's order. *)
Definition validate_intake (rd : pyval) : result exn (step intake) :=
  name ← py_get rd (u "name") PNone;
  age ← py_get rd (u "age") PNone;
  injury ← py_get rd (u "injury") PNone;
  pain_level ← py_get rd (u "pain_level") PNone;
  frequency ← py_get rd (u "frequency") PNone;
  time_of_day ← py_get rd (u "time_of_day") PNone;
  notification_time ← py_get rd (u "notification_time") PNone;
  goal ← py_get rd (u "goal") PNone;
  fcm_token ← py_get rd (u "fcm_token") (PStr []);
  missing ← missing_fields rd REQUIRED_FIELDS;
  match missing with
  | _ :: _ => Ok (Reject (u "Missing required fields: " ++ join (u ", ") missing))
  | [] =>
      check a := check_int_range 5 100 AGE_RANGE_MSG AGE_TYPE_MSG age in
      check p := check_int_range 1 10 PAIN_RANGE_MSG PAIN_TYPE_MSG pain_level in
      check fl := check_frequency frequency in
      check nt := check_notification_time notification_time in
      Ok (Continue {| in_name := name; in_age := a; in_injury := injury;
                      in_pain_level := p; in_frequency_lower := fl;
                      in_time_of_day := time_of_day; in_notification_time := nt;
                      in_goal := goal; in_fcm_token := fcm_token |})
  end.

End Validation.

(** ** The function *)

Section Handler.
Context `{PyRuntime} `{UuidSource} {Hdr : Type}.

Definition build_patient_doc (pid : ustr) (now : Z) (v : intake) : patient_doc :=
  {| doc_id := pid; doc_name := in_name v; doc_age := in_age v;
     doc_pain_description := in_injury v; doc_pain_severity := in_pain_level v;
     doc_exercise_frequency := in_frequency_lower v;
     doc_preferred_time := in_time_of_day v;
     doc_notification_time := in_notification_time v; doc_goal := in_goal v;
     doc_fcm_token := in_fcm_token v; doc_created_at := now; doc_updated_at := now |}.

Definition success_body (pid : ustr) : list (ustr * ustr) :=
  [(u "status", u "success"); (u "message", u "Patient onboarded successfully");
   (u "patient_id", pid)].

(** Lines 174-202: the id, the clock, the document, the write, the answer. *)
Definition commit (env : call_env) (v : intake) (w : world)
  : result exn (list (ustr * ustr) * Z) * world :=
  let pid := next_uuid (w_issued w) in
  let issued := pid :: w_issued w in
  match ce_store_fault env with
  | Some msg => (Err (StoreError msg), {| w_patients := w_patients w; w_issued := issued |})
  | None =>
      (Ok (success_body pid, 200%Z),
       {| w_patients := <[pid := build_patient_doc pid (ce_now env) v]> (w_patients w);
          w_issued := issued |})
  end.

(** The body of the outer [try]. *)
Definition onboard_body (env : call_env) (rd : pyval) (w : world)
  : result exn (list (ustr * ustr) * Z) * world :=
  match validate_intake rd with
  | Err e => (Err e, w)
  | Ok (Reject msg) => (Ok ([(u "error", msg)], 400%Z), w)
  | Ok (Continue v) => commit env v w
  end.

(** [process_structured_onboarding(request_data, headers)], lines 94-206,
    with the [except Exception] of lines 204-206. *)
Definition process_structured_onboarding (env : call_env) (rd : pyval) (headers : Hdr)
    (w : world) : response Hdr * world :=
  let '(r, w') := onboard_body env rd w in
  match r with
  | Ok (body, code) => ({| rs_body := body; rs_status := code; rs_headers := headers |}, w')
  | Err e =>
      ({| rs_body := [(u "error", u "Failed to onboard patient: " ++ exn_str e)];
          rs_status := 500%Z; rs_headers := headers |}, w')
  end.

End Handler.

(** ** The notification-time pattern *)

Section TimePattern.
Context `{PyRuntime}.

(** [([01]\d|2[0-3])]: [0] or [1] then any Unicode decimal digit, or [2]
    then an ASCII digit 0-3. *)
Definition hour_ok (h1 h2 : N) : bool :=
  ((h1 =? 48) || (h1 =? 49)) && is_decimal h2 || (h1 =? 50) && (48 <=? h2) && (h2 <=? 51).

(** [([0-5]\d)]. *)
Definition minute_ok (m1 m2 : N) : bool := (48 <=? m1) && (m1 <=? 53) && is_decimal m2.

(** The strings the pattern accepts, by shape: five characters, possibly
    followed by a final newline (the [$] of [re] matches before it). *)
Definition nt_ok (s : ustr) : bool :=
  match s with
  | h1 :: h2 :: c :: m1 :: m2 :: rest =>
      hour_ok h1 h2 && (c =? 58) && minute_ok m1 m2 &&
      match rest with [] => true | [n] => n =? 10 | _ => false end
  | _ => false
  end.

Ltac inv_rmatch :=
  repeat match goal with
  | H : rmatch _ ?r _ _ _ _ |- _ =>
      lazymatch r with
      | RCat _ _ => inversion H; subst; clear H
      | RAlt _ _ => inversion H; subst; clear H
      | RGroup _ _ => inversion H; subst; clear H
      | RSet _ => inversion H; subst; clear H
      | RBol => inversion H; subst; clear H
      | REol => inversion H; subst; clear H
      end
  end.

Lemma nt_re_sound s : is_Some (re_match NOTIFICATION_TIME_RE s) -> nt_ok s = true.
Proof.
  rewrite re_match_iff. intros (j & cp & Hm). unfold NOTIFICATION_TIME_RE in Hm.
  inv_rmatch.
  all: destruct s as [|x0 [|x1 [|x2 [|x3 [|x4 [|x5 [|x6 rest]]]]]]];
    cbn in *; simplify_eq; try lia;
    repeat match goal with H : _ \/ _ |- _ => destruct H as [H|H] end;
    repeat match goal with H : _ /\ _ |- _ => destruct H end; simplify_eq; try lia;
    unfold hour_ok, minute_ok in *; rewrite ?orb_false_r in *; nbool;
    repeat match goal with H : is_decimal _ = true |- _ => rewrite H; clear H end;
    rewrite ?orb_true_r; reflexivity.
Qed.

Lemma nt_re_complete s : nt_ok s = true -> is_Some (re_match NOTIFICATION_TIME_RE s).
Proof.
  destruct s as [|h1 [|h2 [|c [|m1 [|m2 rest]]]]]; cbn [nt_ok]; try discriminate.
  unfold hour_ok, minute_ok. rewrite !andb_true_iff.
  intros [[[Hh Hc] [[Hm1 Hm1'] Hm2]] Hrest].
  rewrite re_match_iff. unfold NOTIFICATION_TIME_RE. eexists 5%nat, _.
  eapply rm_cat; [apply rm_bol|].
  eapply rm_cat.
  { apply rm_group. apply orb_true_iff in Hh as [Hh|Hh]; apply andb_true_iff in Hh as [Hh Hd].
    - apply rm_alt_l. eapply rm_cat; eapply rm_set; try reflexivity;
        cbn; rewrite ?orb_false_r; done.
    - apply andb_true_iff in Hh as [Hh Hh']. apply rm_alt_r.
      eapply rm_cat; eapply rm_set; try reflexivity; cbn; rewrite ?orb_false_r.
      + done.
      + by rewrite Hh', Hd. }
  eapply rm_cat; [eapply rm_set; [reflexivity | cbn; by rewrite Hc]|].
  eapply rm_cat.
  { apply rm_group. eapply rm_cat; eapply rm_set; try reflexivity; cbn; rewrite ?orb_false_r.
    - by rewrite Hm1, Hm1'.
    - done. }
  apply rm_eol. cbn.
  destruct rest as [|n [|n' rest]]; [by left | right | done].
  apply N.eqb_eq in Hrest as ->. done.
Qed.

(** The pattern of line 168 accepts exactly the strings [nt_ok] describes. *)
Lemma nt_re_spec s : is_Some (re_match NOTIFICATION_TIME_RE s) <-> nt_ok s = true.
Proof. split; [apply nt_re_sound | apply nt_re_complete]. Qed.

End TimePattern.

(** ** Validation lemmas *)

(** The accepted phrasings of the spec's glossary, all lower case. *)
Definition glossary_frequencies : list ustr :=
  map u ["daily"; "2 times a week"; "3 times a week"; "4 times a week";
         "5 times a week"; "6 times a week"; "everyday"; "every other day"]%string.

Definition no_upper (s : ustr) : bool := forallb (fun c => negb (is_ascii_upper c)) s.

(** On strings without capitals, [VALID_FREQUENCIES] and the glossary
    agree: the capitalised entries of the source can never match. *)
Lemma valid_frequencies_no_upper fl :
  no_upper fl = true -> fl ∈ VALID_FREQUENCIES <-> fl ∈ glossary_frequencies.
Proof.
  intros Hnu. rewrite !list_elem_of_In. cbn. split.
  - intros Hin. repeat destruct Hin as [<- | Hin]; try done; tauto.
  - intros Hin. repeat destruct Hin as [<- | Hin]; tauto.
Qed.

(** The error branches of [check_int_range] never continue. *)
Local Ltac no_continue :=
  repeat (match goal with
          | |- context [if ?b then _ else _] => destruct b
          | |- context [py_str ?x] => destruct (py_str x)
          | |- context [int_to_str ?x] => destruct (int_to_str x)
          end; cbn [mbind result_bind]);
  intros ?; discriminate.

Section ValidationLemmas.
Context `{PyRuntime}.

Lemma uc_lower_no_upper_all s : no_upper (uc_lower s) = true.
Proof.
  unfold no_upper. apply forallb_forall. intros c Hc%list_elem_of_In.
  by rewrite (uc_lower_no_upper s c Hc).
Qed.

Lemma sbind_Continue {A B} (c : result exn (step A)) (k : A -> result exn (step B)) b :
  sbind c k = Ok (Continue b) -> exists a, c = Ok (Continue a) /\ k a = Ok (Continue b).
Proof. destruct c as [[a|m]|e]; cbn; [eauto | discriminate | discriminate]. Qed.

Lemma check_int_range_Continue lo hi rm tm v n :
  check_int_range lo hi rm tm v = Ok (Continue n) -> (lo <= n <= hi)%Z.
Proof.
  unfold check_int_range. destruct (py_int v) as [m|e]; cbn [mbind result_bind].
  - destruct ((lo <=? m) && (m <=? hi))%Z eqn:E.
    + intros [= <-]. apply andb_true_iff in E as [?%Z.leb_le ?%Z.leb_le]. lia.
    + no_continue.
  - no_continue.
Qed.

Lemma check_frequency_Continue v fl :
  check_frequency v = Ok (Continue fl) -> fl ∈ glossary_frequencies.
Proof.
  unfold check_frequency.
  destruct (py_lower _) as [fl'|] eqn:E; cbn; [|discriminate].
  case_bool_decide as Hin; [intros [= <-]|discriminate].
  destruct v; cbn in E; try discriminate; injection E as <-;
    apply valid_frequencies_no_upper; auto using uc_lower_no_upper_all.
Qed.

Lemma check_notification_time_Continue v s :
  check_notification_time v = Ok (Continue s) -> v = PStr s /\ nt_ok s = true.
Proof.
  unfold check_notification_time. destruct v; try discriminate.
  destruct (re_match NOTIFICATION_TIME_RE s0) eqn:E; [|discriminate].
  intros [= <-]. split; [done|]. apply nt_re_spec. by rewrite E.
Qed.

(** What a validated intake satisfies: the constraints of the spec's
    data model. *)
Definition intake_valid (v : intake) : Prop :=
  (5 <= in_age v <= 100)%Z /\ (1 <= in_pain_level v <= 10)%Z /\
  in_frequency_lower v ∈ glossary_frequencies /\ nt_ok (in_notification_time v) = true.

Lemma validate_intake_valid rd v :
  validate_intake rd = Ok (Continue v) -> intake_valid v.
Proof.
  unfold validate_intake. destruct rd as [| | | | | |d]; try (cbn; discriminate).
  remember (missing_fields (PDict d) REQUIRED_FIELDS) as mf eqn:Emf.
  destruct mf as [[|f fs]|e];
    cbn -[check_int_range check_frequency check_notification_time sbind u]; try discriminate.
  intros (a & Ha%check_int_range_Continue & Hv)%sbind_Continue.
  apply sbind_Continue in Hv as (p & Hp%check_int_range_Continue & Hv).
  apply sbind_Continue in Hv as (fl & Hfl%check_frequency_Continue & Hv).
  apply sbind_Continue in Hv as (nt & [_ Hnt]%check_notification_time_Continue & Hv).
  injection Hv as <-. repeat split; cbn; done || lia.
Qed.

End ValidationLemmas.

(** ** The stored records *)

Section Store.
Context `{PyRuntime} `{UuidSource} {Hdr : Type}.

(** A canonical patient record: the constraints of the spec's data model,
    and one timestamp for creation and update. *)
Definition doc_valid (d : patient_doc) : Prop :=
  (5 <= doc_age d <= 100)%Z /\ (1 <= doc_pain_severity d <= 10)%Z /\
  doc_exercise_frequency d ∈ glossary_frequencies /\
  nt_ok (doc_notification_time d) = true /\
  doc_created_at d = doc_updated_at d.

(** The world invariant: issued ids are distinct, and every stored record
    is valid, is filed under its own id, and carries an issued id. *)
Definition world_inv (w : world) : Prop :=
  NoDup (w_issued w) /\
  map_Forall (fun k d => doc_id d = k /\ k ∈ w_issued w /\ doc_valid d) (w_patients w).

Definition empty_world : world := {| w_patients := ∅; w_issued := [] |}.

(** The worlds a sequence of calls can produce from an empty collection. *)
Inductive onboard_reachable : world -> Prop :=
  | reach_init : onboard_reachable empty_world
  | reach_step w env rd (hdr : Hdr) :
      onboard_reachable w ->
      onboard_reachable (process_structured_onboarding env rd hdr w).2.

Lemma build_doc_valid pid now v : intake_valid v -> doc_valid (build_patient_doc pid now v).
Proof. intros (? & ? & ? & ?). repeat split; cbn; done || lia. Qed.

Lemma world_inv_grow w pid :
  pid ∉ w_issued w -> world_inv w ->
  NoDup (pid :: w_issued w) /\
  map_Forall (fun k d => doc_id d = k /\ k ∈ pid :: w_issued w /\ doc_valid d) (w_patients w).
Proof.
  intros Hf [Hnd Hall]. refine (conj _ _); [by constructor|].
  eapply map_Forall_impl; [exact Hall|]. intros k d (? & ? & ?).
  split; [done | split; [by apply list_elem_of_further | done]].
Qed.

Lemma commit_inv env v w : intake_valid v -> world_inv w -> world_inv (commit env v w).2.
Proof.
  intros Hv Hw. pose proof (next_uuid_fresh (w_issued w)) as Hf.
  destruct (world_inv_grow w _ Hf Hw) as [Hnd Hall].
  unfold commit. destruct (ce_store_fault env); split; cbn; try done.
  apply map_Forall_insert_2; [|done].
  split; [done | split; [left | by apply build_doc_valid]].
Qed.

Lemma onboard_body_inv env rd w : world_inv w -> world_inv (onboard_body env rd w).2.
Proof.
  intros Hw. unfold onboard_body.
  destruct (validate_intake rd) as [[v|m]|e] eqn:E; try done.
  apply commit_inv; [by eapply validate_intake_valid | done].
Qed.

Lemma process_world env rd (hdr : Hdr) w :
  (process_structured_onboarding env rd hdr w).2 = (onboard_body env rd w).2.
Proof.
  unfold process_structured_onboarding.
  by destruct (onboard_body env rd w) as [[[b c]|e] w'].
Qed.

Lemma reachable_world_inv w : onboard_reachable w -> world_inv w.
Proof.
  induction 1.
  - split; [constructor | apply map_Forall_empty].
  - rewrite process_world. by apply onboard_body_inv.
Qed.

End Store.

(** ** Branches of the handler *)

Section Branches.
Context `{PyRuntime} `{UuidSource} {Hdr : Type}.

Lemma missing_fields_dict d fs :
  missing_fields (PDict d) fs = Ok (filter (fun f => f ∉ map fst d) fs).
Proof.
  induction fs as [|f fs IH]; [done|]. cbn -[filter]. rewrite IH. cbn -[filter].
  rewrite filter_cons. case_bool_decide; case_decide; done.
Qed.

Definition reply (hdr : Hdr) (code : Z) (body : list (ustr * ustr)) : response Hdr :=
  {| rs_body := body; rs_status := code; rs_headers := hdr |}.

(** A rejected intake answers 400 with the step's message and leaves the
    world as it was; an exception answers 500. *)
Lemma process_reject env rd (hdr : Hdr) w msg :
  validate_intake rd = Ok (Reject msg) ->
  process_structured_onboarding env rd hdr w = (reply hdr 400 [(u "error", msg)], w).
Proof. intros E. unfold process_structured_onboarding, onboard_body. by rewrite E. Qed.

Lemma process_raise env rd (hdr : Hdr) w e :
  validate_intake rd = Err e ->
  process_structured_onboarding env rd hdr w =
    (reply hdr 500 [(u "error", u "Failed to onboard patient: " ++ exn_str e)], w).
Proof. intros E. unfold process_structured_onboarding, onboard_body. by rewrite E. Qed.

(** A 200 answer comes from [commit] after a passed validation with no
    store fault: its body carries the next id, and the world gains the
    record under it. *)
Lemma process_success env rd (hdr : Hdr) w resp w' :
  process_structured_onboarding env rd hdr w = (resp, w') -> rs_status resp = 200%Z ->
  exists v, validate_intake rd = Ok (Continue v) /\ ce_store_fault env = None /\
    let pid := next_uuid (w_issued w) in
    rs_body resp = success_body pid /\
    w' = {| w_patients := <[pid := build_patient_doc pid (ce_now env) v]> (w_patients w);
            w_issued := pid :: w_issued w |}.
Proof.
  unfold process_structured_onboarding, onboard_body.
  destruct (validate_intake rd) as [[v|m]|e]; [| by intros [= <- _] | by intros [= <- _]].
  unfold commit. destruct (ce_store_fault env); [by intros [= <- _]|].
  intros [= <- <-] _. by exists v.
Qed.

(** With every required key present, validation continues with the age. *)
Lemma validate_intake_present d :
  missing_keys d = [] ->
  validate_intake (PDict d) =
    sbind (check_int_range 5 100 AGE_RANGE_MSG AGE_TYPE_MSG
             (match dict_lookup d (u "age") with Some x => x | None => PNone end))
      (fun a =>
       sbind (check_int_range 1 10 PAIN_RANGE_MSG PAIN_TYPE_MSG
                (match dict_lookup d (u "pain_level") with Some x => x | None => PNone end))
         (fun p =>
          sbind (check_frequency
                   (match dict_lookup d (u "frequency") with Some x => x | None => PNone end))
            (fun fl =>
             sbind (check_notification_time
                      (match dict_lookup d (u "notification_time") with
                       | Some x => x | None => PNone end))
               (fun nt =>
                Ok (Continue
                  {| in_name := match dict_lookup d (u "name") with Some x => x | None => PNone end;
                     in_age := a;
                     in_injury := match dict_lookup d (u "injury") with Some x => x | None => PNone end;
                     in_pain_level := p; in_frequency_lower := fl;
                     in_time_of_day :=
                       match dict_lookup d (u "time_of_day") with Some x => x | None => PNone end;
                     in_notification_time := nt;
                     in_goal := match dict_lookup d (u "goal") with Some x => x | None => PNone end;
                     in_fcm_token :=
                       match dict_lookup d (u "fcm_token") with Some x => x | None => PStr [] end
                  |}))))).
Proof.
  intros Hm. unfold validate_intake. cbn -[missing_fields u REQUIRED_FIELDS].
  rewrite missing_fields_dict. unfold missing_keys in Hm. by rewrite Hm.
Qed.

Section IntRange.
Variables (lo hi : Z) (rm tm : ustr) (v : pyval).

Lemma check_int_range_in n :
  py_int v = Ok n -> (lo <= n <= hi)%Z -> check_int_range lo hi rm tm v = Ok (Continue n).
Proof.
  intros Hn Hr. unfold check_int_range. rewrite Hn.
  by rewrite (proj2 (andb_true_iff _ _) (conj (proj2 (Z.leb_le _ _) (proj1 Hr))
                                             (proj2 (Z.leb_le _ _) (proj2 Hr)))).
Qed.

Lemma check_int_range_out n t :
  py_int v = Ok n -> ~ (lo <= n <= hi)%Z -> int_to_str n = Ok t ->
  check_int_range lo hi rm tm v = Ok (Reject (rm ++ t)).
Proof.
  intros Hn Hr Ht. unfold check_int_range. rewrite Hn.
  destruct ((lo <=? n) && (n <=? hi))%Z eqn:E.
  - apply andb_true_iff in E as [?%Z.leb_le ?%Z.leb_le]. lia.
  - by rewrite Ht.
Qed.

Lemma check_int_range_not_int e t :
  py_int v = Err e -> is_value_or_type_error e = true -> py_str v = Ok t ->
  check_int_range lo hi rm tm v = Ok (Reject (tm ++ t)).
Proof.
  intros Hn He Ht. unfold check_int_range. rewrite Hn.
  destruct e; cbn in He |- *; try discriminate; by rewrite Ht.
Qed.

Lemma check_int_range_raise e :
  py_int v = Err e -> is_value_or_type_error e = false ->
  check_int_range lo hi rm tm v = Err e.
Proof. intros Hn He. unfold check_int_range. rewrite Hn. destruct e; cbn in He |- *; congruence. Qed.

End IntRange.

End Branches.

(** ** Properties *)

Section Properties.
Context `{PyRuntime} `{UuidSource} {Hdr : Type}.

(** C1. No stored record has an invalid value. Every world produced from
    an empty collection by any sequence of calls of
    [process_structured_onboarding] (any requests, clock readings and
    Firestore outcomes) satisfies this for each stored patient document:
    it is filed under its own id; its age is in 5..100; its pain
    severity is in 1..10; its frequency is one of the glossary's
    lower-case phrasings; its notification time matches the pattern;
    and its creation and update times are equal. *)
Theorem onboarding_records_valid w :
  onboard_reachable (Hdr := Hdr) w ->
  map_Forall (fun k d => doc_id d = k /\ doc_valid d) (w_patients w).
Proof.
  intros [_ Hall]%reachable_world_inv.
  eapply map_Forall_impl; [exact Hall|]. intros k d (? & _ & ?). done.
Qed.

(** C2. A call answers 200 only when validation passed and the write
    succeeded. Its answer then carries a fresh id (one never issued
    before). The collection gains exactly the canonical record built
    from the validated fields, under that id, with one clock reading for
    both timestamps. *)
Theorem onboarding_success env rd (hdr : Hdr) w resp w' :
  process_structured_onboarding env rd hdr w = (resp, w') -> rs_status resp = 200%Z ->
  exists v, validate_intake rd = Ok (Continue v) /\ intake_valid v /\
    ce_store_fault env = None /\
    (let pid := next_uuid (w_issued w) in
     ((pid ∉ w_issued w) /\ rs_body resp = success_body pid /\
      w_patients w' = <[pid := build_patient_doc pid (ce_now env) v]> (w_patients w) /\
      w_issued w' = pid :: w_issued w)).
Proof.
  intros E S. destruct (process_success _ _ _ _ _ _ E S) as (v & Ev & Ef & B & ->).
  exists v. split; [done | split; [by eapply validate_intake_valid | split; [done|]]].
  cbv zeta. split; [apply next_uuid_fresh | done].
Qed.

(** C3. Duplicate submissions are not deduplicated. Two successful calls
    with the same request answer two different ids, and both records are
    stored. *)
Theorem onboarding_duplicates env1 env2 rd (h1 h2 : Hdr) w r1 w1 r2 w2 :
  process_structured_onboarding env1 rd h1 w = (r1, w1) ->
  process_structured_onboarding env2 rd h2 w1 = (r2, w2) ->
  rs_status r1 = 200%Z -> rs_status r2 = 200%Z ->
  exists p1 p2, p1 <> p2 /\ rs_body r1 = success_body p1 /\ rs_body r2 = success_body p2 /\
    is_Some (w_patients w2 !! p1) /\ is_Some (w_patients w2 !! p2).
Proof.
  intros E1 E2 S1 S2.
  destruct (process_success _ _ _ _ _ _ E1 S1) as (v1 & _ & _ & B1 & ->).
  destruct (process_success _ _ _ _ _ _ E2 S2) as (v2 & _ & _ & B2 & ->).
  cbn [w_issued w_patients] in *.
  set (p1 := next_uuid (w_issued w)) in *. set (p2 := next_uuid (p1 :: w_issued w)) in *.
  assert (Hne : p1 <> p2).
  { intros Heq. apply (next_uuid_fresh (p1 :: w_issued w)). fold p2. rewrite <- Heq. left. }
  exists p1, p2. split; [done|]. split; [done|]. split; [done|].
  split.
  - rewrite lookup_insert_ne by done. rewrite lookup_insert_eq. eauto.
  - rewrite lookup_insert_eq. eauto.
Qed.

(** C4. The first failure wins. When the dict lacks required keys, the
    answer is 400 and lists every missing key, in the order of
    [required_fields], whatever the other values are. No record is
    written and no id is drawn. *)
Theorem onboarding_missing_fields env d (hdr : Hdr) w :
  missing_keys d <> [] ->
  process_structured_onboarding env (PDict d) hdr w =
    (reply hdr 400 [(u "error", u "Missing required fields: " ++ join (u ", ") (missing_keys d))], w).
Proof.
  intros Hm. apply process_reject. unfold validate_intake.
  cbn -[missing_fields u REQUIRED_FIELDS]. rewrite missing_fields_dict.
  fold (missing_keys d). by destruct (missing_keys d).
Qed.

(** C5. An age that [int()] converts to an integer outside 5..100 answers
    400: "Age must be between 5 and 100, got <n>", where <n> is [str(n)]
    (for a float, the truncated value). *)
Theorem onboarding_age_out_of_range env d (hdr : Hdr) w v n t :
  missing_keys d = [] -> dict_lookup d (u "age") = Some v ->
  py_int v = Ok n -> ~ (5 <= n <= 100)%Z -> int_to_str n = Ok t ->
  process_structured_onboarding env (PDict d) hdr w =
    (reply hdr 400 [(u "error", AGE_RANGE_MSG ++ t)], w).
Proof.
  intros Hm Hv Hn Hr Ht. apply process_reject.
  rewrite validate_intake_present, Hv by done.
  by rewrite (check_int_range_out _ _ _ _ _ _ _ Hn Hr Ht).
Qed.

(** C6. An age [int()] rejects with [ValueError] or [TypeError] (a
    non-numeric string, [None], a list, NaN) answers 400: "Age must be an
    integer between 5 and 100, got <v>", with [str(v)] of the value as
    sent. *)
Theorem onboarding_age_not_integer env d (hdr : Hdr) w v e t :
  missing_keys d = [] -> dict_lookup d (u "age") = Some v ->
  py_int v = Err e -> is_value_or_type_error e = true -> py_str v = Ok t ->
  process_structured_onboarding env (PDict d) hdr w =
    (reply hdr 400 [(u "error", AGE_TYPE_MSG ++ t)], w).
Proof.
  intros Hm Hv Hn He Ht. apply process_reject.
  rewrite validate_intake_present, Hv by done.
  by rewrite (check_int_range_not_int _ _ _ _ _ _ _ Hn He Ht).
Qed.

(** C7. With a valid age, a pain level [int()] converts to an integer
    outside 1..10 answers 400: "Pain level must be between 1 and 10, got
    <n>". *)
Theorem onboarding_pain_out_of_range env d (hdr : Hdr) w va a vp n t :
  missing_keys d = [] ->
  dict_lookup d (u "age") = Some va -> py_int va = Ok a -> (5 <= a <= 100)%Z ->
  dict_lookup d (u "pain_level") = Some vp -> py_int vp = Ok n -> ~ (1 <= n <= 10)%Z ->
  int_to_str n = Ok t ->
  process_structured_onboarding env (PDict d) hdr w =
    (reply hdr 400 [(u "error", PAIN_RANGE_MSG ++ t)], w).
Proof.
  intros Hm Hva Ha Har Hvp Hn Hr Ht. apply process_reject.
  rewrite validate_intake_present, Hva, Hvp by done.
  rewrite (check_int_range_in _ _ _ _ _ _ Ha Har). cbn [sbind].
  by rewrite (check_int_range_out _ _ _ _ _ _ _ Hn Hr Ht).
Qed.

(** C8. An age that [int()] rejects with any other exception escapes the
    inner handler and answers 500. This is [OverflowError] for an
    infinite float, which a JSON body can carry as [1e999]. The spec
    calls every bad age a validation failure. *)
Theorem onboarding_age_overflow env d (hdr : Hdr) w v e :
  missing_keys d = [] -> dict_lookup d (u "age") = Some v ->
  py_int v = Err e -> is_value_or_type_error e = false ->
  process_structured_onboarding env (PDict d) hdr w =
    (reply hdr 500 [(u "error", u "Failed to onboard patient: " ++ exn_str e)], w).
Proof.
  intros Hm Hv Hn He. apply process_raise.
  rewrite validate_intake_present, Hv by done.
  by rewrite (check_int_range_raise _ _ _ _ _ _ Hn He).
Qed.

(** C16. The frequency check accepts a str exactly when its [lower()] is
    one of the eight lower-case phrasings of the spec's glossary, and
    stores that lower-case form. The capitalised entries of
    [VALID_FREQUENCIES] never match. Any other str answers 400 with the
    full list of eleven entries, duplicates and capitals included. *)
Theorem check_frequency_str s :
  check_frequency (PStr s) =
    if bool_decide (uc_lower s ∈ glossary_frequencies) then Ok (Continue (uc_lower s))
    else Ok (Reject (u "Invalid frequency value. Must be one of: " ++
                     join (u ", ") VALID_FREQUENCIES)).
Proof.
  unfold check_frequency. cbn.
  by rewrite (bool_decide_ext _ _ (valid_frequencies_no_upper _ (uc_lower_no_upper_all s))).
Qed.

(** C17. Frequency matching is case-insensitive: on an ASCII string the
    check gives the same answer as on its lower-case form ("DAILY",
    "Daily" and "daily" alike). *)
Theorem check_frequency_ascii_case s :
  forallb is_ascii s = true ->
  check_frequency (PStr s) = check_frequency (PStr (map ascii_lower s)).
Proof.
  intros Hs. unfold check_frequency. cbn.
  rewrite (uc_lower_ascii s Hs), (uc_lower_ascii _ (forallb_ascii_lower s Hs)).
  by rewrite map_ascii_lower_idem.
Qed.

(** C18. The notification-time check accepts a str exactly when [nt_ok]
    holds. That is: two hour characters ([0] or [1] then any decimal
    digit, or [2] then [0]-[3]), a colon, [0]-[5] and a decimal digit,
    and nothing after them but at most one final newline. Other strs
    answer 400 citing the value. *)
Theorem check_notification_time_spec s :
  check_notification_time (PStr s) =
    if nt_ok s then Ok (Continue s)
    else Ok (Reject (u "Invalid notification time format. Must be HH:MM in 24-hour format, got " ++ s)).
Proof.
  unfold check_notification_time.
  destruct (re_match NOTIFICATION_TIME_RE s) eqn:E.
  - by rewrite (proj1 (nt_re_spec s) ltac:(rewrite E; eauto)).
  - destruct (nt_ok s) eqn:Hn; [|done].
    apply nt_re_spec in Hn. rewrite E in Hn. by destruct Hn.
Qed.

(** C19. The check accepts a valid five-character time followed by a
    newline: [$] matches before a final [\n]. The spec says extra
    characters fail. The value is stored with its newline. *)
Theorem check_notification_time_newline s :
  length s = 5%nat -> check_notification_time (PStr s) = Ok (Continue s) ->
  check_notification_time (PStr (s ++ [10])) = Ok (Continue (s ++ [10])).
Proof.
  intros Hl. unfold check_notification_time.
  destruct (re_match NOTIFICATION_TIME_RE s) eqn:E; [intros _ | discriminate].
  assert (Hok : nt_ok s = true) by (apply nt_re_spec; rewrite E; eauto).
  destruct (proj2 (nt_re_spec (s ++ [10]))) as [x ->]; [|done].
  destruct s as [|h1 [|h2 [|c [|m1 [|m2 [|? ?]]]]]]; try discriminate Hl.
  cbn in Hok |- *. by rewrite Hok.
Qed.

(** C20. The digit classes [\d] of the pattern accept every Unicode
    decimal digit, not only [0]-[9]. A time such as "1<d>:30", with <d>
    an Arabic-Indic or fullwidth digit, is accepted and stored as sent.
    The spec asks for a two-digit [HH:MM]. *)
Theorem check_notification_time_unicode_digit d k :
  uc_decimal d = Some k ->
  check_notification_time (PStr [49; d; 58; 51; 48]) = Ok (Continue [49; d; 58; 51; 48]).
Proof.
  intros Hd. unfold check_notification_time.
  destruct (proj2 (nt_re_spec [49; d; 58; 51; 48])) as [x ->]; [|done].
  unfold nt_ok, hour_ok, minute_ok, is_decimal.
  rewrite Hd, (uc_decimal_ascii 48 eq_refl). reflexivity.
Qed.

(** C21. A frequency that is neither a str nor [null] (a number, a bool,
    a list) raises [AttributeError] from [.lower()]. The handler then
    answers 500, although the spec makes every bad frequency a
    validation error. *)
Theorem check_frequency_not_str v :
  v <> PNone -> (forall s, v <> PStr s) ->
  check_frequency v = Err (no_attribute v "lower").
Proof.
  intros Hn Hs. unfold check_frequency.
  destruct v; cbn; try done; first [by destruct Hn | by destruct (Hs s)].
Qed.

(** C22. [int()] truncates a float age towards zero before the range
    test. A JSON age of 100.5 is accepted and stored as 100, and 4.9 is
    rejected as 4. The spec says age is an integer. *)
Theorem check_age_float n_neg m e :
  (5 <= float_trunc n_neg m e <= 100)%Z ->
  check_int_range 5 100 AGE_RANGE_MSG AGE_TYPE_MSG (PFloat (FFinite n_neg m e)) =
    Ok (Continue (float_trunc n_neg m e)).
Proof. intros Hr. by apply check_int_range_in. Qed.

(** C23. The number a range message cites is the checked value: when
    [check_int_range] rejects an int [n] out of range with
    ["<range message><t>"], then [int(t)] is [n] again. The message
    carries the offending value exactly. *)
Theorem check_int_range_message_roundtrip lo hi rm tm v n t :
  py_int v = Ok n -> ~ (lo <= n <= hi)%Z ->
  check_int_range lo hi rm tm v = Ok (Reject (rm ++ t)) -> py_int_of_str t = Ok n.
Proof.
  intros Hn Hr. unfold check_int_range. rewrite Hn.
  destruct ((lo <=? n) && (n <=? hi))%Z eqn:E.
  { apply andb_true_iff in E as [?%Z.leb_le ?%Z.leb_le]. lia. }
  destruct (int_to_str n) as [m|e] eqn:Hm; cbn.
  - intros [= Ht%app_inv_head]. subst m. by apply py_int_of_str_int_to_str.
  - destruct (is_value_or_type_error e); [|discriminate].
    by rewrite Hm.
Qed.

End Properties.

(** ** Witnesses

    Each property applied to a concrete request, under the sample
    Unicode tables and uuid source. *)

Module Witnesses.

Definition ann_with (age pain : pyval) : list (ustr * pyval) :=
  [(u "name", PStr (u "Ann")); (u "age", age); (u "injury", PStr (u "knee"));
   (u "pain_level", pain); (u "frequency", PStr (u "DAILY"));
   (u "time_of_day", PStr (u "morning")); (u "notification_time", PStr (u "09:30"));
   (u "goal", PStr (u "walk"))].

Definition ann : list (ustr * pyval) := ann_with (PInt 30) (PInt 4).

Definition env0 : call_env := {| ce_now := 1700000000%Z; ce_store_fault := None |}.

Local Abbreviation call rd w := (process_structured_onboarding env0 rd tt w).

Definition w1 : world := (call (PDict ann) empty_world).2.

Lemma onboarding_records_valid_witness :
  onboard_reachable (Hdr := unit) w1 /\
  map_Forall (fun k d => doc_id d = k /\ doc_valid d) (w_patients w1).
Proof.
  assert (R : onboard_reachable (Hdr := unit) w1) by (apply reach_step, reach_init).
  split; [exact R | exact (onboarding_records_valid w1 R)].
Defined.

Lemma onboarding_success_witness :
  rs_status (call (PDict ann) empty_world).1 = 200%Z /\
  exists v, validate_intake (PDict ann) = Ok (Continue v) /\ intake_valid v.
Proof.
  assert (S : rs_status (call (PDict ann) empty_world).1 = 200%Z) by (vm_compute; reflexivity).
  split; [exact S|].
  destruct (onboarding_success env0 (PDict ann) tt empty_world _ _
              (surjective_pairing _) S) as (v & Hv & Hval & _).
  exists v. split; [exact Hv | exact Hval].
Defined.

Lemma onboarding_duplicates_witness :
  exists p1 p2, p1 <> p2 /\
    rs_body (call (PDict ann) empty_world).1 = success_body p1 /\
    rs_body (call (PDict ann) w1).1 = success_body p2.
Proof.
  assert (S1 : rs_status (call (PDict ann) empty_world).1 = 200%Z) by (vm_compute; reflexivity).
  assert (S2 : rs_status (call (PDict ann) w1).1 = 200%Z) by (vm_compute; reflexivity).
  destruct (onboarding_duplicates env0 env0 (PDict ann) tt tt empty_world _ _ _ _
              (surjective_pairing _) (surjective_pairing _) S1 S2)
    as (p1 & p2 & Hne & B1 & B2 & _).
  exists p1, p2. split; [exact Hne | split; [exact B1 | exact B2]].
Defined.

Lemma onboarding_missing_fields_witness :
  missing_keys [(u "age", PInt 30)] <> [] /\
  call (PDict [(u "age", PInt 30)]) empty_world =
    (reply tt 400 [(u "error", u "Missing required fields: " ++
                     join (u ", ") (missing_keys [(u "age", PInt 30)]))], empty_world).
Proof.
  assert (M : missing_keys [(u "age", PInt 30)] <> []) by (vm_compute; discriminate).
  split; [exact M | exact (onboarding_missing_fields env0 _ tt empty_world M)].
Defined.

Lemma onboarding_age_out_of_range_witness :
  call (PDict (ann_with (PInt 3) (PInt 4))) empty_world =
    (reply tt 400 [(u "error", AGE_RANGE_MSG ++ u "3")], empty_world).
Proof.
  apply (onboarding_age_out_of_range env0 _ tt empty_world (PInt 3) 3%Z (u "3"));
    [vm_compute; reflexivity | reflexivity | reflexivity | lia | vm_compute; reflexivity].
Defined.

Lemma onboarding_age_not_integer_witness :
  call (PDict (ann_with (PStr (u "abc")) (PInt 4))) empty_world =
    (reply tt 400 [(u "error", AGE_TYPE_MSG ++ u "abc")], empty_world).
Proof.
  eapply (onboarding_age_not_integer env0 _ tt empty_world (PStr (u "abc")));
    [vm_compute; reflexivity | reflexivity | vm_compute; reflexivity | reflexivity | reflexivity].
Defined.

Lemma onboarding_pain_out_of_range_witness :
  call (PDict (ann_with (PInt 30) (PInt 11))) empty_world =
    (reply tt 400 [(u "error", PAIN_RANGE_MSG ++ u "11")], empty_world).
Proof.
  apply (onboarding_pain_out_of_range env0 _ tt empty_world (PInt 30) 30%Z (PInt 11) 11%Z);
    [vm_compute; reflexivity | reflexivity | reflexivity | lia | reflexivity | reflexivity
    | lia | vm_compute; reflexivity].
Defined.

Lemma onboarding_age_overflow_witness :
  call (PDict (ann_with (PFloat (FInf false)) (PInt 4))) empty_world =
    (reply tt 500 [(u "error", u "Failed to onboard patient: cannot convert float infinity to integer")],
     empty_world).
Proof.
  apply (onboarding_age_overflow env0 _ tt empty_world (PFloat (FInf false))
           (OverflowError (u "cannot convert float infinity to integer")));
    [vm_compute; reflexivity | reflexivity | reflexivity | reflexivity].
Defined.

Lemma check_frequency_ascii_case_witness :
  check_frequency (PStr (u "DAILY")) = check_frequency (PStr (u "daily")).
Proof. apply (check_frequency_ascii_case (u "DAILY")). reflexivity. Defined.

Lemma check_notification_time_newline_witness :
  check_notification_time (PStr (u "09:30" ++ [10])) = Ok (Continue (u "09:30" ++ [10])).
Proof.
  apply (check_notification_time_newline (u "09:30"));
    [reflexivity | vm_compute; reflexivity].
Defined.

(** U+0669 ARABIC-INDIC DIGIT NINE. *)
Lemma check_notification_time_unicode_digit_witness :
  check_notification_time (PStr [49; 1641; 58; 51; 48]) = Ok (Continue [49; 1641; 58; 51; 48]).
Proof. apply (check_notification_time_unicode_digit 1641 9). vm_compute. reflexivity. Defined.

Lemma check_frequency_not_str_witness :
  check_frequency (PInt 3) = Err (no_attribute (PInt 3) "lower").
Proof. apply check_frequency_not_str; discriminate. Defined.

(** 100.5 is [201 * 2^-1]. *)
Lemma check_age_float_witness :
  check_int_range 5 100 AGE_RANGE_MSG AGE_TYPE_MSG (PFloat (FFinite false 201 (-1))) =
    Ok (Continue 100%Z).
Proof. apply (check_age_float false 201 (-1)). vm_compute. split; discriminate. Defined.

Lemma check_int_range_message_roundtrip_witness :
  check_int_range 5 100 AGE_RANGE_MSG AGE_TYPE_MSG (PInt (-120)) =
    Ok (Reject (AGE_RANGE_MSG ++ u "-120")) /\
  py_int_of_str (u "-120") = Ok (-120)%Z.
Proof.
  assert (E : check_int_range 5 100 AGE_RANGE_MSG AGE_TYPE_MSG (PInt (-120)) =
                Ok (Reject (AGE_RANGE_MSG ++ u "-120"))) by (vm_compute; reflexivity).
  split; [exact E|].
  exact (check_int_range_message_roundtrip 5 100 AGE_RANGE_MSG AGE_TYPE_MSG (PInt (-120))
           (-120) (u "-120") eq_refl ltac:(lia) E).
Defined.

End Witnesses.
