(* ===== verification/Metrics.v ===== *)
(** * Transcript metrics: [extract_exercise_metrics] and
      [format_conversation_history]

    Source: [src/backend/cloud_functions/generate_report/main.py], lines
    72-104 and 106-115.

    [extract_exercise_metrics] keeps a dict of three counters. For each
    message it lower-cases the content. For each keyword ("set", "rep",
    "minute") that the content mentions, it runs [re.findall] of
    [(\d+)\s*<kw>s?]. If that finds anything, the counter becomes the max
    of its value and [int()] of the last match.

    The module never imports [re]. The statement [import re] on line 87
    is inside the function, and that makes [re] a local variable of the
    whole function. It is bound when the "set" branch runs for the first
    time. Lines 94 and 100 read it, and raise [UnboundLocalError] if no
    message so far has entered the "set" branch. The model keeps that
    binding as part of the loop's state ([ms_re]).

    [format_conversation_history] renders each message as
    "<speaker>: <content>" and joins the lines with newlines. *)

From Stdlib Require Import String ZArith NArith Lia.
From stdpp Require Import base list.
From S2P Require Import Prelude PyRuntime PyValue PyRe.

Open Scope N_scope.
Local Open Scope pep_scope.

(** ** Patterns *)

(** [r'(\d+)\s*<kw>s?'], the pattern of lines 88, 94 and 100. *)
Definition count_re (kw : ustr) : regex :=
  RCat (RGroup 1 (RPlus (RSet [IDigit])))
       (RCat (RStar (RSet [ISpace])) (RCat (RLit kw) (ROpt (RSet [IChar 115])))).

Definition SETS_RE : regex := count_re (u "set").
Definition REPS_RE : regex := count_re (u "rep").
Definition MINUTES_RE : regex := count_re (u "minute").

(** ** State *)

(** The dict [metrics] of lines 74-78. *)
Record metrics : Type := {
  sets_completed : Z;
  reps_completed : Z;
  duration_minutes : Z;
}.

Definition metrics0 : metrics :=
  {| sets_completed := 0; reps_completed := 0; duration_minutes := 0 |}.

(** Counters no larger, field by field. *)
Definition metrics_le (m1 m2 : metrics) : Prop :=
  (sets_completed m1 <= sets_completed m2)%Z /\
  (reps_completed m1 <= reps_completed m2)%Z /\
  (duration_minutes m1 <= duration_minutes m2)%Z.

(** The locals the loop carries: the dict, and whether the local [re] has
    a value. *)
Record mstate : Type := {
  ms_metrics : metrics;
  ms_re : bool;
}.

Section Extract.
Context `{PyRuntime}.

(** The error of reading the local [re] before [import re] ran. *)
Definition RE_UNBOUND : exn :=
  UnboundLocalError (u "cannot access local variable 're' where it is not associated with a value").

(** A read of the local [re]. *)
Definition read_re (bound : bool) : result exn unit :=
  if bound then Ok tt else Err RE_UNBOUND.

(** [kw in content or kw + 's' in content]. *)
Definition mentions (kw content : ustr) : bool :=
  contains kw content || contains (kw ++ u "s") content.

(** [if matches: m = max(m, int(matches[-1]))], lines 89-90. *)
Definition update_max (matches : list ustr) (cur : Z) : result exn Z :=
  match last_opt matches with
  | Some m => n ← py_int (PStr m); Ok (Z.max cur n)
  | None => Ok cur
  end.

(** [message.get('content', '').lower()], line 82. *)
Definition message_content (message : pyval) : result exn ustr :=
  c ← py_get message (u "content") (PStr []);
  py_lower c.

(** One iteration of the loop, lines 82-102. *)
Definition scan_message (st : mstate) (message : pyval) : result exn mstate :=
  content ← message_content message;
  let m := ms_metrics st in
  '(sets, bound) ←
    (if mentions (u "set") content then
       s ← update_max (re_findall SETS_RE content) (sets_completed m); Ok (s, true)
     else Ok (sets_completed m, ms_re st));
  reps ←
    (if mentions (u "rep") content then
       read_re bound;; update_max (re_findall REPS_RE content) (reps_completed m)
     else Ok (reps_completed m));
  mins ←
    (if mentions (u "minute") content then
       read_re bound;; update_max (re_findall MINUTES_RE content) (duration_minutes m)
     else Ok (duration_minutes m));
  Ok {| ms_metrics := {| sets_completed := sets; reps_completed := reps;
                          duration_minutes := mins |};
        ms_re := bound |}.

(** [extract_exercise_metrics(conversation_history)], lines 72-104. *)
Definition extract_exercise_metrics (conversation_history : pyval) : result exn metrics :=
  msgs ← py_iter conversation_history;
  st ← foldM scan_message {| ms_metrics := metrics0; ms_re := false |} msgs;
  Ok (ms_metrics st).

(** ** What the spec promises (section 4.2)

    The number a string of decimal digits denotes, digit by digit
    through [unicodedata.decimal]. *)
Definition decimal_value (m : ustr) : N :=
  fold_left (fun acc c => acc * 10 + default 0 (uc_decimal c)) m 0.

(** The number the last match of a message cites, or [0]. *)
Definition last_count (kw c : ustr) : Z :=
  match last_opt (re_findall (count_re kw) c) with
  | Some m => Z.of_N (decimal_value m)
  | None => 0%Z
  end.

(** The running maximum over the messages. *)
Definition spec_count (kw : ustr) (cs : list ustr) : Z :=
  fold_left (fun acc c => Z.max acc (last_count kw c)) cs 0%Z.

Definition spec_metrics (cs : list ustr) : metrics :=
  {| sets_completed := spec_count (u "set") cs;
     reps_completed := spec_count (u "rep") cs;
     duration_minutes := spec_count (u "minute") cs |}.

(** The transcripts on which the code reads [re] unbound: a message
    mentions reps or minutes, and neither it nor any message before it
    mentions sets. *)
Definition re_unbound_at (cs : list ustr) : Prop :=
  exists pre c post, cs = pre ++ c :: post /\
    Forall (fun c' => mentions (u "set") c' = false) (pre ++ [c]) /\
    (mentions (u "rep") c || mentions (u "minute") c) = true.

End Extract.

Section Format.
Context `{PyRuntime}.

(** One line, lines 110-113. *)
Definition format_message (msg : pyval) : result exn ustr :=
  role ← py_get msg (u "role") (PStr []);
  content ← py_get msg (u "content") (PStr []);
  let speaker := if py_eq_str (u "user") role then u "Patient" else u "AI Coach" in
  c ← py_str content;
  Ok (speaker ++ u ": " ++ c).

(** [format_conversation_history(conversation_history)], lines 106-115. *)
Definition format_conversation_history (conversation_history : pyval) : result exn ustr :=
  msgs ← py_iter conversation_history;
  lines ← mapM format_message msgs;
  Ok (join [10] lines).

End Format.

(** ** What a count pattern finds *)

Section Matches.
Context `{PyRuntime}.

Lemma in_class_digit c : in_class [IDigit] c = true -> is_decimal c = true.
Proof. cbn. by rewrite orb_false_r. Qed.

Lemma in_class_space c : in_class [ISpace] c = true -> uc_isspace c = true.
Proof. cbn. by rewrite orb_false_r. Qed.

Lemma decimal_not_space c : uc_isspace c = true -> is_decimal c = false.
Proof.
  unfold is_decimal. destruct (uc_decimal c) eqn:E; [|done].
  by rewrite (uc_decimal_not_space _ _ E).
Qed.

(** The spans of a match of [(\d+)\s*<kw>s?] from [i]: a non-empty run of
    decimal digits [i..b), the group; a run of white space [b..p); the
    keyword at [p]; the match ends after it. *)
Lemma count_re_spans s kw i j cp :
  kw <> [] -> rmatch s (count_re kw) i [] j cp ->
  exists b p, (i < b <= p)%nat /\ (p < j)%nat /\ cp = [(1%nat, (i, b))] /\
    (forall k, (i <= k < b)%nat -> exists c, s !! k = Some c /\ is_decimal c = true) /\
    (forall k, (b <= k < p)%nat -> exists c, s !! k = Some c /\ uc_isspace c = true) /\
    exists q, drop p s = kw ++ drop q s.
Proof.
  intros Hkw (b & cp1 & Hg & Hrest)%rmatch_cat_inv.
  apply rmatch_group_inv in Hg as (cp0 & Hp & ->).
  apply rmatch_cat_inv in Hp as (i1 & cp2 & Hd & Hst).
  apply rmatch_set in Hd as (-> & -> & c0 & Hc0 & Hin0%in_class_digit).
  apply rmatch_star_set in Hst as (-> & Hle & Hk).
  apply rmatch_cat_inv in Hrest as (p & cp3 & Hsp & Hrest).
  apply rmatch_star_set in Hsp as (-> & Hbp & Hsp).
  apply rmatch_cat_inv in Hrest as (q & cp4 & Hl & Ho).
  pose proof (rmatch_bounds _ _ _ _ _ _ Hl) as [Hpq _].
  pose proof (rmatch_bounds _ _ _ _ _ _ Ho) as [Hqj _].
  apply (rmatch_lit _ _ _ _ _ _ Hkw) in Hl as (-> & Hdrop).
  apply rmatch_no_groups in Ho; [subst cp|done].
  assert (p <> q).
  { intros <-. apply (f_equal length) in Hdrop. rewrite length_app in Hdrop.
    destruct kw; [done | cbn in Hdrop; lia]. }
  exists b, p. split; [lia | split; [lia | split; [done | split; [| split; [| eauto]]]]].
  - intros k Hk'. destruct (decide (k = i)) as [->|]; [eauto|].
    destruct (Hk k ltac:(lia)) as (c & ? & ?%in_class_digit). eauto.
  - intros k Hk'. destruct (Hsp k Hk') as (c & ? & ?%in_class_space). eauto.
Qed.

(** A match of [(\d+)\s*<kw>s?] from [i]: its group is a non-empty run of
    decimal digits from [i], and the keyword occurs in the subject. *)
Lemma count_re_match s kw i j cp :
  kw <> [] -> rmatch s (count_re kw) i [] j cp ->
  exists b, (i < b)%nat /\ cp = [(1%nat, (i, b))] /\
    (forall k, (i <= k < b)%nat -> exists c, s !! k = Some c /\ is_decimal c = true) /\
    contains kw s = true.
Proof.
  intros Hkw Hm.
  destruct (count_re_spans _ _ _ _ _ Hkw Hm) as (b & p & Hb & _ & -> & Hd & _ & q & Hdrop).
  exists b. split; [lia | split; [done | split; [done|]]].
  apply contains_spec. exists (take p s), (drop q s). by rewrite <- Hdrop, take_drop.
Qed.

(** The items of [re.findall] of a count pattern: non-empty strings of
    decimal digits, no longer than the subject, found only where the
    keyword occurs. *)
Lemma findall_count_item kw c m :
  kw <> [] -> In m (re_findall (count_re kw) c) ->
  m <> [] /\ forallb is_decimal m = true /\ (length m <= length c)%nat /\
  contains kw c = true.
Proof.
  intros Hkw (i & j & cp & Hm & ->)%findall_loop_sound.
  destruct (count_re_match _ _ _ _ _ Hkw Hm) as (b & Hib & -> & Hd & Hc).
  unfold group_text. cbn. set (t := take (b - i) (drop i c)).
  destruct (Hd i ltac:(lia)) as (c0 & Hc0 & _).
  apply lookup_lt_Some in Hc0.
  assert (Hlen : length t = ((b - i) `min` (length c - i))%nat)
    by (subst t; by rewrite length_take, length_drop).
  split; [intros Ht; rewrite Ht in Hlen; cbn in Hlen; lia|].
  split; [|split; [lia | done]].
  apply List.forallb_forall. intros x Hx%list_elem_of_In.
  apply list_elem_of_lookup in Hx as (k & Hk).
  subst t. apply lookup_take_Some in Hk as [Hk ?]. rewrite lookup_drop in Hk.
  destruct (Hd (i + k)%nat ltac:(lia)) as (c1 & Hc1 & ?). congruence.
Qed.

End Matches.

(** ** Where no digit is, no search matches *)

Section NoDigit.
Context `{PyRuntime}.

(** A count pattern fails at once where the subject has no decimal digit. *)
Lemma mt_count_re_none s kw i cp k :
  (forall c, s !! i = Some c -> is_decimal c = false) -> mt s (count_re kw) i cp k = None.
Proof.
  intros Hi. unfold count_re, RPlus. cbn [mt].
  destruct (s !! i) as [c|]; [|done].
  cbn [in_class existsb citem_match]. by rewrite (Hi c eq_refl).
Qed.

Lemma findall_count_none s kw f i :
  (forall k c, (i <= k)%nat -> s !! k = Some c -> is_decimal c = false) ->
  findall_loop s (count_re kw) f i = [].
Proof.
  revert i. induction f as [|f IH]; intros i Hi; cbn [findall_loop]; [done|].
  destruct (length s <? i)%nat; [done|].
  rewrite mt_count_re_none by (intros c; apply Hi; lia). apply IH. intros k c ?. apply Hi. lia.
Qed.

(** The searches skip a stretch without digits one position at a time. *)
Lemma findall_count_skip s kw f i n :
  (forall k c, (i <= k < i + n)%nat -> s !! k = Some c -> is_decimal c = false) ->
  (i + n <= length s)%nat ->
  findall_loop s (count_re kw) (n + f) i = findall_loop s (count_re kw) f (i + n).
Proof.
  revert i. induction n as [|n IH]; intros i Hi Hn; [by rewrite Nat.add_0_r|].
  cbn [Nat.add findall_loop]. destruct (Nat.ltb_spec (length s) i); [lia|].
  rewrite mt_count_re_none by (intros c; apply Hi; lia).
  rewrite IH; [f_equal; lia | intros k c ? Hc; apply (Hi k c); [lia | done] | lia].
Qed.

End NoDigit.

(** ** The one count of a message

    A subject [pre ++ ds ++ sp ++ kw ++ w] whose only digits are the run
    [ds], followed by white space [sp] and the keyword: [re.findall]
    finds exactly [ds], whatever the characters [w] after the keyword. *)

Section CountRun.
Context `{PyRuntime}.
Variables (pre ds sp kw w : ustr).
Hypothesis Hpre : forallb (fun c => negb (is_decimal c)) pre = true.
Hypothesis Hds : ds <> [].
Hypothesis Hdig : forallb is_decimal ds = true.
Hypothesis Hsp : forallb uc_isspace sp = true.
Hypothesis Hkw : kw <> [].
Hypothesis Htail : forallb (fun c => negb (is_decimal c)) (kw ++ w) = true.

Local Abbreviation subj := (pre ++ ds ++ sp ++ kw ++ w).

Lemma run_pre k c : (k < length pre)%nat -> subj !! k = Some c -> is_decimal c = false.
Proof.
  intros Hk Hc. rewrite lookup_app_l in Hc by done.
  apply negb_true_iff. exact (forallb_lookup _ _ _ _ Hpre Hc).
Qed.

Lemma run_tail k c : (length pre + length ds <= k)%nat -> subj !! k = Some c -> is_decimal c = false.
Proof.
  intros Hk Hc. rewrite app_assoc, lookup_app_r in Hc by (rewrite length_app; lia).
  apply lookup_app_Some in Hc as [Hc | [_ Hc]].
  - exact (decimal_not_space _ (forallb_lookup _ _ _ _ Hsp Hc)).
  - apply negb_true_iff. exact (forallb_lookup _ _ _ _ Htail Hc).
Qed.

Lemma run_digit k :
  (length pre <= k < length pre + length ds)%nat ->
  exists c, subj !! k = Some c /\ in_class [IDigit] c = true.
Proof.
  intros Hk. destruct (lookup_lt_is_Some_2 ds (k - length pre)) as [c Hc]; [lia|].
  exists c. rewrite lookup_app_r, lookup_app_l by lia.
  split; [done|]. cbn. by rewrite (forallb_lookup _ _ _ _ Hdig Hc).
Qed.

Lemma run_space k :
  (length pre + length ds <= k < length pre + length ds + length sp)%nat ->
  exists c, subj !! k = Some c /\ in_class [ISpace] c = true.
Proof.
  intros Hk. destruct (lookup_lt_is_Some_2 sp (k - length pre - length ds)) as [c Hc]; [lia|].
  exists c. rewrite app_assoc, lookup_app_r, lookup_app_l by (rewrite ?length_app; lia).
  rewrite length_app, Nat.sub_add_distr. split; [done|].
  cbn. by rewrite (forallb_lookup _ _ _ _ Hsp Hc).
Qed.

(** The match the search finds at [length pre]. *)
Lemma run_match :
  rmatch subj (count_re kw) (length pre) []
    (length pre + length ds + length sp + length kw)%nat
    [(1%nat, (length pre, length pre + length ds)%nat)].
Proof.
  destruct (run_digit (length pre)) as (c0 & Hc0 & Hin0); [destruct ds; [done | cbn; lia]|].
  unfold count_re, RPlus.
  apply rm_cat with (m := (length pre + length ds)%nat) (cp1 := [(1%nat, (length pre, length pre + length ds)%nat)]).
  { apply rm_group. apply rm_cat with (m := S (length pre)) (cp1 := []); [by econstructor|].
    apply rmatch_star_set_run; [destruct ds; [done | cbn; lia] | intros k ?; apply run_digit; lia]. }
  apply rm_cat with (m := (length pre + length ds + length sp)%nat) (cp1 := [(1%nat, (length pre, length pre + length ds)%nat)]).
  { apply rmatch_star_set_run; [lia | intros k ?; apply run_space; lia]. }
  eapply rm_cat; [|apply rm_opt_none].
  apply (rmatch_lit_intro _ _ _ _ w Hkw).
  replace subj with ((pre ++ ds ++ sp) ++ kw ++ w) by (by rewrite <- !app_assoc).
  apply drop_app_length'. rewrite !length_app. lia.
Qed.

(** Any match from [length pre] has the group [ds] and ends after it:
    the digits stop where [ds] does, since white space and the keyword's
    first character are not digits. *)
Lemma run_found j cp :
  rmatch subj (count_re kw) (length pre) [] j cp ->
  cp = [(1%nat, (length pre, length pre + length ds)%nat)] /\ (length pre + length ds < j)%nat.
Proof.
  intros Hm.
  destruct (count_re_spans _ _ _ _ _ Hkw Hm) as (b & p & Hb & Hpj & -> & Hd & Hs & q & Hdrop).
  assert (b = length pre + length ds)%nat as ->; [|split; [done | lia]].
  destruct (Nat.lt_total b (length pre + length ds)) as [Hlt | [? | Hgt]]; [exfalso | done | exfalso].
  - destruct (run_digit b ltac:(lia)) as (c & Hc & Hcd%in_class_digit).
    destruct (Nat.eq_dec b p) as [<- | Hne].
    + assert (Hk : subj !! b = kw !! 0%nat).
      { by rewrite <- (Nat.add_0_r b), <- lookup_drop, Hdrop, lookup_app_l
          by (destruct kw; [done | cbn; lia]). }
      rewrite Hc in Hk. symmetry in Hk.
      pose proof (forallb_lookup _ _ _ _ Htail (lookup_app_l_Some _ w _ _ Hk)) as Hn.
      cbv beta in Hn. by rewrite Hcd in Hn.
    + destruct (Hs b ltac:(lia)) as (c' & Hc' & Hsc). rewrite Hc in Hc'. injection Hc' as <-.
      by rewrite (decimal_not_space _ Hsc) in Hcd.
  - destruct (Hd (length pre + length ds)%nat ltac:(lia)) as (c & Hc & Hcd).
    by rewrite (run_tail _ _ (le_n _) Hc) in Hcd.
Qed.

(** [re.findall] of the count pattern finds [ds] and nothing else. *)
Lemma re_findall_run : re_findall (count_re kw) subj = [ds].
Proof.
  unfold re_findall.
  replace (S (length subj)) with (length pre + S (length subj - length pre))%nat
    by (rewrite length_app; lia).
  rewrite findall_count_skip; cycle 1.
  { intros k c Hk Hc. exact (run_pre k c ltac:(lia) Hc). }
  { rewrite length_app. lia. }
  cbn [findall_loop Nat.add]. destruct (Nat.ltb_spec (length subj) (length pre)) as [Hl|_].
  { rewrite length_app in Hl. lia. }
  destruct (mt subj (count_re kw) (length pre) [] mt_accept) as [[j cp]|] eqn:E.
  - apply mt_sound in E as (j' & cp' & Hm & [= -> ->]).
    destruct (run_found _ _ Hm) as [-> Hj].
    unfold group_text. cbn [cap_lookup Nat.eqb].
    rewrite drop_app_length', take_app_length' by lia. f_equal.
    apply findall_count_none. intros k c ?. apply run_tail.
    destruct (Nat.eqb_spec j (length pre)); lia.
  - exfalso. destruct (mt_complete _ _ _ _ _ _ mt_accept run_match) as [x Hx]; [by eexists|].
    by rewrite Hx in E.
Qed.

End CountRun.


(** ** [int()] of a run of decimal digits *)

Section Numerals.
Context `{PyRuntime}.

(** The ASCII digit [int()] reads for a decimal character. *)
Local Abbreviation dchar c := (digit_char (default 0 (uc_decimal c))).

Lemma int_ascii_view_decimals m :
  forallb is_decimal m = true -> int_ascii_view m = map (fun c => dchar c) m.
Proof.
  induction m as [|c m IH]; cbn; [done|]. rewrite andb_true_iff. intros [Hc Hm].
  unfold is_decimal in Hc. destruct (is_ascii c) eqn:Ha.
  - rewrite (uc_decimal_ascii c Ha) in Hc |- *.
    destruct (is_ascii_digit c) eqn:Hd; [|discriminate].
    rewrite IH by done. f_equal. unfold digit_char, is_ascii_digit in *. cbn. nbool.
  - destruct (uc_decimal c) as [d|] eqn:Hdec; [|discriminate].
    rewrite (uc_decimal_not_space _ _ Hdec), IH by done. done.
Qed.

Lemma decimals_ascii_digits m :
  forallb is_decimal m = true -> forallb is_ascii_digit (map (fun c => dchar c) m) = true.
Proof.
  induction m as [|c m IH]; cbn; [done|]. rewrite !andb_true_iff. intros [Hc Hm].
  split; [|auto]. unfold is_decimal in Hc.
  destruct (uc_decimal c) as [d|] eqn:Hdec; [|discriminate].
  apply uc_decimal_lt in Hdec. unfold is_ascii_digit, digit_char. cbn. nbool.
Qed.

Lemma value_of_digits_decimals m :
  value_of_digits (map (fun c => dchar c) m) = decimal_value m.
Proof.
  unfold value_of_digits, decimal_value.
  enough (Hacc : forall a, fold_left (fun acc c => acc * 10 + (c - 48)) (map (fun c => dchar c) m) a =
                           fold_left (fun acc c => acc * 10 + default 0 (uc_decimal c)) m a)
    by apply Hacc.
  induction m as [|c m IH]; intros a; cbn; [done|]. rewrite IH.
  f_equal. unfold digit_char. lia.
Qed.

(** [int(m)] of a non-empty run of decimal digits: its value, or the
    [ValueError] of the 4300-digit limit. *)
Lemma py_int_decimals m :
  m <> [] -> forallb is_decimal m = true ->
  py_int (PStr m) =
  if Nat.ltb int_max_str_digits (length m) then Err (ValueError (limit_to_int_msg (length m)))
  else Ok (Z.of_N (decimal_value m)).
Proof.
  intros Hne Hd. cbn [py_int]. unfold py_int_of_str.
  rewrite int_ascii_view_decimals, parse_int_ascii_digits by
    (auto using decimals_ascii_digits; by destruct m).
  rewrite length_map, value_of_digits_decimals.
  by destruct (Nat.ltb int_max_str_digits (length m)).
Qed.

End Numerals.

(** ** One message *)

#[export] Instance metrics_le_preorder : PreOrder metrics_le.
Proof. split; [intros m; repeat split; lia | intros ??? (?&?&?) (?&?&?); repeat split; lia]. Qed.

Section Scan.
Context `{PyRuntime}.

(** A content that does not mention the keyword has no match. *)
Lemma last_count_unmentioned kw c :
  kw <> [] -> mentions kw c = false -> last_count kw c = 0%Z.
Proof.
  intros Hkw Hm. unfold last_count. destruct (last_opt _) as [m|] eqn:E; [|done].
  destruct (findall_count_item kw c m Hkw (last_opt_In _ _ E)) as (_ & _ & _ & Hc).
  unfold mentions in Hm. by rewrite Hc in Hm.
Qed.

(** Within the digit limit, the update of a counter is the max with the
    number the last match cites. *)
Lemma update_max_count kw c cur :
  kw <> [] -> (length c <= int_max_str_digits)%nat -> (0 <= cur)%Z ->
  update_max (re_findall (count_re kw) c) cur = Ok (Z.max cur (last_count kw c)).
Proof.
  intros Hkw Hlen Hcur. unfold update_max, last_count.
  destruct (last_opt _) as [m|] eqn:E; [|f_equal; lia].
  destruct (findall_count_item kw c m Hkw (last_opt_In _ _ E)) as (Hne & Hd & Hl & _).
  rewrite py_int_decimals by done.
  by destruct (Nat.ltb_spec int_max_str_digits (length m)); [lia|].
Qed.

(** The block of one keyword, [re] bound or the keyword not mentioned. *)
Lemma count_block kw c cur (bound : bool) :
  kw <> [] -> (length c <= int_max_str_digits)%nat -> (0 <= cur)%Z ->
  (bound = true \/ mentions kw c = false) ->
  (if mentions kw c then read_re bound;; update_max (re_findall (count_re kw) c) cur
   else Ok cur) = Ok (Z.max cur (last_count kw c)).
Proof.
  intros Hkw Hlen Hcur Hb. destruct (mentions kw c) eqn:Hm.
  - destruct Hb as [->|]; [|done]. by apply update_max_count.
  - rewrite last_count_unmentioned by done. f_equal. lia.
Qed.

Lemma update_max_ge l cur n : update_max l cur = Ok n -> (cur <= n)%Z.
Proof.
  unfold update_max. destruct (last_opt l); [|intros [= <-]; lia].
  destruct (py_int _); cbn; [intros [= <-]; lia | discriminate].
Qed.

Lemma read_re_block_ge (bound b : bool) l cur n :
  (if b then read_re bound;; update_max l cur else Ok cur) = Ok n -> (cur <= n)%Z.
Proof.
  destruct b; [|intros [= <-]; lia].
  destruct bound; cbn; [apply update_max_ge | discriminate].
Qed.

(** A message, when [re] is bound or the message needs no [re] before
    it binds it: each counter takes the max with its [last_count], and
    [re] is bound from the first message that mentions sets on. *)
Lemma scan_message_ok m (b : bool) msg c :
  message_content msg = Ok c -> (length c <= int_max_str_digits)%nat ->
  metrics_le metrics0 m ->
  (b || mentions (u "set") c || negb (mentions (u "rep") c || mentions (u "minute") c)) = true ->
  scan_message {| ms_metrics := m; ms_re := b |} msg =
  Ok {| ms_metrics :=
          {| sets_completed := Z.max (sets_completed m) (last_count (u "set") c);
             reps_completed := Z.max (reps_completed m) (last_count (u "rep") c);
             duration_minutes := Z.max (duration_minutes m) (last_count (u "minute") c) |};
        ms_re := b || mentions (u "set") c |}.
Proof.
  intros Hc Hlen (Hs & Hr & Hmin) Hb. cbn in Hs, Hr, Hmin. unfold scan_message. rewrite Hc. cbn [mbind result_bind].
  assert (Hset : (if mentions (u "set") c then
                    s ← update_max (re_findall SETS_RE c) (sets_completed m); Ok (s, true)
                  else Ok (sets_completed m, b)) =
                 Ok (Z.max (sets_completed m) (last_count (u "set") c), b || mentions (u "set") c)).
  { destruct (mentions (u "set") c) eqn:E.
    - unfold SETS_RE. rewrite update_max_count by done. by rewrite orb_true_r.
    - rewrite last_count_unmentioned, orb_false_r by done. f_equal. f_equal. lia. }
  cbn [ms_metrics ms_re]. rewrite Hset. cbn [mbind result_bind].
  destruct (b || mentions (u "set") c) eqn:Eb.
  - unfold REPS_RE, MINUTES_RE.
    rewrite !count_block by auto. done.
  - apply orb_false_iff in Eb as [-> Es]. rewrite ?orb_false_l in Hb.
    apply negb_true_iff, orb_false_iff in Hb as [Er Em].
    unfold REPS_RE, MINUTES_RE. rewrite !count_block by auto. done.
Qed.

(** A message that mentions no keyword leaves the state as it is. *)
Lemma scan_message_quiet st msg c :
  message_content msg = Ok c -> mentions (u "set") c = false ->
  mentions (u "rep") c = false -> mentions (u "minute") c = false ->
  scan_message st msg = Ok st.
Proof.
  intros Hc Hs Hr Hm. unfold scan_message. rewrite Hc. cbn [mbind result_bind].
  rewrite Hs, Hr, Hm. by destruct st as [[] ?].
Qed.

(** A message that mentions reps or minutes, read with [re] unbound and
    not mentioning sets, raises [UnboundLocalError]. *)
Lemma scan_message_unbound m msg c :
  message_content msg = Ok c -> mentions (u "set") c = false ->
  (mentions (u "rep") c || mentions (u "minute") c) = true ->
  scan_message {| ms_metrics := m; ms_re := false |} msg = Err RE_UNBOUND.
Proof.
  intros Hc Hs Hrm. unfold scan_message. rewrite Hc. cbn [mbind result_bind ms_re].
  rewrite Hs. cbn [mbind result_bind].
  destruct (mentions (u "rep") c); [done|]. rewrite orb_false_l in Hrm. by rewrite Hrm.
Qed.

(** No counter decreases across a message. *)
Lemma scan_message_mono st msg st' :
  scan_message st msg = Ok st' -> metrics_le (ms_metrics st) (ms_metrics st').
Proof.
  unfold scan_message. intros Hsc.
  apply bind_eq_Ok in Hsc as (c & _ & Hsc).
  apply bind_eq_Ok in Hsc as ([s b] & Es & Hsc). cbv beta iota in Hsc.
  apply bind_eq_Ok in Hsc as (r & Er%read_re_block_ge & Hsc).
  apply bind_eq_Ok in Hsc as (n & En%read_re_block_ge & [= <-]).
  unfold metrics_le. cbn. split; [|lia].
  destruct (mentions (u "set") c).
  - apply bind_eq_Ok in Es as (s' & Hs'%update_max_ge & [= <- _]). done.
  - injection Es as <- _. lia.
Qed.

End Scan.

(** ** The loop *)

Lemma re_unbound_at_inv c cs :
  re_unbound_at (c :: cs) ->
  mentions (u "set") c = false /\
  ((mentions (u "rep") c || mentions (u "minute") c) = true \/ re_unbound_at cs).
Proof.
  intros ([|c0 pre] & c' & post & Heq & Hf & Hrm); cbn in Heq, Hf;
    injection Heq as -> ->; apply Forall_cons in Hf as [Hc Hf]; [auto|].
  split; [done|]. right. by exists pre, c', post.
Qed.

Lemma re_unbound_at_cons c cs :
  mentions (u "set") c = false -> re_unbound_at cs -> re_unbound_at (c :: cs).
Proof.
  intros Hc (pre & c' & post & -> & Hf & Hrm).
  exists (c :: pre), c', post. split; [done | split; [by constructor | done]].
Qed.

Section Loop.
Context `{PyRuntime}.

Lemma scan_fold_ok msgs cs m (b : bool) :
  mapM message_content msgs = Ok cs ->
  Forall (fun c => (length c <= int_max_str_digits)%nat) cs ->
  metrics_le metrics0 m -> (b = true \/ ~ re_unbound_at cs) ->
  foldM scan_message {| ms_metrics := m; ms_re := b |} msgs =
  Ok {| ms_metrics :=
          {| sets_completed :=
               fold_left (fun a c => Z.max a (last_count (u "set") c)) cs (sets_completed m);
             reps_completed :=
               fold_left (fun a c => Z.max a (last_count (u "rep") c)) cs (reps_completed m);
             duration_minutes :=
               fold_left (fun a c => Z.max a (last_count (u "minute") c)) cs (duration_minutes m) |};
        ms_re := b || existsb (mentions (u "set")) cs |}.
Proof.
  revert cs m b. induction msgs as [|x msgs IH]; intros cs m b Hcs Hlen Hm Hb.
  - apply mapM_Ok_nil in Hcs as ->. cbn. rewrite orb_false_r. by destruct m.
  - apply mapM_Ok_cons in Hcs as (c & cs' & -> & Hc & Hcs).
    apply Forall_cons in Hlen as [Hl Hlen].
    assert (Hhead : (b || mentions (u "set") c ||
                     negb (mentions (u "rep") c || mentions (u "minute") c)) = true).
    { destruct b; [done|]. destruct Hb as [?|Hb]; [done|].
      destruct (mentions (u "set") c) eqn:Es; [done|].
      destruct (mentions (u "rep") c || mentions (u "minute") c) eqn:Erm; [|done].
      exfalso. apply Hb. exists [], c, cs'. split; [done | split; [by constructor | done]]. }
    cbn [foldM]. rewrite (scan_message_ok _ _ _ _ Hc Hl Hm Hhead). cbn [mbind result_bind].
    rewrite (IH cs'); [cbn [fold_left existsb]; by rewrite orb_assoc | done | done | |].
    + destruct Hm as (? & ? & ?). unfold metrics_le in *. cbn in *. repeat split; lia.
    + destruct (b || mentions (u "set") c) eqn:E; [by left | right].
      apply orb_false_iff in E as [-> Es]. destruct Hb as [?|Hb]; [done|].
      intros Hu. by apply Hb, re_unbound_at_cons.
Qed.

Lemma scan_fold_unbound msgs cs m :
  mapM message_content msgs = Ok cs -> re_unbound_at cs ->
  foldM scan_message {| ms_metrics := m; ms_re := false |} msgs = Err RE_UNBOUND.
Proof.
  revert cs. induction msgs as [|x msgs IH]; intros cs Hcs Hu.
  - apply mapM_Ok_nil in Hcs as ->. by destruct Hu as ([|] & ? & ? & ? & _).
  - apply mapM_Ok_cons in Hcs as (c & cs' & -> & Hc & Hcs).
    apply re_unbound_at_inv in Hu as [Hs Hu]. cbn [foldM].
    destruct (mentions (u "rep") c || mentions (u "minute") c) eqn:Hrm.
    + by rewrite (scan_message_unbound _ _ _ Hc Hs Hrm).
    + destruct Hu as [?|Hu]; [done|]. apply orb_false_iff in Hrm as [Hr Hmn].
      rewrite (scan_message_quiet _ _ _ Hc Hs Hr Hmn). by apply (IH cs').
Qed.

Lemma scan_fold_mono msgs st st' :
  foldM scan_message st msgs = Ok st' -> metrics_le (ms_metrics st) (ms_metrics st').
Proof.
  revert st. induction msgs as [|x msgs IH]; intros st; cbn [foldM]; [by intros [= <-]|].
  intros (st1 & H1%scan_message_mono & H2%IH)%bind_eq_Ok. by etrans.
Qed.

End Loop.

(** ** Formatting *)

Section FormatLemmas.
Context `{PyRuntime}.

Lemma not_elem_of_app_const (x : N) t l : bool_decide (x ∈ t) = false -> x ∉ l -> x ∉ t ++ l.
Proof. intros Ht%bool_decide_eq_false Hl. rewrite elem_of_app. tauto. Qed.

(** The line of a message whose content is a str [s]: no newline unless
    [s] has one, and a [Patient] line exactly when the role is the str
    ["user"]. *)
Lemma format_message_line msg s line :
  py_get msg (u "content") (PStr []) = Ok (PStr s) -> 10 ∉ s ->
  format_message msg = Ok line ->
  (10 ∉ line) /\
  (is_prefix (u "Patient: ") line = true <-> py_get msg (u "role") (PStr []) = Ok (PStr (u "user"))).
Proof.
  intros Hc Hs Hf.
  assert (Hr : exists role, py_get msg (u "role") (PStr []) = Ok role)
    by (destruct msg; try discriminate; eauto).
  destruct Hr as [role Hr].
  assert (Hline : format_message msg =
            Ok ((if py_eq_str (u "user") role then u "Patient: " else u "AI Coach: ") ++ s)).
  { unfold format_message. rewrite Hr, Hc. cbn [mbind result_bind py_str].
    destruct (py_eq_str (u "user") role); reflexivity. }
  rewrite Hf in Hline. injection Hline as ->. rewrite Hr.
  destruct (py_eq_str (u "user") role) eqn:E.
  - destruct role; try discriminate. apply bool_decide_eq_true in E as <-.
    split; [by apply not_elem_of_app_const|].
    split; [done | intros _; by apply is_prefix_app].
  - split; [by apply not_elem_of_app_const|]. split; [by vm_compute|].
    intros [= ->]. cbn in E. by rewrite bool_decide_eq_true_2 in E.
Qed.

End FormatLemmas.

Section FormatLoop.
Context `{PyRuntime}.

Lemma format_lines_rel msgs lines :
  mapM format_message msgs = Ok lines ->
  Forall (fun msg => exists s, py_get msg (u "content") (PStr []) = Ok (PStr s) /\ 10 ∉ s) msgs ->
  Forall2 (fun msg line => is_prefix (u "Patient: ") line = true <->
                           py_get msg (u "role") (PStr []) = Ok (PStr (u "user"))) msgs lines /\
  Forall (fun line => 10 ∉ line) lines.
Proof.
  revert lines. induction msgs as [|x msgs IH]; intros lines Hl Hall.
  - apply mapM_Ok_nil in Hl as ->. done.
  - apply mapM_Ok_cons in Hl as (line & lines' & -> & Hx & Hl).
    apply Forall_cons in Hall as [(s & Hc & Hs) Hall].
    destruct (format_message_line _ _ _ Hc Hs Hx) as [Hn Hiff].
    destruct (IH _ Hl Hall) as [Hr Hf]. split; by constructor.
Qed.

End FormatLoop.

(** ** Properties *)

Section Properties.
Context `{PyRuntime}.

(** C9. Refinement of the spec's policy (section 4.2). On a transcript
    of dict messages whose lower-cased contents [cs] have at most 4300
    characters, and on which [re] is never read unbound, the extractor
    returns for each counter the running maximum, over the messages, of
    the number the last match of [(\d+)\s*<kw>s?] in that message cites
    (0 for a message without one). *)
Theorem extract_exercise_metrics_refines msgs cs :
  mapM message_content msgs = Ok cs ->
  Forall (fun c => (length c <= int_max_str_digits)%nat) cs ->
  ~ re_unbound_at cs ->
  extract_exercise_metrics (PList msgs) = Ok (spec_metrics cs).
Proof.
  intros Hcs Hlen Hu. unfold extract_exercise_metrics. cbn [py_iter mbind result_bind].
  rewrite (scan_fold_ok msgs cs metrics0 false); [done | done | done | reflexivity | by right].
Qed.

(** C10. The extractor raises [UnboundLocalError] when a message mentions
    reps or minutes before any message (that one included) has mentioned
    sets: [re] is a local of the function, bound only by the [import re]
    of the sets branch. The spec says the extractor never fails. *)
Theorem extract_exercise_metrics_unbound msgs cs :
  mapM message_content msgs = Ok cs -> re_unbound_at cs ->
  extract_exercise_metrics (PList msgs) = Err RE_UNBOUND.
Proof.
  intros Hcs Hu. unfold extract_exercise_metrics. cbn [py_iter mbind result_bind].
  by rewrite (scan_fold_unbound msgs cs metrics0).
Qed.

(** C11. The counters are non-negative and never decrease as the
    transcript is scanned: when the extractor succeeds on [h1 ++ h2], it
    succeeds on [h1] with counters that are non-negative and no larger. *)
Theorem extract_exercise_metrics_monotone h1 h2 m2 :
  extract_exercise_metrics (PList (h1 ++ h2)) = Ok m2 ->
  exists m1, extract_exercise_metrics (PList h1) = Ok m1 /\
    metrics_le metrics0 m1 /\ metrics_le m1 m2.
Proof.
  unfold extract_exercise_metrics. cbn [py_iter mbind result_bind]. rewrite foldM_app.
  intros (st2 & (st1 & H1 & H2)%bind_eq_Ok & [= <-])%bind_eq_Ok.
  exists (ms_metrics st1). rewrite H1.
  split; [done | split; [exact (scan_fold_mono _ _ _ H1) | exact (scan_fold_mono _ _ _ H2)]].
Qed.

(** C24. One line per message: when every message is a dict whose
    content is a str without newline, the formatted history split on
    newlines has exactly one line per message, in order, and a line
    starts with "Patient: " exactly when its message's role is the str
    "user" (any other role, or none, gives "AI Coach: "). *)
Theorem format_conversation_history_lines msgs out :
  format_conversation_history (PList msgs) = Ok out -> msgs <> [] ->
  Forall (fun msg => exists s, py_get msg (u "content") (PStr []) = Ok (PStr s) /\ 10 ∉ s) msgs ->
  Forall2 (fun msg line => is_prefix (u "Patient: ") line = true <->
                           py_get msg (u "role") (PStr []) = Ok (PStr (u "user")))
          msgs (split_on 10 out).
Proof.
  unfold format_conversation_history. cbn [py_iter mbind result_bind].
  intros (lines & Hl & [= <-])%bind_eq_Ok Hne Hall.
  destruct (format_lines_rel _ _ Hl Hall) as [Hr Hf].
  rewrite split_on_join; [done | | done].
  intros ->. apply Forall2_length in Hr. by destruct msgs.
Qed.

(** C29. A count of more than 4300 digits makes [int()] raise
    [ValueError], so the extractor fails, although the spec says it
    never does. *)
Theorem scan_message_digit_limit st msg c m :
  message_content msg = Ok c -> last_opt (re_findall SETS_RE c) = Some m ->
  (int_max_str_digits < length m)%nat ->
  scan_message st msg = Err (ValueError (limit_to_int_msg (length m))).
Proof.
  intros Hc Hm Hlen.
  destruct (findall_count_item (u "set") c m ltac:(discriminate) (last_opt_In _ _ Hm))
    as (Hne & Hd & _ & Hk).
  unfold scan_message. rewrite Hc. cbn [mbind result_bind].
  assert (Hmen : mentions (u "set") c = true) by (unfold mentions; by rewrite Hk).
  rewrite Hmen. unfold update_max. rewrite Hm, py_int_decimals by done.
  by destruct (Nat.ltb_spec int_max_str_digits (length m)); [|lia].
Qed.

(** C30. The count pattern has no word boundary. In a message whose
    lower-cased content is [pre ++ ds ++ sp ++ "set" ++ w], where the run
    of decimal digits [ds] is the only number and [sp] is white space,
    the extractor counts [ds] as the sets completed, whatever letters
    [w] continue the word with: "2 settings", "3 setbacks" and "4 setup"
    all count. *)
Theorem extract_exercise_metrics_no_word_boundary msg pre ds sp w :
  message_content msg = Ok (pre ++ ds ++ sp ++ u "set" ++ w) ->
  forallb (fun c => negb (is_decimal c)) pre = true ->
  ds <> [] -> forallb is_decimal ds = true -> forallb uc_isspace sp = true ->
  forallb (fun c => negb (is_decimal c)) w = true ->
  (length (pre ++ ds ++ sp ++ u "set" ++ w) <= int_max_str_digits)%nat ->
  exists m, extract_exercise_metrics (PList [msg]) = Ok m /\
    sets_completed m = Z.of_N (decimal_value ds).
Proof.
  intros Hc Hpre Hds Hdig Hsp Hw Hlen.
  assert (Htail : forallb (fun c => negb (is_decimal c)) (u "set" ++ w) = true).
  { rewrite forallb_app, Hw, andb_true_r. cbn. unfold is_decimal.
    by rewrite !uc_decimal_ascii. }
  unfold extract_exercise_metrics. cbn [py_iter mbind result_bind].
  rewrite (scan_fold_ok [msg] [pre ++ ds ++ sp ++ u "set" ++ w] metrics0 false); [eexists; split; [reflexivity|] | | | done |].
  - cbn [fold_left sets_completed ms_metrics metrics0]. unfold last_count.
    rewrite re_findall_run by done. cbn [last_opt]. lia.
  - cbn [mapM]. by rewrite Hc.
  - by apply Forall_singleton.
  - right. intros [Hs _]%re_unbound_at_inv. unfold mentions in Hs.
    rewrite app_assoc, app_assoc, contains_infix in Hs. done.
Qed.

End Properties.

(** ** Witnesses *)

Module MetricsWitnesses.

Definition content_msg (s : string) : pyval := PDict [(u "content", PStr (u s))].

Definition spec_transcript : list pyval :=
  [content_msg "I did 2 sets"; content_msg "actually let's say 3 sets today";
   content_msg "completed 1 set"; content_msg "Then 12 REPS and 5 minutes"].

Lemma extract_exercise_metrics_refines_witness :
  exists cs, mapM message_content spec_transcript = Ok cs /\
    extract_exercise_metrics (PList spec_transcript) = Ok (spec_metrics cs).
Proof.
  assert (Hcs : mapM message_content spec_transcript =
                Ok (map u ["i did 2 sets"; "actually let's say 3 sets today";
                           "completed 1 set"; "then 12 reps and 5 minutes"]%string))
    by (vm_compute; reflexivity).
  exists (map u ["i did 2 sets"; "actually let's say 3 sets today";
                 "completed 1 set"; "then 12 reps and 5 minutes"]%string).
  split; [exact Hcs|].
  apply (extract_exercise_metrics_refines _ _ Hcs).
  - repeat constructor; vm_compute; discriminate.
  - intros [Hs _]%re_unbound_at_inv. vm_compute in Hs. discriminate.
Defined.

Lemma extract_exercise_metrics_unbound_witness :
  extract_exercise_metrics (PList [content_msg "I did 10 reps"; content_msg "2 sets"]) =
  Err RE_UNBOUND.
Proof.
  assert (Hcs : mapM message_content [content_msg "I did 10 reps"; content_msg "2 sets"] =
                Ok [u "i did 10 reps"; u "2 sets"]) by (vm_compute; reflexivity).
  apply (extract_exercise_metrics_unbound _ _ Hcs).
  exists [], (u "i did 10 reps"), [u "2 sets"].
  split; [reflexivity | split; [repeat constructor | reflexivity]].
Defined.

Lemma extract_exercise_metrics_monotone_witness :
  exists m1, extract_exercise_metrics (PList (take 2 spec_transcript)) = Ok m1 /\
    metrics_le metrics0 m1 /\
    metrics_le m1 {| sets_completed := 3; reps_completed := 12; duration_minutes := 5 |}.
Proof.
  apply (extract_exercise_metrics_monotone (take 2 spec_transcript) (drop 2 spec_transcript)).
  vm_compute. reflexivity.
Defined.

Definition chat : list pyval :=
  [PDict [(u "role", PStr (u "user")); (u "content", PStr (u "my knee hurts"))];
   PDict [(u "role", PStr (u "assistant")); (u "content", PStr (u "try 3 sets"))];
   PDict [(u "role", PStr (u "User")); (u "content", PStr (u "ok"))]].

Lemma format_conversation_history_lines_witness :
  Forall2 (fun msg line => is_prefix (u "Patient: ") line = true <->
                           py_get msg (u "role") (PStr []) = Ok (PStr (u "user")))
          chat (split_on 10 (u "Patient: my knee hurts" ++ [10] ++ u "AI Coach: try 3 sets" ++
                             [10] ++ u "AI Coach: ok")).
Proof.
  apply format_conversation_history_lines; [vm_compute; reflexivity | discriminate |].
  repeat apply Forall_cons_2; [..|apply Forall_nil_2];
    (eexists; split; [cbn; reflexivity | apply (proj1 (bool_decide_eq_false _)); vm_compute; reflexivity]).
Defined.

Definition long_count : ustr := replicate 4301 49 ++ u " sets".

Lemma scan_message_digit_limit_witness :
  scan_message {| ms_metrics := metrics0; ms_re := false |} (PDict [(u "content", PStr long_count)]) =
  Err (ValueError (limit_to_int_msg 4301)).
Proof.
  apply (scan_message_digit_limit _ _ long_count (replicate 4301 49));
    [vm_compute; reflexivity | vm_compute; reflexivity | vm_compute; lia].
Defined.

Lemma extract_exercise_metrics_no_word_boundary_witness :
  exists m, extract_exercise_metrics (PList [content_msg "I changed 2 Settings"]) = Ok m /\
    sets_completed m = Z.of_N (decimal_value (u "2")).
Proof.
  apply (extract_exercise_metrics_no_word_boundary _ (u "i changed ") (u "2") (u " ") (u "tings"));
    [vm_compute; reflexivity | vm_compute; reflexivity | discriminate |
     vm_compute; reflexivity | vm_compute; reflexivity | vm_compute; reflexivity | vm_compute; lia].
Defined.

End MetricsWitnesses.
