(* ===== verification/Sqlite.v ===== *)
(** * SQLite as the handlers use it

    Both SQLite handlers open [patients_database.sqlite] and bind Python
    values as query parameters. [generate_report] filters with [=],
    sorts with [ORDER BY ... DESC] and takes the first row. This file
    holds:
    - the storage classes of a value ([sqlval]);
    - the adaptation of a parameter by Python's [sqlite3] module
      ([bind_param]), with the errors it raises;
    - the comparison of two values ([sql_cmp]) and [=] ([sql_eq]);
    - the interface [SqlSort] of "the first row of a descending sort".
      SQLite leaves the order of ties unspecified, so the interface
      promises only a row with the largest key. [first_max] is an
      instance.

    The database schema is not in the repository, so the columns are
    taken to have no type affinity: values are compared by storage
    class, without conversion. *)

From Stdlib Require Import String ZArith NArith QArith Qcanon Lia.
From stdpp Require Import base list.
From S2P Require Import Prelude PyRuntime PyValue.

Open Scope N_scope.

(** ** Values *)

Inductive sqlval : Type :=
  | SNull
  | SInt (z : Z)
  | SReal (f : pyfloat)
  | SText (s : ustr).

Definition INT64_MIN : Z := (- 2 ^ 63)%Z.
Definition INT64_MAX : Z := (2 ^ 63 - 1)%Z.

Definition is_surrogate (c : N) : bool := (55296 <=? c) && (c <=? 57343).

(** The position of the first character that satisfies [p]. *)
Fixpoint find_pos (p : N -> bool) (s : ustr) : option (nat * N) :=
  match s with
  | [] => None
  | c :: s' =>
      if p c then Some (O, c)
      else match find_pos p s' with Some (i, d) => Some (S i, d) | None => None end
  end.

(** [_pysqlite_bind_parameter] for parameter number [pos]: [None] is
    NULL; an [int] (a [bool] too) must fit in 64 bits; a NaN float
    becomes NULL, as SQLite stores it; a [str] is encoded in UTF-8,
    which fails on a lone surrogate; a list or dict is not supported. *)
Definition bind_param (pos : N) (v : pyval) : result exn sqlval :=
  match v with
  | PNone => Ok SNull
  | PBool b => Ok (SInt (if b then 1 else 0))
  | PInt z =>
      if ((INT64_MIN <=? z) && (z <=? INT64_MAX))%Z then Ok (SInt z)
      else Err (OverflowError (u "Python int too large to convert to SQLite INTEGER"))
  | PFloat FNaN => Ok SNull
  | PFloat f => Ok (SReal f)
  | PStr s =>
      match find_pos is_surrogate s with
      | Some (i, c) =>
          Err (UnicodeEncodeError
                 (u "'utf-8' codec can't encode character '\u" ++ hex_fixed 4 c ++
                  u "' in position " ++ digits (N.of_nat i) ++ u ": surrogates not allowed"))
      | None => Ok (SText s)
      end
  | PList _ | PDict _ =>
      Err (SqliteError (u "Error binding parameter " ++ digits pos ++ u ": type '" ++
                        type_name v ++ u "' is not supported"))
  end.

(** The value [sqlite3] returns for a column. *)
Definition sql_to_py (v : sqlval) : pyval :=
  match v with
  | SNull => PNone
  | SInt z => PInt z
  | SReal f => PFloat f
  | SText s => PStr s
  end.

(** ** Comparison *)

(** NULL sorts first, then numbers, then text. *)
Definition sql_rank (v : sqlval) : Z :=
  match v with SNull => 0 | SInt _ | SReal _ => 1 | SText _ => 2 end.

(** The value of a finite float. *)
Definition dyadic_q (neg : bool) (m : N) (e : Z) : Q :=
  let q := if (0 <=? e)%Z then inject_Z (Z.of_N m * 2 ^ e) else Z.of_N m # Pos.pow 2 (Z.to_pos (- e)) in
  if neg then Qopp q else q.

(** A number as a key: its value in lowest terms, with the infinities
    below and above every rational. *)
Definition num_key (v : sqlval) : Z * Qc :=
  match v with
  | SInt z => (1%Z, Q2Qc (inject_Z z))
  | SReal (FFinite neg m e) => (1%Z, Q2Qc (dyadic_q neg m e))
  | SReal (FInf true) => (0%Z, Q2Qc 0)
  | SReal (FInf false) => (2%Z, Q2Qc 0)
  | _ => (0%Z, Q2Qc 0)
  end.

(** Text compares as [memcmp] of its UTF-8 bytes, which is the order of
    the code points. *)
Fixpoint ustr_cmp (s t : ustr) : comparison :=
  match s, t with
  | [], [] => Eq
  | [], _ :: _ => Lt
  | _ :: _, [] => Gt
  | c :: s', d :: t' => match N.compare c d with Eq => ustr_cmp s' t' | r => r end
  end.

(** Lexicographic comparison of pairs. *)
Definition lex_cmp {A B} (c1 : A -> A -> comparison) (c2 : B -> B -> comparison)
    (x y : A * B) : comparison :=
  match c1 x.1 y.1 with Eq => c2 x.2 y.2 | r => r end.

Definition pair_cmp : Z * Qc -> Z * Qc -> comparison := lex_cmp Z.compare Qccompare.

(** [sqlite3MemCompare]. *)
Definition sql_cmp (a b : sqlval) : comparison :=
  match Z.compare (sql_rank a) (sql_rank b) with
  | Eq =>
      match a, b with
      | SText s, SText t => ustr_cmp s t
      | SNull, _ => Eq
      | _, _ => pair_cmp (num_key a) (num_key b)
      end
  | r => r
  end.

(** The laws of a total order, for a comparison function. *)
Definition cmp_laws {A} (cmp : A -> A -> comparison) : Prop :=
  (forall a b, cmp b a = CompOpp (cmp a b)) /\
  (forall a b, cmp a b = Eq -> a = b) /\
  (forall a b c, cmp a b = Lt -> cmp b c = Lt -> cmp a c = Lt).

Definition text_key (v : sqlval) : ustr := match v with SText s => s | _ => [] end.

(** The key [sql_cmp] compares: class, number, text. *)
Definition sql_key (v : sqlval) : Z * (Z * Qc) * ustr := (sql_rank v, num_key v, text_key v).

(** [a = b] in a [WHERE] clause: NULL when either side is NULL. *)
Definition sql_eq (a b : sqlval) : option bool :=
  match a, b with
  | SNull, _ | _, SNull => None
  | _, _ => Some (bool_decide (sql_cmp a b = Eq))
  end.

(** A [WHERE] condition holds only when it is true (not NULL). *)
Definition sql_true (o : option bool) : bool := match o with Some true => true | _ => false end.

(** ** The first row of a descending sort *)

Class SqlSort := {
  sort_desc_first {A} (key : A -> sqlval) (rows : list A) : option A;
  sort_desc_first_None {A} key (rows : list A) : sort_desc_first key rows = None <-> rows = [];
  sort_desc_first_In {A} key (rows : list A) r : sort_desc_first key rows = Some r -> r ∈ rows;
  sort_desc_first_max {A} key (rows : list A) r :
    sort_desc_first key rows = Some r -> forall r', r' ∈ rows -> sql_cmp (key r') (key r) <> Gt;
}.

(** The first row among those with the largest key. *)
Fixpoint first_max {A} (key : A -> sqlval) (rows : list A) : option A :=
  match rows with
  | [] => None
  | r :: rs =>
      match first_max key rs with
      | Some m => if bool_decide (sql_cmp (key m) (key r) = Gt) then Some m else Some r
      | None => Some r
      end
  end.

(** ** The order *)

Section Order.

Lemma cmp_laws_Z : cmp_laws Z.compare.
Proof.
  split; [intros a b; apply Z.compare_antisym | split; [apply Z.compare_eq|]].
  intros a b c H1 H2. change (a < b)%Z in H1. change (b < c)%Z in H2. change (a < c)%Z. lia.
Qed.

Lemma cmp_laws_Qc : cmp_laws Qccompare.
Proof.
  unfold Qccompare. split; [intros a b; by rewrite Qcompare_antisym|split].
  - intros a b Hq%Qeq_alt. by apply Qc_is_canon.
  - intros a b c ?%Qlt_alt ?%Qlt_alt. apply Qlt_alt. by eapply Qlt_trans.
Qed.

Lemma cmp_laws_ustr : cmp_laws ustr_cmp.
Proof.
  split; [|split].
  - induction a as [|c s IH]; intros [|d t]; cbn; try done.
    rewrite (N.compare_antisym c d). destruct (c ?= d); cbn; auto.
  - induction a as [|c s IH]; intros [|d t]; cbn; try done.
    destruct (N.compare_spec c d); try discriminate. subst. by intros ->%IH.
  - induction a as [|c s IH]; intros [|d t] [|e v]; cbn; try done.
    destruct (N.compare_spec c d), (N.compare_spec d e), (N.compare_spec c e);
      subst; try done; try lia; eauto.
Qed.

Lemma cmp_laws_lex {A B} (c1 : A -> A -> comparison) (c2 : B -> B -> comparison) :
  cmp_laws c1 -> cmp_laws c2 -> cmp_laws (lex_cmp c1 c2).
Proof.
  intros (A1 & E1 & T1) (A2 & E2 & T2). unfold lex_cmp. split; [|split].
  - intros [a1 a2] [b1 b2]; cbn. rewrite A1. destruct (c1 a1 b1); cbn; auto.
  - intros [a1 a2] [b1 b2]; cbn. destruct (c1 a1 b1) eqn:E; try discriminate.
    intros ?%E2. apply E1 in E. by subst.
  - intros [a1 a2] [b1 b2] [d1 d2]; cbn.
    destruct (c1 a1 b1) eqn:Eab; [apply E1 in Eab; subst a1 | | discriminate];
      destruct (c1 b1 d1) eqn:Ebd; try discriminate; intros H1 H2.
    + eauto.
    + done.
    + apply E1 in Ebd. subst d1. by rewrite Eab.
    + by rewrite (T1 _ _ _ Eab Ebd).
Qed.

(** With the laws, [<=] is transitive. *)
Lemma cmp_le_trans {A} (cmp : A -> A -> comparison) a b c :
  cmp_laws cmp -> cmp a b <> Gt -> cmp b c <> Gt -> cmp a c <> Gt.
Proof.
  intros (_ & E & T) Hab Hbc.
  destruct (cmp a b) eqn:Eab; [apply E in Eab; by subst | | done].
  destruct (cmp b c) eqn:Ebc; [apply E in Ebc; subst; by rewrite Eab | | done].
  by rewrite (T _ _ _ Eab Ebc).
Qed.

Definition key_cmp := lex_cmp (lex_cmp Z.compare pair_cmp) ustr_cmp.

Lemma cmp_laws_key : cmp_laws key_cmp.
Proof.
  apply cmp_laws_lex; [apply cmp_laws_lex; [apply cmp_laws_Z|] | apply cmp_laws_ustr].
  apply cmp_laws_lex; [apply cmp_laws_Z | apply cmp_laws_Qc].
Qed.

(** [sql_cmp] compares the keys. *)
Lemma sql_cmp_key a b : sql_cmp a b = key_cmp (sql_key a) (sql_key b).
Proof.
  unfold key_cmp, lex_cmp, sql_cmp, sql_key. cbn.
  destruct a, b; cbn; try reflexivity;
    repeat match goal with |- context [match ?x with _ => _ end] =>
      lazymatch x with
      | context [match _ with _ => _ end] => fail
      | _ => destruct x
      end end; reflexivity.
Qed.

Lemma sql_cmp_antisym a b : sql_cmp b a = CompOpp (sql_cmp a b).
Proof. rewrite !sql_cmp_key. apply cmp_laws_key. Qed.

Lemma sql_le_trans a b c : sql_cmp a b <> Gt -> sql_cmp b c <> Gt -> sql_cmp a c <> Gt.
Proof. rewrite !sql_cmp_key. apply cmp_le_trans, cmp_laws_key. Qed.

Lemma sql_le_refl a : sql_cmp a a <> Gt.
Proof. intros H. pose proof (sql_cmp_antisym a a) as E. rewrite H in E. discriminate. Qed.

End Order.

(** ** The sample sort *)

Section FirstMax.
Context {A : Type} (key : A -> sqlval).

Lemma first_max_None rows : first_max key rows = None <-> rows = [].
Proof.
  split; [|by intros ->]. destruct rows as [|r rs]; [done|]. cbn.
  destruct (first_max key rs); [case_bool_decide|]; discriminate.
Qed.

Lemma first_max_In_max rows r :
  first_max key rows = Some r ->
  r ∈ rows /\ forall r', r' ∈ rows -> sql_cmp (key r') (key r) <> Gt.
Proof.
  revert r. induction rows as [|x rs IH]; intros r; [done|]. cbn.
  destruct (first_max key rs) as [m|] eqn:Em.
  - destruct (IH m eq_refl) as [Hin Hmax]. case_bool_decide as Hgt; intros [= <-].
    + split; [by right|]. intros r' [->|Hr']%elem_of_cons; [|by apply Hmax].
      rewrite sql_cmp_antisym, Hgt. discriminate.
    + split; [by left|]. intros r' [->|Hr']%elem_of_cons; [apply sql_le_refl|].
      eapply sql_le_trans; [by apply Hmax | done].
  - apply first_max_None in Em as ->. intros [= <-].
    split; [by left|]. intros r' [->|Hr']%elem_of_cons; [apply sql_le_refl | inversion Hr'].
Qed.

End FirstMax.

#[export] Program Instance first_max_sort : SqlSort := {| sort_desc_first A := @first_max A |}.
Next Obligation. intros. apply first_max_None. Qed.
Next Obligation. intros A key rows r H. by apply (first_max_In_max key rows r H). Qed.
Next Obligation. intros A key rows r H. by apply (first_max_In_max key rows r H). Qed.
