(* ===== verification/Http.v ===== *)
(** * The HTTP layer of the Cloud Functions

    [onboard_patient] and [generate_report] are Flask handlers run by
    [functions_framework]. A request is reduced to its method and the
    JSON value [request.get_json()] returns. A response is a status and
    a body: the JSON of [jsonify], or the framework's error page. An
    exception that escapes a handler becomes the framework's 500 page;
    [run_handler] models that. *)

From Stdlib Require Import String ZArith NArith.
From stdpp Require Import base list.
From S2P Require Import Prelude PyRuntime PyValue.

Record http_request : Type := {
  hq_method : ustr;
  hq_json : pyval;
}.

Inductive http_body : Type :=
  | JsonBody (v : pyval)
  (** Flask's HTML page for an unhandled exception. *)
  | ErrorPage.

Record http_response : Type := {
  hp_status : Z;
  hp_body : http_body;
}.

(** [jsonify(d), code]. *)
Definition json_reply (code : Z) (d : list (ustr * pyval)) : http_response :=
  {| hp_status := code; hp_body := JsonBody (PDict d) |}.

(** [jsonify({'error': msg}), code]. *)
Definition error_reply (code : Z) (msg : string) : http_response :=
  json_reply code [(u "error", PStr (u msg))].

(** [request.method != 'POST']. *)
Definition is_post (rq : http_request) : bool := bool_decide (hq_method rq = u "POST").

(** The framework: an exception that escapes the handler answers 500. *)
Definition run_handler {W} (h : W -> result exn http_response * W) (w : W) : http_response * W :=
  let '(r, w') := h w in
  match r with
  | Ok resp => (resp, w')
  | Err _ => ({| hp_status := 500; hp_body := ErrorPage |}, w')
  end.

(** [not j or k1 not in j or k2 not in j ...], evaluated left to right
    with short-circuit: [in] raises [TypeError] on a value that is not a
    container. *)
Fixpoint lacks_keys (j : pyval) (ks : list ustr) : result exn bool :=
  match ks with
  | [] => Ok false
  | k :: ks' => b ← py_in k j; if (b : bool) then lacks_keys j ks' else Ok true
  end.

Definition lacks_fields (j : pyval) (ks : list ustr) : result exn bool :=
  if negb (py_truthy j) then Ok true else lacks_keys j ks.

(** ** Lemmas *)

Lemma dict_lookup_elem d k x : dict_lookup d k = Some x -> k ∈ map fst d.
Proof.
  induction d as [|[k' v] d IH]; cbn; [done|].
  case_bool_decide; [subst; left | intros ?%IH; by right].
Qed.

(** On a non-empty dict, the check lacks a key exactly when one of the
    keys is not in the dict. *)
Lemma lacks_fields_dict d ks :
  d <> [] ->
  lacks_fields (PDict d) ks = Ok (negb (forallb (fun k => bool_decide (k ∈ map fst d)) ks)).
Proof.
  intros Hd. unfold lacks_fields. cbn [py_truthy]. rewrite bool_decide_eq_false_2 by done.
  cbn [negb]. induction ks as [|k ks IH]; [done|]. cbn [lacks_keys py_in mbind result_bind forallb].
  by destruct (bool_decide (k ∈ map fst d)).
Qed.
