(* ===== verification/Report.v ===== *)
(** * Session report: [generate_report]

    Source: [src/backend/cloud_functions/generate_report/main.py], lines
    15-70.

    The handler checks the method and the two ids. It opens the SQLite
    database and runs one query: the join of [exercise_sessions] with
    [exercises], filtered on the two ids, sorted by [created_at]
    descending, first row. Without a row it answers 404. With a row it
    builds the report and its summary sentence, closes the connection,
    and answers 200.

    The state is the database and the number of connections the code
    opened and did not close. Those are released only when CPython
    finalises the connection object; the spec asks for release on
    every exit path. A database file without the tables is [None]:
    [sqlite3.connect] creates an empty file, and the query then raises
    "no such table". The sort is the interface [SqlSort]. *)

From Stdlib Require Import String ZArith NArith Lia.
From stdpp Require Import base list.
From S2P Require Import Prelude PyRuntime PyValue Sqlite Http.

(** ** The tables the query reads *)

Record session_row : Type := {
  es_patient_id : sqlval;
  es_exercise_id : sqlval;
  es_duration : sqlval;
  es_completed : sqlval;
  es_notes : sqlval;
  es_created_at : sqlval;
}.

Record exercise_row : Type := {
  e_id : sqlval;
  e_name : sqlval;
  e_description : sqlval;
}.

Record report_db : Type := {
  exercise_sessions : list session_row;
  exercises : list exercise_row;
}.

(** A row of the result: the six selected columns. *)
Record qrow : Type := {
  q_name : sqlval;
  q_description : sqlval;
  q_duration : sqlval;
  q_completed : sqlval;
  q_notes : sqlval;
  q_created_at : sqlval;
}.

(** The state: the database, and the connections left open. *)
Record rworld : Type := {
  rw_db : option report_db;
  rw_open : nat;
}.

(** ** The query *)

(** The rows of the join of lines 40-43, before the sort. *)
Definition session_query (db : report_db) (uid eid : sqlval) : list qrow :=
  flat_map (fun es =>
    if sql_true (sql_eq (es_patient_id es) uid) && sql_true (sql_eq (es_exercise_id es) eid)
    then map (fun e => {| q_name := e_name e; q_description := e_description e;
                          q_duration := es_duration es; q_completed := es_completed es;
                          q_notes := es_notes es; q_created_at := es_created_at es |})
             (List.filter (fun e => sql_true (sql_eq (e_id e) (es_exercise_id es))) (exercises db))
    else [])
    (exercise_sessions db).

Definition NO_TABLE : exn := SqliteError (u "no such table: exercise_sessions").

Section Handler.
Context `{PyRuntime} `{SqlSort}.

(** [cursor.execute(...)] then [cursor.fetchone()], lines 39-48: the
    statement is prepared, then the parameters are bound in order. *)
Definition fetch_latest (db : option report_db) (user_id exercise_id : pyval)
  : result exn (option qrow) :=
  d ← (match db with Some d => Ok d | None => Err NO_TABLE end);
  p1 ← bind_param 1 user_id;
  p2 ← bind_param 2 exercise_id;
  Ok (sort_desc_first q_created_at (session_query d p1 p2)).

(** The [summary] f-string, line 62. *)
Definition summary (r : qrow) : result exn ustr :=
  n ← py_str (sql_to_py (q_name r));
  d ← py_str (sql_to_py (q_duration r));
  Ok (u "Completed " ++ n ++ u " exercise for " ++ d ++ u " minutes. " ++
      (if py_truthy (sql_to_py (q_completed r)) then u "Successfully completed all reps."
       else u "Exercise was interrupted.")).

(** The [report] dict, lines 55-63. *)
Definition build_report (r : qrow) : result exn pyval :=
  s ← summary r;
  Ok (PDict [(u "exercise_name", sql_to_py (q_name r));
             (u "description", sql_to_py (q_description r));
             (u "duration_minutes", sql_to_py (q_duration r));
             (u "completed", sql_to_py (q_completed r));
             (u "notes", sql_to_py (q_notes r));
             (u "date", sql_to_py (q_created_at r));
             (u "summary", PStr s)]).

(** [generate_report(request)], lines 15-70. *)
Definition generate_report (rq : http_request) (w : rworld) : result exn http_response * rworld :=
  if negb (is_post rq) then (Ok (error_reply 405 "Method not allowed"), w)
  else
    let j := hq_json rq in
    match lacks_fields j [u "user_id"; u "exercise_id"] with
    | Err e => (Err e, w)
    | Ok true => (Ok (error_reply 400 "Missing required fields"), w)
    | Ok false =>
        match (uid ← py_getitem j (u "user_id"); eid ← py_getitem j (u "exercise_id"); Ok (uid, eid)) with
        | Err e => (Err e, w)
        | Ok (uid, eid) =>
            let w1 := {| rw_db := rw_db w; rw_open := S (rw_open w) |} in
            match fetch_latest (rw_db w) uid eid with
            | Err e => (Err e, w1)
            | Ok None => (Ok (error_reply 404 "Exercise session not found"), w1)
            | Ok (Some r) =>
                match build_report r with
                | Err e => (Err e, w1)
                | Ok rep =>
                    (Ok (json_reply 200 [(u "report", rep); (u "status", PStr (u "success"))]), w)
                end
            end
        end
    end.

End Handler.

(** ** Lemmas *)

Section Lemmas.
Context `{PyRuntime} `{SqlSort}.

(** A POST whose JSON holds both ids reaches the query. *)
Lemma generate_report_ids rq w uid eid :
  is_post rq = true ->
  lacks_fields (hq_json rq) [u "user_id"; u "exercise_id"] = Ok false ->
  py_getitem (hq_json rq) (u "user_id") = Ok uid ->
  py_getitem (hq_json rq) (u "exercise_id") = Ok eid ->
  generate_report rq w =
    let w1 := {| rw_db := rw_db w; rw_open := S (rw_open w) |} in
    match fetch_latest (rw_db w) uid eid with
    | Err e => (Err e, w1)
    | Ok None => (Ok (error_reply 404 "Exercise session not found"), w1)
    | Ok (Some r) =>
        match build_report r with
        | Err e => (Err e, w1)
        | Ok rep => (Ok (json_reply 200 [(u "report", rep); (u "status", PStr (u "success"))]), w)
        end
    end.
Proof.
  intros Hp Hl Hu He. unfold generate_report. rewrite Hp, Hl. cbn [negb].
  by rewrite Hu, He.
Qed.

Lemma fetch_latest_Ok db uid eid o :
  fetch_latest db uid eid = Ok o ->
  exists d p1 p2, db = Some d /\ bind_param 1 uid = Ok p1 /\ bind_param 2 eid = Ok p2 /\
    o = sort_desc_first q_created_at (session_query d p1 p2).
Proof.
  unfold fetch_latest. destruct db as [d|]; [|discriminate]. cbn.
  destruct (bind_param 1 uid) as [p1|]; [|discriminate]. cbn.
  destruct (bind_param 2 eid) as [p2|]; [|discriminate]. intros [= <-]. eauto 10.
Qed.

(** The outcome of a call that gets past the checks is decided by the
    query; the statuses it can give. *)
Lemma generate_report_cases rq w resp w' :
  generate_report rq w = (Ok resp, w') ->
  (hp_status resp = 405%Z /\ w' = w) \/ (hp_status resp = 400%Z /\ w' = w) \/
  exists uid eid o,
    lacks_fields (hq_json rq) [u "user_id"; u "exercise_id"] = Ok false /\ is_post rq = true /\
    py_getitem (hq_json rq) (u "user_id") = Ok uid /\
    py_getitem (hq_json rq) (u "exercise_id") = Ok eid /\
    fetch_latest (rw_db w) uid eid = Ok o /\
    match o with
    | None => resp = error_reply 404 "Exercise session not found" /\
              w' = {| rw_db := rw_db w; rw_open := S (rw_open w) |}
    | Some r => exists rep, build_report r = Ok rep /\
              resp = json_reply 200 [(u "report", rep); (u "status", PStr (u "success"))] /\ w' = w
    end.
Proof.
  unfold generate_report. destruct (is_post rq) eqn:Hp; cbn [negb].
  2: { intros [= <- <-]. by left. }
  destruct (lacks_fields _ _) as [[|]|e] eqn:Hl; [intros [= <- <-]; by right; left | | discriminate].
  destruct (py_getitem (hq_json rq) (u "user_id")) as [uid|] eqn:Hu; [|discriminate]. cbn [mbind result_bind].
  destruct (py_getitem (hq_json rq) (u "exercise_id")) as [eid|] eqn:He; [|discriminate]. cbn [mbind result_bind].
  destruct (fetch_latest (rw_db w) uid eid) as [[r|]|] eqn:Hf; [| |discriminate].
  - destruct (build_report r) as [rep|] eqn:Hb; [|discriminate]. intros [= <- <-].
    right; right. exists uid, eid, (Some r). eauto 10.
  - intros [= <- <-]. right; right. exists uid, eid, None. eauto 10.
Qed.

End Lemmas.

(** ** Properties *)

Section Properties.
Context `{PyRuntime} `{SqlSort}.

(** C12. Refinement of the spec's contract (section 4.3). A 200 answer
    reports a row of the join for the two ids, bound as SQLite
    parameters, whose [created_at] is the largest among the matching
    rows. The body is that row's report with status "success", and the
    connection is closed. *)
Theorem generate_report_latest rq w resp w' :
  generate_report rq w = (Ok resp, w') -> hp_status resp = 200%Z ->
  w' = w /\
  exists d uid eid p1 p2 r rep,
    rw_db w = Some d /\
    py_getitem (hq_json rq) (u "user_id") = Ok uid /\
    py_getitem (hq_json rq) (u "exercise_id") = Ok eid /\
    bind_param 1 uid = Ok p1 /\ bind_param 2 eid = Ok p2 /\
    r ∈ session_query d p1 p2 /\
    (forall r', r' ∈ session_query d p1 p2 -> sql_cmp (q_created_at r') (q_created_at r) <> Gt) /\
    build_report r = Ok rep /\
    hp_body resp = JsonBody (PDict [(u "report", rep); (u "status", PStr (u "success"))]).
Proof.
  intros [[Hs _]|[[Hs _]|(uid & eid & o & _ & _ & Hu & He & Hf & Ho)]]%generate_report_cases Hst;
    [congruence | congruence |].
  apply fetch_latest_Ok in Hf as (d & p1 & p2 & Hd & H1 & H2 & ->).
  destruct (sort_desc_first q_created_at (session_query d p1 p2)) as [r|] eqn:Hr.
  - destruct Ho as (rep & Hb & -> & ->). split; [done|].
    exists d, uid, eid, p1, p2, r, rep. do 5 (split; [done|]).
    split; [by eapply sort_desc_first_In|]. split; [by eapply sort_desc_first_max|]. done.
  - destruct Ho as [-> _]. discriminate.
Qed.

(** C13. When no session matches, the answer is 404 "Exercise session not
    found", and the connection the call opened is not closed: the code
    returns before [conn.close()]. The spec asks for release on every
    exit path. *)
Theorem generate_report_not_found rq w d uid eid p1 p2 :
  is_post rq = true ->
  lacks_fields (hq_json rq) [u "user_id"; u "exercise_id"] = Ok false ->
  py_getitem (hq_json rq) (u "user_id") = Ok uid ->
  py_getitem (hq_json rq) (u "exercise_id") = Ok eid ->
  rw_db w = Some d -> bind_param 1 uid = Ok p1 -> bind_param 2 eid = Ok p2 ->
  session_query d p1 p2 = [] ->
  generate_report rq w =
    (Ok (error_reply 404 "Exercise session not found"),
     {| rw_db := rw_db w; rw_open := S (rw_open w) |}).
Proof.
  intros Hp Hl Hu He Hd H1 H2 Hq. rewrite (generate_report_ids _ _ _ _ Hp Hl Hu He).
  unfold fetch_latest. rewrite Hd. cbn [mbind result_bind]. rewrite H1, H2.
  cbn [mbind result_bind]. by rewrite Hq, (proj2 (sort_desc_first_None _ _) eq_refl).
Qed.

(** C25. A JSON dict without one of the ids (or an empty body) answers
    400 "Missing required fields", and no connection is opened. *)
Theorem generate_report_missing_ids rq w d :
  is_post rq = true -> hq_json rq = PDict d ->
  (u "user_id" ∉ map fst d \/ u "exercise_id" ∉ map fst d) ->
  generate_report rq w = (Ok (error_reply 400 "Missing required fields"), w).
Proof.
  intros Hp Hj Hm. unfold generate_report. rewrite Hp, Hj. cbn [negb].
  unfold lacks_fields. destruct d as [|kv d]; [done|].
  cbn [py_truthy negb lacks_keys py_in mbind result_bind].
  rewrite bool_decide_eq_false_2 by done. cbn [negb].
  case_bool_decide as Hu; [|done]. cbn [lacks_keys py_in mbind result_bind].
  case_bool_decide as He; [|done]. by destruct Hm.
Qed.

(** C26. A JSON string that contains both key names passes the check
    ([in] on a str is a substring test), and the subscript [request_json
    ['user_id']] then raises [TypeError]: the framework answers 500, and
    no connection is opened. *)
Theorem generate_report_str_body rq w s :
  is_post rq = true -> hq_json rq = PStr s ->
  contains (u "user_id") s = true -> contains (u "exercise_id") s = true ->
  run_handler (generate_report rq) w = ({| hp_status := 500; hp_body := ErrorPage |}, w).
Proof.
  intros Hp Hj Hu He. unfold run_handler, generate_report. rewrite Hp, Hj. cbn [negb].
  assert (Hne : s <> []) by (intros ->; discriminate).
  unfold lacks_fields. cbn [py_truthy]. rewrite bool_decide_eq_false_2 by done. cbn [negb].
  cbn [lacks_keys py_in mbind result_bind]. rewrite Hu, He. reflexivity.
Qed.

(** C27. An int id outside the 64-bit range of SQLite makes the binding
    raise [OverflowError]: 500, with the connection left open. *)
Theorem generate_report_int_overflow rq w d z eid :
  is_post rq = true -> hq_json rq = PDict d ->
  dict_lookup d (u "user_id") = Some (PInt z) -> dict_lookup d (u "exercise_id") = Some eid ->
  rw_db w <> None -> ~ (INT64_MIN <= z <= INT64_MAX)%Z ->
  run_handler (generate_report rq) w =
    ({| hp_status := 500; hp_body := ErrorPage |}, {| rw_db := rw_db w; rw_open := S (rw_open w) |}).
Proof.
  intros Hp Hj Hu He Hd Hz.
  assert (Hin : forall k x, dict_lookup d k = Some x -> k ∈ map fst d).
  { clear. induction d as [|[k' v] d IH]; intros k x; cbn; [done|].
    case_bool_decide; [subst; left | intros ?%IH; by right]. }
  assert (Hl : lacks_fields (hq_json rq) [u "user_id"; u "exercise_id"] = Ok false).
  { rewrite Hj. unfold lacks_fields. destruct d as [|kv d']; [done|].
    cbn [py_truthy negb lacks_keys py_in mbind result_bind].
    rewrite bool_decide_eq_false_2 by done. cbn [negb].
    rewrite !bool_decide_eq_true_2 by eauto. done. }
  unfold run_handler.
  rewrite (generate_report_ids _ _ (PInt z) eid Hp Hl) by (rewrite Hj; cbn [py_getitem]; by rewrite ?Hu, ?He).
  unfold fetch_latest. destruct (rw_db w) as [db|]; [|done]. cbn [mbind result_bind bind_param].
  destruct ((INT64_MIN <=? z) && (z <=? INT64_MAX))%Z eqn:E; [|done].
  apply andb_true_iff in E as [?%Z.leb_le ?%Z.leb_le]. lia.
Qed.

(** C28. The summary cites the duration verbatim: for a text name, an
    int duration (SQLite integers have 64 bits) and an int completion
    flag, it is "Completed <name> exercise for <str(duration)> minutes. "
    followed by "Successfully completed all reps." when the flag is
    non-zero and "Exercise was interrupted." when it is 0; and [int()]
    of the cited number is the duration. *)
Theorem summary_int_duration r name d c :
  q_name r = SText name -> q_duration r = SInt d -> q_completed r = SInt c ->
  (INT64_MIN <= d <= INT64_MAX)%Z ->
  exists t, summary r =
    Ok (u "Completed " ++ name ++ u " exercise for " ++ t ++ u " minutes. " ++
        (if (c =? 0)%Z then u "Exercise was interrupted." else u "Successfully completed all reps.")) /\
    py_int_of_str t = Ok d.
Proof.
  intros Hn Hd Hc Hr. unfold summary. rewrite Hn, Hd, Hc. cbn [sql_to_py py_str py_repr mbind result_bind].
  destruct (int_to_str d) as [t|e] eqn:Ht.
  - exists t. split; [cbn; by destruct (c =? 0)%Z | by apply py_int_of_str_int_to_str].
  - exfalso. revert Ht. unfold int_to_str.
    pose proof (digits_length_bound (Z.to_N (Z.abs d)) 64) as Hl.
    destruct (Nat.ltb_spec int_max_str_digits (length (digits (Z.to_N (Z.abs d))))); [|done].
    unfold INT64_MIN, INT64_MAX in Hr. unfold int_max_str_digits in *.
    assert (Hb : (Z.to_N (Z.abs d) < 2 ^ 64)%N)
      by (apply N2Z.inj_lt; rewrite Z2N.id by lia; rewrite N2Z.inj_pow; cbn; lia).
    specialize (Hl Hb). change (S (N.to_nat 64)) with 65%nat in Hl. lia.
Qed.

End Properties.

(** ** Witnesses *)

Module ReportWitnesses.

Definition sess (pid : string) (eid : Z) (dur : Z) (done_ : Z) (at_ : string) : session_row :=
  {| es_patient_id := SText (u pid); es_exercise_id := SInt eid; es_duration := SInt dur;
     es_completed := SInt done_; es_notes := SNull; es_created_at := SText (u at_) |}.

Definition db0 : report_db :=
  {| exercise_sessions := [sess "p1" 3 10 0 "2024-01-05"; sess "p1" 3 15 1 "2024-02-01";
                           sess "p2" 4 20 1 "2024-01-07"];
     exercises := [{| e_id := SInt 3; e_name := SText (u "Squat");
                      e_description := SText (u "Body-weight squat") |};
                   {| e_id := SInt 4; e_name := SText (u "Lunge"); e_description := SNull |}] |}.

Definition w0 : rworld := {| rw_db := Some db0; rw_open := 0 |}.

Definition post (j : pyval) : http_request := {| hq_method := u "POST"; hq_json := j |}.

Definition ids (uid eid : pyval) : pyval := PDict [(u "user_id", uid); (u "exercise_id", eid)].

Lemma generate_report_latest_witness :
  exists resp, generate_report (post (ids (PStr (u "p1")) (PInt 3))) w0 = (Ok resp, w0) /\
  (w0 = w0 /\
   exists d uid eid p1 p2 r rep,
    rw_db w0 = Some d /\
    py_getitem (hq_json (post (ids (PStr (u "p1")) (PInt 3)))) (u "user_id") = Ok uid /\
    py_getitem (hq_json (post (ids (PStr (u "p1")) (PInt 3)))) (u "exercise_id") = Ok eid /\
    bind_param 1 uid = Ok p1 /\ bind_param 2 eid = Ok p2 /\
    r ∈ session_query d p1 p2 /\
    (forall r', r' ∈ session_query d p1 p2 -> sql_cmp (q_created_at r') (q_created_at r) <> Gt) /\
    build_report r = Ok rep /\
    hp_body resp = JsonBody (PDict [(u "report", rep); (u "status", PStr (u "success"))])).
Proof.
  eexists. split; [vm_compute; reflexivity|].
  apply (generate_report_latest _ _ _ w0); [vm_compute; reflexivity | reflexivity].
Defined.

Lemma generate_report_not_found_witness :
  generate_report (post (ids (PStr (u "p1")) (PInt 4))) w0 =
    (Ok (error_reply 404 "Exercise session not found"), {| rw_db := rw_db w0; rw_open := S (rw_open w0) |}).
Proof.
  apply (generate_report_not_found _ _ db0 (PStr (u "p1")) (PInt 4) (SText (u "p1")) (SInt 4));
    vm_compute; reflexivity.
Defined.

Lemma generate_report_missing_ids_witness :
  generate_report (post (PDict [(u "user_id", PStr (u "p1"))])) w0 =
    (Ok (error_reply 400 "Missing required fields"), w0).
Proof.
  apply (generate_report_missing_ids _ _ [(u "user_id", PStr (u "p1"))]); [reflexivity | reflexivity |].
  right. apply (proj1 (bool_decide_eq_false _)). vm_compute. reflexivity.
Defined.

Lemma generate_report_str_body_witness :
  run_handler (generate_report (post (PStr (u "user_id=p1&exercise_id=3")))) w0 =
    ({| hp_status := 500; hp_body := ErrorPage |}, w0).
Proof.
  apply (generate_report_str_body _ _ (u "user_id=p1&exercise_id=3")); vm_compute; reflexivity.
Defined.

Lemma generate_report_int_overflow_witness :
  run_handler (generate_report (post (ids (PInt (2 ^ 70)) (PInt 3)))) w0 =
    ({| hp_status := 500; hp_body := ErrorPage |}, {| rw_db := rw_db w0; rw_open := S (rw_open w0) |}).
Proof.
  apply (generate_report_int_overflow _ _ [(u "user_id", PInt (2 ^ 70)); (u "exercise_id", PInt 3)]
           (2 ^ 70) (PInt 3)); try (vm_compute; reflexivity); [discriminate|].
  unfold INT64_MIN, INT64_MAX. lia.
Defined.

Definition row0 : qrow :=
  {| q_name := SText (u "Squat"); q_description := SNull; q_duration := SInt 15;
     q_completed := SInt 1; q_notes := SNull; q_created_at := SText (u "2024-02-01") |}.

Lemma summary_int_duration_witness :
  exists t, summary row0 =
    Ok (u "Completed " ++ u "Squat" ++ u " exercise for " ++ t ++ u " minutes. " ++
        (if (1 =? 0)%Z then u "Exercise was interrupted." else u "Successfully completed all reps.")) /\
    py_int_of_str t = Ok 15%Z.
Proof.
  apply summary_int_duration; [reflexivity.. |]. unfold INT64_MIN, INT64_MAX. lia.
Defined.

End ReportWitnesses.
