(* ===== verification/Legacy.v ===== *)
(** * The legacy handler [onboard_patient]

    Source: [src/backend/cloud_functions/onboard_patient/main.py], lines
    44-92.

    The handler checks the method and the fields [name] and
    [pain_point]. It then draws a uuid, opens the SQLite database,
    inserts a patient and a pain point, commits, closes, and answers
    with the new id.

    Line 7 imports the class [datetime] from the module [datetime], so
    [datetime.datetime] on line 71 looks up an attribute [datetime] on
    the class. The class has none, and the line always raises
    [AttributeError]. The model keeps the statements after it, which
    never run. Its state is the two tables (written only by a commit),
    the connections left open, and the uuids drawn. *)

From Stdlib Require Import String ZArith NArith Lia.
From stdpp Require Import base list.
From S2P Require Import Prelude PyRuntime PyValue Sqlite Http Onboarding.

Record legacy_db : Type := {
  patients_rows : list (list sqlval);
  pain_points_rows : list (list sqlval);
}.

Record lworld : Type := {
  lw_db : option legacy_db;
  lw_open : nat;
  lw_issued : list ustr;
}.

(** [datetime.datetime.now().isoformat()], line 71: the attribute
    lookup [datetime.datetime] on the class fails. *)
Definition DATETIME_ATTR : exn :=
  AttributeError (u "type object 'datetime.datetime' has no attribute 'datetime'").

Definition now_isoformat : result exn ustr := Err DATETIME_ATTR.

(** [cursor.execute('INSERT INTO <table> ... VALUES (?, ...)', params)]
    inside the open transaction: the table must exist, and each
    parameter is bound in order. *)
Definition insert_row (tbl : option (list (list sqlval))) (params : list pyval)
    (tname : string) : result exn (list (list sqlval)) :=
  rows ← (match tbl with Some r => Ok r | None => Err (SqliteError (u "no such table: " ++ u tname)) end);
  vals ← mapM (fun '(i, v) => bind_param (N.of_nat (S i)) v) (imap pair params);
  Ok (rows ++ [vals]).

Section Handler.
Context `{PyRuntime} `{UuidSource}.

(** Lines 64-92 after the field checks: the uuid, the connection, line
    71, the two inserts of one transaction, the commit and the answer. *)
Definition legacy_insert (name pain_point : pyval) (w : lworld)
  : result exn http_response * lworld :=
  let user_id := next_uuid (lw_issued w) in
  let w1 := {| lw_db := lw_db w; lw_open := S (lw_open w); lw_issued := user_id :: lw_issued w |} in
  match now_isoformat with
  | Err e => (Err e, w1)
  | Ok now =>
      let pain_point_id := next_uuid (lw_issued w1) in
      let w2 := {| lw_db := lw_db w; lw_open := lw_open w1; lw_issued := pain_point_id :: lw_issued w1 |} in
      match
        (p ← insert_row (patients_rows <$> lw_db w)
               [PStr user_id; name; PStr now; PStr now] "patients";
         q ← insert_row (pain_points_rows <$> lw_db w)
               [PStr pain_point_id; PStr user_id; pain_point; PInt 5; PStr now] "pain_points";
         Ok {| patients_rows := p; pain_points_rows := q |})
      with
      | Err e => (Err e, w2)
      | Ok db' =>
          (Ok (json_reply 200 [(u "user_id", PStr user_id); (u "status", PStr (u "success"))]),
           {| lw_db := Some db'; lw_open := lw_open w; lw_issued := lw_issued w2 |})
      end
  end.

(** [onboard_patient(request)], lines 44-92. *)
Definition onboard_patient (rq : http_request) (w : lworld) : result exn http_response * lworld :=
  if negb (is_post rq) then (Ok (error_reply 405 "Method not allowed"), w)
  else
    let j := hq_json rq in
    match lacks_fields j [u "name"; u "pain_point"] with
    | Err e => (Err e, w)
    | Ok true => (Ok (error_reply 400 "Missing required fields"), w)
    | Ok false =>
        match (name ← py_getitem j (u "name"); pain ← py_getitem j (u "pain_point"); Ok (name, pain)) with
        | Err e => (Err e, w)
        | Ok (name, pain) => legacy_insert name pain w
        end
    end.

End Handler.

(** ** Properties *)

Section Properties.
Context `{PyRuntime} `{UuidSource}.

(** C14. [onboard_patient] never succeeds and never writes. Whatever the
    request and the database, its answer is 405, 400 or 500, and the
    tables are unchanged. *)
Theorem onboard_patient_never_succeeds rq w resp w' :
  run_handler (onboard_patient rq) w = (resp, w') ->
  (hp_status resp = 405%Z \/ hp_status resp = 400%Z \/ hp_status resp = 500%Z) /\
  lw_db w' = lw_db w.
Proof.
  unfold run_handler, onboard_patient. destruct (is_post rq); cbn [negb].
  2: { intros [= <- <-]. auto. }
  destruct (lacks_fields _ _) as [[|]|e]; [intros [= <- <-]; auto | | intros [= <- <-]; auto].
  destruct (py_getitem (hq_json rq) (u "name")) as [name|]; cbn [mbind result_bind];
    [|intros [= <- <-]; auto].
  destruct (py_getitem (hq_json rq) (u "pain_point")) as [pain|]; cbn [mbind result_bind];
    [|intros [= <- <-]; auto].
  unfold legacy_insert, now_isoformat. intros [= <- <-]. auto.
Qed.

(** C15. A POST of a dict with [name] and [pain_point] draws a uuid, opens
    a connection, and raises [AttributeError] at line 71: the connection
    is left open and no row is written. *)
Theorem onboard_patient_attribute_error rq w d name pain :
  is_post rq = true -> hq_json rq = PDict d ->
  dict_lookup d (u "name") = Some name -> dict_lookup d (u "pain_point") = Some pain ->
  onboard_patient rq w =
    (Err DATETIME_ATTR,
     {| lw_db := lw_db w; lw_open := S (lw_open w);
        lw_issued := next_uuid (lw_issued w) :: lw_issued w |}).
Proof.
  intros Hp Hj Hn Hpp. unfold onboard_patient. rewrite Hp, Hj. cbn [negb].
  assert (Hd : d <> []) by (intros ->; discriminate).
  rewrite lacks_fields_dict by done. cbn [forallb].
  rewrite !bool_decide_eq_true_2 by eauto using dict_lookup_elem. cbn [negb andb].
  cbn [py_getitem]. rewrite Hn, Hpp. reflexivity.
Qed.

End Properties.

Module LegacyWitnesses.

Definition w0 : lworld :=
  {| lw_db := Some {| patients_rows := []; pain_points_rows := [] |}; lw_open := 0; lw_issued := [] |}.

Definition rq0 : http_request :=
  {| hq_method := u "POST";
     hq_json := PDict [(u "name", PStr (u "Ana")); (u "pain_point", PStr (u "knee"))] |}.

Lemma onboard_patient_never_succeeds_witness :
  (hp_status (run_handler (onboard_patient rq0) w0).1 = 405%Z \/
   hp_status (run_handler (onboard_patient rq0) w0).1 = 400%Z \/
   hp_status (run_handler (onboard_patient rq0) w0).1 = 500%Z) /\
  lw_db (run_handler (onboard_patient rq0) w0).2 = lw_db w0.
Proof.
  apply (onboard_patient_never_succeeds rq0 w0 (run_handler (onboard_patient rq0) w0).1
           (run_handler (onboard_patient rq0) w0).2).
  vm_compute. reflexivity.
Defined.

Lemma onboard_patient_attribute_error_witness :
  onboard_patient rq0 w0 =
    (Err DATETIME_ATTR,
     {| lw_db := lw_db w0; lw_open := S (lw_open w0); lw_issued := next_uuid (lw_issued w0) :: lw_issued w0 |}).
Proof.
  apply (onboard_patient_attribute_error _ _
           [(u "name", PStr (u "Ana")); (u "pain_point", PStr (u "knee"))] (PStr (u "Ana")) (PStr (u "knee")));
    vm_compute; reflexivity.
Defined.

End LegacyWitnesses.
